(** * brings-cli: browser login, credential assembly and JWT claims

    A shallow embedding of the credential-acquisition code of
    [benithors/brings-cli] and the properties the specification states
    about it.

    Sources embedded here:
    - the CLI file holding [decodeJWT], [toFloat], [toString],
      [loginCommand] and [statusCommand] ([src/unnamed/part_002]);
    - the browser login with the single-slot channel, the storage scan and
      [finalizeAuthResult] (second document of
      [src/internal/cli/config.go]), module [BrowserAuth];
    - the earlier revision of the same file
      ([src/internal/cli/browser_auth.go]), module [BrowserAuthLegacy].

    Strings are Rocq strings: one [ascii] per byte (Go) or per code unit
    (JavaScript); the development is about text in that range. *)

From Stdlib Require Import ZArith NArith List Bool Ascii String Lia.
From Stdlib Require Import Floats.SpecFloat.
From stdpp Require Import base option list strings gmap.

Local Open Scope string_scope.
Local Open Scope Z_scope.
Local Set Warnings "-register-all".

(** ** The Go standard library, as far as the code uses it *)

Module Go.

(** [strings.Split(s, sep)] for a one-byte separator: the pieces between
    the separators, [n+1] of them for [n] separators. *)
Fixpoint Split (s : string) (sep : ascii) : list string :=
  match s with
  | EmptyString => [EmptyString]
  | String c t =>
      if Ascii.eqb c sep then EmptyString :: Split t sep
      else match Split t sep with
           | h :: r => String c h :: r
           | [] => [String c EmptyString]
           end
  end.

(** [strings.Contains(s, substr)]. *)
Fixpoint Contains (s substr : string) : bool :=
  if String.prefix substr s then true
  else match s with
       | EmptyString => false
       | String _ t => Contains t substr
       end.

(** [parts[len(parts)-1]] on the result of [Split], which is never
    empty. *)
Definition lastPart (parts : list string) : string :=
  List.last parts EmptyString.

(** *** [encoding/base64], [RawURLEncoding] *)

Definition between (lo hi c : N) : bool := (lo <=? c)%N && (c <=? hi)%N.

(** The URL-safe alphabet: [A-Z a-z 0-9 - _]. *)
Definition sextet (c : ascii) : option N :=
  let n := N_of_ascii c in
  if between 65 90 n then Some (n - 65)%N
  else if between 97 122 n then Some (n - 71)%N
  else if between 48 57 n then Some (n + 4)%N
  else if (n =? 45)%N then Some 62%N
  else if (n =? 95)%N then Some 63%N
  else None.

Definition isNewline (c : ascii) : bool :=
  let n := N_of_ascii c in (n =? 10)%N || (n =? 13)%N.

(** The decoder skips carriage returns and line feeds and rejects every
    other byte outside the alphabet, the padding byte too (the raw
    encodings have none). *)
Fixpoint sextets (s : string) : option (list N) :=
  match s with
  | EmptyString => Some []
  | String c t =>
      if isNewline c then sextets t
      else match sextet c, sextets t with
           | Some v, Some r => Some (v :: r)
           | _, _ => None
           end
  end.

Definition byteOf (n : N) : ascii := ascii_of_N (n mod 256).

(** Four sextets give three bytes; a final group of three gives two and
    of two gives one (trailing bits are not checked: the encoding is not
    strict); a final group of one is corrupt input. *)
Fixpoint quanta (l : list N) : option string :=
  match l with
  | [] => Some EmptyString
  | [_] => None
  | [a; b] => Some (String (byteOf (a * 4 + b / 16)) EmptyString)
  | [a; b; c] =>
      Some (String (byteOf (a * 4 + b / 16))
           (String (byteOf (b * 16 + c / 4)) EmptyString))
  | a :: b :: c :: d :: r =>
      match quanta r with
      | Some t =>
          Some (String (byteOf (a * 4 + b / 16))
               (String (byteOf (b * 16 + c / 4))
               (String (byteOf (c * 64 + d)) t)))
      | None => None
      end
  end.

(** [base64.RawURLEncoding.DecodeString]; [None] is its
    [CorruptInputError]. *)
Definition RawURLDecodeString (s : string) : option string :=
  match sextets s with
  | Some l => quanta l
  | None => None
  end.

(** *** [float64] and [int64] *)

(** A [float64] is an IEEE 754 binary64 value. *)
Definition float64 : Type := spec_float.

Definition float64_0 : float64 := S754_zero false.

Definition wrap64 (z : Z) : Z := (z + 2 ^ 63) mod 2 ^ 64 - 2 ^ 63.

Definition minInt64 : Z := - 2 ^ 63.
Definition maxInt64 : Z := 2 ^ 63 - 1.

(** The value of a float truncated toward zero, when it is a number
    within [int64]. *)
Definition truncate (f : float64) : option Z :=
  match f with
  | S754_zero _ => Some 0
  | S754_finite s m e =>
      let a := if 0 <=? e then Z.pos m * 2 ^ e else Z.pos m / 2 ^ (- e) in
      let v := if s then - a else a in
      if (minInt64 <=? v) && (v <=? maxInt64) then Some v else None
  | S754_infinity _ | S754_nan => None
  end.

(** *** [time] *)

(** A [time.Time] without monotonic reading: seconds since January 1,
    year 1, and nanoseconds within the second. *)
Record Time : Type := mkTime { ext : Z; nsec : Z }.

Definition unixToInternal : Z := 62135596800.

(** [time.Unix(sec, 0)]: the offset is added in [int64]. *)
Definition Unix (sec : Z) : Time :=
  {| ext := wrap64 (sec + unixToInternal); nsec := 0 |}.

(** [t.Before(u)] on wall-clock readings. *)
Definition Before (t u : Time) : bool :=
  (ext t <? ext u) || ((ext t =? ext u) && (nsec t <? nsec u)).

(** The instant [sec] seconds and [ns] nanoseconds after the Unix
    epoch, as [time.Now()] reports it. *)
Definition At (sec ns : Z) : Time :=
  {| ext := sec + unixToInternal; nsec := ns |}.

End Go.

(** ** Values, errors and the parsers of the two run-times *)

(** What [json.Unmarshal] stores in an [interface{}] and what
    [JSON.parse] returns: [nil]/[null], [bool], [float64], [string],
    [[]interface{}] and [map[string]interface{}]. An object keeps its
    members in document order; on a repeated key the last member counts. *)
Inductive JSON : Type :=
  | JNull
  | JBool (b : bool)
  | JNumber (f : Go.float64)
  | JString (s : string)
  | JArray (l : list JSON)
  | JObject (members : list (string * JSON)).

(** The member of an object for a key: the last one in document order. *)
Fixpoint member (k : string) (members : list (string * JSON)) : option JSON :=
  match members with
  | [] => None
  | (k', v) :: r =>
      match member k r with
      | Some w => Some w
      | None => if String.eqb k k' then Some v else None
      end
  end.

(** The errors the code returns, by their message or origin. *)
Inductive error : Type :=
  | ErrInvalidTokenFormat   (* "invalid token format" *)
  | ErrCorruptInput         (* base64.CorruptInputError *)
  | ErrUnmarshal            (* an error of json.Unmarshal *)
  | ErrExtractAuth          (* "failed to extract authentication data" *)
  | ErrLoginTimedOut        (* "login timed out" *)
  | ErrUnexpectedResult     (* "unexpected localStorage result" and
                               "unexpected storage scan result"; the
                               scripts return strings, so never returned *)
  | ErrDriver (what : string). (* an error of the automation driver *)

Inductive Result (A : Type) : Type :=
  | Ok (a : A)
  | Err (e : error).
Arguments Ok {A} a.
Arguments Err {A} e.

(** Library functions whose grammar is not part of this repository. Every
    theorem below holds for whatever they return; [Reference.runtime] near
    the end of the definitions implements them on plain JSON text, for the
    concrete instances. *)
Class Runtime : Type := {
  (** [json.Unmarshal(data, &raw)] for [raw map[string]interface{}]:
      the map it leaves in [raw], [None] when it returns an error. *)
  json_Unmarshal : string -> option (gmap string JSON);
  (** [JSON.parse(text)] of the browser; [None] when it throws. *)
  JSON_parse : string -> option JSON;
  (** [strconv.ParseFloat(s, 64)]; [None] when it returns an error. *)
  strconv_ParseFloat : string -> option Go.float64;
  (** [strconv.FormatFloat(v, 'f', -1, 64)]. *)
  strconv_FormatFloat : Go.float64 -> string;
  (** [strconv.FormatInt(i, 10)]. *)
  strconv_FormatInt : Z -> string;
  (** The result of the conversion [int64(f)] for a float that is not a
      number within [int64], which Go leaves to the platform. *)
  int64_unrepresentable : Go.float64 -> Z
}.

(** ** The command-line file ([src/unnamed/part_002]) *)

Module Cli.
Section WithRuntime.
Context `{Runtime}.

Definition nonEmpty (s : string) : bool := negb (String.eqb s EmptyString).

(** [float64(i)] for an [int64]. *)
Definition float64_of_int64 (i : Z) : Go.float64 :=
  binary_normalize 53 1024 i 0 false.

(** The conversion [int64(f)]: truncation toward zero. *)
Definition int64_of_float64 (f : Go.float64) : Z :=
  match Go.truncate f with
  | Some v => v
  | None => int64_unrepresentable f
  end.

(** [toString(value)] on a decoded JSON value. The cases [fmt.Stringer],
    [int], [int64] and [json.Number] of the type switch never match such
    a value. *)
Definition toString (value : JSON) : string :=
  match value with
  | JString v => v
  | JNumber v =>
      if SFeqb v (float64_of_int64 (int64_of_float64 v))
      then strconv_FormatInt (int64_of_float64 v)
      else strconv_FormatFloat v
  | _ => EmptyString
  end.

(** [toFloat(value)] on a decoded JSON value: a number as it is, a
    string through [strconv.ParseFloat], anything else zero. *)
Definition toFloat (value : JSON) : Go.float64 :=
  match value with
  | JNumber v => v
  | _ =>
      let s := toString value in
      if nonEmpty s then
        match strconv_ParseFloat s with
        | Some f => f
        | None => Go.float64_0
        end
      else Go.float64_0
  end.

Record jwtClaims : Type := mkClaims {
  Sub : string;
  Email : string;
  Exp : Z
}.

Definition stringClaim (raw : gmap string JSON) (k : string) : string :=
  match raw !! k with
  | Some (JString v) => v
  | _ => EmptyString
  end.

(** [decodeJWT(token)]. *)
Definition decodeJWT (token : string) : Result jwtClaims :=
  let parts := Go.Split token "."%char in
  if negb (Nat.eqb (length parts) 3) then Err ErrInvalidTokenFormat
  else
    match Go.RawURLDecodeString (nth 1 parts EmptyString) with
    | None => Err ErrCorruptInput
    | Some payload =>
        match json_Unmarshal payload with
        | None => Err ErrUnmarshal
        | Some raw =>
            Ok {| Sub := stringClaim raw "sub";
                  Email := stringClaim raw "email";
                  Exp := match raw !! "exp" with
                         | Some expVal => int64_of_float64 (toFloat expVal)
                         | None => 0
                         end |}
        end
    end.

(** The expiry test written out in [loginCommand] and [statusCommand]:
    [decoded.Exp > 0 && time.Unix(decoded.Exp, 0).Before(time.Now())]. *)
Definition tokenExpired (decoded : jwtClaims) (now : Go.Time) : bool :=
  (0 <? Exp decoded) && Go.Before (Go.Unix (Exp decoded)) now.

(** The user id both login paths derive from a subject:
    [parts := strings.Split(sub, ":"); parts[len(parts)-1]]. *)
Definition subjectUserUUID (sub : string) : string :=
  Go.lastPart (Go.Split sub ":"%char).

(** The token path of [loginCommand], up to the call of the account
    service: either the message it prints before returning 1, or the
    token and user id it validates. *)
Inductive tokenLogin : Type :=
  | NoTokenProvided
  | InvalidTokenFormat
  | TokenMissingSub
  | TokenHasExpired
  | ValidateToken (token userUUID : string).

Definition loginCommand (token : string) (now : Go.Time) : tokenLogin :=
  if negb (nonEmpty token) then NoTokenProvided
  else
    match decodeJWT token with
    | Err _ => InvalidTokenFormat
    | Ok decoded =>
        if negb (nonEmpty (Sub decoded)) then TokenMissingSub
        else if tokenExpired decoded now then TokenHasExpired
        else ValidateToken token (subjectUserUUID (Sub decoded))
    end.

(** The expiry warning of [statusCommand] for a stored token. *)
Definition statusCommand (accessToken : string) (now : Go.Time) : bool :=
  match decodeJWT accessToken with
  | Ok decoded => tokenExpired decoded now
  | Err _ => false
  end.

End WithRuntime.
End Cli.

(** ** The automation driver and the page, as the code sees them *)

Module Playwright.

(** A storage area of the page: its entries in the order of
    [storage.key(i)]. *)
Definition Storage : Type := list (string * string).

(** A page handle: its URL, its two storage areas, and whether
    [page.Evaluate] returns an error on it. *)
Record Page : Type := mkPage {
  URL : string;
  localStorage : Storage;
  sessionStorage : Storage;
  evaluateFails : bool
}.

(** What one look at the browser shows: the page the code opened and the
    pages of its context ([None] when [page.Context()] is nil). *)
Record View : Type := mkView {
  page : Page;
  context : option (list Page)
}.

Definition pagesOf (v : View) : list Page :=
  match context v with
  | Some pages => pages
  | None => [page v]
  end.

End Playwright.

(** ** JavaScript values of the in-page scripts *)

Module JS.

Inductive value : Type :=
  | Undefined
  | Val (j : JSON).

(** [ToBoolean]. *)
Definition truthy (v : value) : bool :=
  match v with
  | Undefined => false
  | Val JNull => false
  | Val (JBool b) => b
  | Val (JNumber f) =>
      match f with
      | S754_zero _ | S754_nan => false
      | _ => true
      end
  | Val (JString s) => negb (String.eqb s EmptyString)
  | Val (JArray _) | Val (JObject _) => true
  end.

(** [a || b] and [a && b]. *)
Definition or (a b : value) : value := if truthy a then a else b.
Definition and (a b : value) : value := if truthy a then b else a.

(** [o.name] for one of the names the scripts read, none of which an
    array, a string, a number or [Object.prototype] defines. *)
Definition prop (o : value) (name : string) : value :=
  match o with
  | Val (JObject members) =>
      match member name members with
      | Some v => Val v
      | None => Undefined
      end
  | _ => Undefined
  end.

(** [typeof o === 'object']. *)
Definition isObject (o : value) : bool :=
  match o with
  | Val JNull | Val (JArray _) | Val (JObject _) => true
  | _ => false
  end.

(** [storage.getItem(key)]: the string stored under the key, or null. *)
Definition getItem (st : Playwright.Storage) (key : string) : value :=
  match List.find (fun kv => String.eqb (fst kv) key) st with
  | Some kv => Val (JString (snd kv))
  | None => Val JNull
  end.

(** [storage.getItem(storage.key(i))] for [i] from 0 to
    [storage.length - 1]. *)
Definition itemsOf (st : Playwright.Storage) : list value :=
  List.map (fun kv => getItem st (fst kv)) st.

(** *** The pattern of the storage scan

    The script reaches the page with its pattern spelled
    [eyJ[A-Za-z0-9_-]+\\.[A-Za-z0-9_-]+\\.[A-Za-z0-9_-]+]: the Go string
    is a raw one, so each separator is a backslash followed by any one
    character other than a line terminator. Strings are the bytes of
    their UTF-8 form; the separator is modelled for a character of one
    byte. *)

Definition isTokenChar (c : ascii) : bool :=
  let n := N_of_ascii c in
  Go.between 65 90 n || Go.between 97 122 n || Go.between 48 57 n
  || (n =? 95)%N || (n =? 45)%N.

(** The longest run of token characters at the head of a string, and
    what follows it. *)
Fixpoint tokenRun (s : string) : string * string :=
  match s with
  | EmptyString => (EmptyString, EmptyString)
  | String c t =>
      if isTokenChar c then
        let '(a, r) := tokenRun t in (String c a, r)
      else (EmptyString, s)
  end.

Definition isEmpty (s : string) : bool := String.eqb s EmptyString.

(** A separator and the run after it: [\\.[A-Za-z0-9_-]+]. *)
Definition separated (s : string) : option (string * string) :=
  match s with
  | String b (String c r) =>
      if Ascii.eqb b "\"%char && negb (Go.isNewline c) then
        let '(a, r') := tokenRun r in
        if isEmpty a then None else Some (String b (String c a), r')
      else None
  | _ => None
  end.

(** A match of the pattern at the head of the string. The runs are
    greedy and what follows a run is never a token character, so there
    is one candidate per starting point. *)
Definition jwtAt (s : string) : option string :=
  match s with
  | String c1 (String c2 (String c3 r0)) =>
      if Ascii.eqb c1 "e"%char && Ascii.eqb c2 "y"%char && Ascii.eqb c3 "J"%char then
        let '(a, r1) := tokenRun r0 in
        if isEmpty a then None
        else
          match separated r1 with
          | Some (b, r2) =>
              match separated r2 with
              | Some (c, _) => Some ("eyJ" +:+ a +:+ b +:+ c)
              | None => None
              end
          | None => None
          end
      else None
  | _ => None
  end.

(** [value.match(jwtRegex)]: the leftmost match, if any. *)
Fixpoint jwtMatch (s : string) : option string :=
  match jwtAt s with
  | Some m => Some m
  | None =>
      match s with
      | EmptyString => None
      | String _ t => jwtMatch t
      end
  end.

End JS.

(** ** The browser login (second document of [src/internal/cli/config.go]) *)

Module BrowserAuth.

Import Playwright.

(** [BrowserAuthResult] holds auth data extracted from browser login. *)
Record BrowserAuthResult : Type := mkResult {
  AccessToken : string;
  UserUUID : string;
  PublicUserUUID : string;
  UserName : string;
  Email : string
}.

(** [BrowserAuthResult{}]. *)
Definition noResult : BrowserAuthResult :=
  mkResult EmptyString EmptyString EmptyString EmptyString EmptyString.

Module Payload.
Record authResponsePayload : Type := mkPayload {
  Name : string;
  UUID : string;
  PublicUUID : string;
  AccessToken : string;
  RefreshToken : string
}.
End Payload.
Abbreviation authResponsePayload := Payload.authResponsePayload.

(** A [playwright.Response] as the handler reads it: [Status()],
    [URL()], and what [JSON(&payload)] leaves in the payload ([None]
    when it returns an error); with it the instant, in milliseconds, at
    which the handler is done with the response (the goroutine it starts
    reaches the send). *)
Module Response.
Record t : Type := mk {
  Status : Z;
  URL : string;
  JSON : option authResponsePayload;
  Sent : Z
}.
End Response.

(** [authResponseCh], a channel of capacity 1: its buffer. *)
Definition chan : Type := option authResponsePayload.

(** [select { case ch <- payload: default: }]. *)
Definition trySend (ch : chan) (payload : authResponsePayload) : chan :=
  match ch with
  | None => Some payload
  | Some _ => ch
  end.

(** The handler given to [page.OnResponse], with the goroutine it
    starts, as one step on the channel. *)
Definition onResponse (ch : chan) (response : Response.t) : chan :=
  if negb (Response.Status response =? 200) then ch
  else if negb (Go.Contains (Response.URL response) "/bringauth") then ch
  else
    match Response.JSON response with
    | None => ch
    | Some payload =>
        if JS.isEmpty (Payload.AccessToken payload) then ch
        else trySend ch payload
    end.

(** The buffer of the channel after the handler has run on the responses. *)
Definition offered (rs : list Response.t) : chan :=
  fold_left onResponse rs None.

(** [10*time.Second], in milliseconds. *)
Definition authResponseTimeout : Z := 10 * 1000.

(** The responses the handler is done with before the instant
    [from + timeout]. *)
Definition inTime (from timeout : Z) (rs : list Response.t) : list Response.t :=
  List.filter (fun r => Response.Sent r <? from + timeout) rs.

(** [waitForAuthResponse(ch, timeout)] entered at the instant [from], the
    channel given by the responses of the run in the order of their sends:
    the payload in the buffer before the timer fires, if there is one. *)
Definition waitForAuthResponse (sends : list Response.t) (from timeout : Z)
    : option authResponsePayload :=
  offered (inTime from timeout sends).

Definition isBringURL (url : string) : bool :=
  Go.Contains url "web.getbring.com".

Fixpoint anyLoggedIn (pages : list Page) : bool :=
  match pages with
  | [] => false
  | p :: r =>
      if negb (isBringURL (URL p)) then anyLoggedIn r
      else if negb (Go.Contains (URL p) "/login") then true
      else anyLoggedIn r
  end.

Definition loginDetected (v : View) : bool := anyLoggedIn (pagesOf v).

Fixpoint firstAppPage (pages : list Page) : option Page :=
  match pages with
  | [] => None
  | p :: r =>
      if isBringURL (URL p) && negb (Go.Contains (URL p) "/login")
      then Some p
      else firstAppPage r
  end.

Definition findBringAppPage (v : View) : Page :=
  match firstAppPage (pagesOf v) with
  | Some p => p
  | None => page v
  end.

(** [page.WaitForTimeout(1000)], in milliseconds. *)
Definition pollInterval : Z := 1000.

(** [waitForLogin(page, timeout)]: [views k] is what the [k]-th turn of
    the loop sees and [now] what [time.Now()] reads in it; [deadline] is
    [time.Now().Add(timeout)]. A turn that neither detects the login nor
    is past the deadline ends with [page.WaitForTimeout(1000)]; with the
    time [lag k] that the calls of the driver take, the next turn reads
    the clock [pollInterval + lag k] later. [None]: the loop is still
    running after [fuel] turns. *)
Fixpoint waitForLogin (fuel : nat) (views : nat -> View) (lag : nat -> Z)
    (deadline : Z) (k : nat) (now : Z) : option (Result unit) :=
  match fuel with
  | O => None
  | S fuel' =>
      if loginDetected (views k) then Some (Ok tt)
      else if deadline <? now then Some (Err ErrLoginTimedOut)
      else waitForLogin fuel' views lag deadline (S k)
             (now + pollInterval + lag k)
  end.

(** [5*time.Minute], in milliseconds. *)
Definition loginTimeout : Z := 5 * 60 * 1000.

(** The result object of the storage scan: a field is [Undefined] until
    the script sets it. *)
Record scanResult : Type := mkScan {
  accessToken : JS.value;
  userUuid : JS.value;
  publicUserUuid : JS.value;
  userName : JS.value;
  email : JS.value
}.

Definition emptyScan : scanResult :=
  mkScan JS.Undefined JS.Undefined JS.Undefined JS.Undefined JS.Undefined.

Definition entries (r : scanResult) : list (string * JS.value) :=
  [("accessToken", accessToken r); ("userUuid", userUuid r);
   ("publicUserUuid", publicUserUuid r); ("userName", userName r);
   ("email", email r)].

(** [JSON.stringify] of an object in the page followed by
    [json.Unmarshal] of the text into a [map[string]string]: an undefined
    member is left out, null gives the empty string, as does an infinite
    number, which is written as null, and any other member that is not a
    string makes [Unmarshal] return an error. *)
Fixpoint unmarshalStrings (members : list (string * JS.value))
    : option (gmap string string) :=
  match members with
  | [] => Some ∅
  | (k, v) :: r =>
      match unmarshalStrings r with
      | None => None
      | Some data =>
          match v with
          | JS.Undefined => Some data
          | JS.Val (JString s) => Some (<[k := s]> data)
          | JS.Val JNull | JS.Val (JNumber (S754_infinity _)) =>
              Some (<[k := EmptyString]> data)
          | JS.Val _ => None
          end
      end
  end.

(** [data[key]] on a Go map of strings. *)
Definition at_ (data : gmap string string) (key : string) : string :=
  default EmptyString (data !! key).

Definition resultOf (data : gmap string string) : BrowserAuthResult :=
  {| AccessToken := at_ data "accessToken";
     UserUUID := at_ data "userUuid";
     PublicUserUUID := at_ data "publicUserUuid";
     UserName := at_ data "userName";
     Email := at_ data "email" |}.

Section WithRuntime.
Context `{Runtime}.

Declare Scope js_scope.
Delimit Scope js_scope with js.
Local Infix "||" := JS.or (at level 50, left associativity) : js_scope.
Local Infix "&&" := JS.and (at level 40, left associativity) : js_scope.
Local Infix "#" := JS.prop (at level 8, left associativity) : js_scope.

(** [if (v && !field) field = v]. *)
Definition setIfUnset (v field : JS.value) : JS.value :=
  if JS.truthy v && negb (JS.truthy field) then v else field.

(** [trySet(obj)] of the scan script: whether it returned a truthy value,
    and the result object afterwards. *)
Definition trySet (obj : JS.value) (result : scanResult) : bool * scanResult :=
  if negb (JS.truthy obj) || negb (JS.isObject obj) then (false, result)
  else
    let accessToken' :=
      (obj#"access_token" || obj#"accessToken" || obj#"token"
       || (obj#"auth" && (obj#"auth"#"access_token" || obj#"auth"#"accessToken")))%js in
    let userUuid' :=
      (obj#"userUuid" || obj#"user_uuid" || obj#"uuid"
       || (obj#"user" && (obj#"user"#"uuid" || obj#"user"#"userUuid")))%js in
    let publicUserUuid' :=
      (obj#"publicUuid" || obj#"public_user_uuid" || obj#"publicUserUuid")%js in
    let userName' :=
      (obj#"name" || obj#"userName"
       || (obj#"user" && (obj#"user"#"name" || obj#"user"#"userName")))%js in
    let email' := (obj#"email" || (obj#"user" && obj#"user"#"email"))%js in
    let result' :=
      {| accessToken := setIfUnset accessToken' (accessToken result);
         userUuid := setIfUnset userUuid' (userUuid result);
         publicUserUuid := setIfUnset publicUserUuid' (publicUserUuid result);
         userName := setIfUnset userName' (userName result);
         email := setIfUnset email' (email result) |} in
    (JS.truthy (accessToken result' || userUuid result')%js, result').

(** [result.accessToken = jwt[0]] when the token is still unset and the
    pattern matches. *)
Definition adoptJwt (text : string) (result : scanResult) : scanResult :=
  if JS.truthy (accessToken result) then result
  else
    match JS.jwtMatch text with
    | Some m =>
        {| accessToken := JS.Val (JString m);
           userUuid := userUuid result;
           publicUserUuid := publicUserUuid result;
           userName := userName result;
           email := email result |}
    | None => result
    end.

(** The two loops of the scan script over the items of the storages, in
    order; the result object when the script returns. *)
Fixpoint scan (items : list JS.value) (result : scanResult) : scanResult :=
  match items with
  | [] => result
  | item :: rest =>
      match item with
      | JS.Val (JString text) =>
          if JS.isEmpty text then scan rest result
          else
            let result1 := adoptJwt text result in
            match JSON_parse text with
            | None => scan rest result1
            | Some parsed =>
                let '(found, result2) := trySet (JS.Val parsed) result1 in
                if found && JS.truthy (accessToken result2)
                   && JS.truthy (userUuid result2)
                then result2
                else scan rest result2
            end
      | _ => scan rest result
      end
  end.

(** The script of [extractAuthFromStorageFallback] on a page. *)
Definition fallbackScript (p : Page) : scanResult :=
  scan (JS.itemsOf (localStorage p) ++ JS.itemsOf (sessionStorage p)) emptyScan.

(** [extractAuthFromStorageFallback(page)]. The script returns a string,
    so the type assertion on its result holds. *)
Definition extractAuthFromStorageFallback (p : Page) : Result BrowserAuthResult :=
  if evaluateFails p then Err (ErrDriver "Evaluate")
  else
    match unmarshalStrings (entries (fallbackScript p)) with
    | None => Err ErrUnmarshal
    | Some data => Ok (resultOf data)
    end.

(** [finalizeAuthResult(result)]. *)
Definition finalizeAuthResult (result : BrowserAuthResult) : Result BrowserAuthResult :=
  if JS.isEmpty (AccessToken result) then Err ErrExtractAuth
  else if negb (JS.isEmpty (UserUUID result)) then Ok result
  else
    match Cli.decodeJWT (AccessToken result) with
    | Err _ => Err ErrExtractAuth
    | Ok claims =>
        if JS.isEmpty (Cli.Sub claims) then Err ErrExtractAuth
        else
          Ok {| AccessToken := AccessToken result;
                UserUUID := Cli.subjectUserUUID (Cli.Sub claims);
                PublicUserUUID := PublicUserUUID result;
                UserName := UserName result;
                Email := Email result |}
    end.

(** [localStorage.getItem(key) || sessionStorage.getItem(key)]. *)
Definition canonical (p : Page) (key : string) : JS.value :=
  (JS.getItem (localStorage p) key || JS.getItem (sessionStorage p) key)%js.

(** The script of [extractAuthFromStorage] on a page. *)
Definition storageScript (p : Page) : list (string * JS.value) :=
  [("accessToken", canonical p "accessToken");
   ("userUuid", canonical p "userUuid");
   ("publicUserUuid", canonical p "publicUserUuid");
   ("userName", canonical p "userName");
   ("email", canonical p "email")].

(** [if result.F == "" { result.F = fallback.F }]. *)
Definition orElse (field fallback : string) : string :=
  if JS.isEmpty field then fallback else field.

(** The result of the canonical keys, completed by the scan when the
    token or the user id is missing: [extractAuthFromStorage] up to its
    last line. *)
Definition completed (p : Page) (result : BrowserAuthResult) : BrowserAuthResult :=
  if JS.isEmpty (AccessToken result) || JS.isEmpty (UserUUID result) then
    match extractAuthFromStorageFallback p with
    | Ok fallback =>
        if negb (JS.isEmpty (AccessToken fallback))
           || negb (JS.isEmpty (UserUUID fallback))
        then
          {| AccessToken := orElse (AccessToken result) (AccessToken fallback);
             UserUUID := orElse (UserUUID result) (UserUUID fallback);
             PublicUserUUID := orElse (PublicUserUUID result) (PublicUserUUID fallback);
             UserName := orElse (UserName result) (UserName fallback);
             Email := orElse (Email result) (Email fallback) |}
        else result
    | Err _ => result
    end
  else result.

(** [extractAuthFromStorage(page)]. *)
Definition extractAuthFromStorage (p : Page) : Result BrowserAuthResult :=
  if evaluateFails p then Err (ErrDriver "Evaluate")
  else
    match unmarshalStrings (storageScript p) with
    | None => Err ErrUnmarshal
    | Some data => finalizeAuthResult (completed p (resultOf data))
    end.

(** What one run of the browser login meets: the errors of the driver
    calls before the login ([None]: the call succeeds), the URL after the
    first navigation, the clock on entry of [waitForLogin], what each turn
    of its loop sees and how long the calls of the driver take in it, the
    responses of the run in the order in which the
    handler is done with them, the clock when the login has been detected,
    and the browser when the storage is read, after the wait for the
    storage key, whose result the code discards. *)
Record World : Type := mkWorld {
  ensurePlaywrightErr : option string;
  launchErr : option string;
  newPageErr : option string;
  gotoErr : option string;
  landed : string;
  start : Z;
  views : nat -> View;
  lag : nat -> Z;
  responses : list Response.t;
  waitFrom : Z;
  atExtraction : View
}.

(** [if err != nil { return BrowserAuthResult{}, err }]. *)
Definition orReturn {A : Type} (err : option string) (k : option (Result A))
    : option (Result A) :=
  match err with
  | Some e => Some (Err (ErrDriver e))
  | None => k
  end.

Definition ofPayload (payload : authResponsePayload) : BrowserAuthResult :=
  {| AccessToken := Payload.AccessToken payload;
     UserUUID := Payload.UUID payload;
     PublicUserUUID := Payload.PublicUUID payload;
     UserName := Payload.Name payload;
     Email := EmptyString |}.

(** [BrowserLoginWithIntercept(ctx)]. *)
Definition BrowserLoginWithIntercept (fuel : nat) (w : World)
    : option (Result BrowserAuthResult) :=
  orReturn (ensurePlaywrightErr w) (
  orReturn (launchErr w) (
  orReturn (newPageErr w) (
  orReturn (gotoErr w) (
    match waitForLogin fuel (views w) (lag w) (start w + loginTimeout) 0 (start w) with
    | None => None
    | Some (Err e) => Some (Err e)
    | Some (Ok _) =>
        match waitForAuthResponse (responses w) (waitFrom w)
                authResponseTimeout with
        | Some payload => Some (finalizeAuthResult (ofPayload payload))
        | None =>
            Some (extractAuthFromStorage (findBringAppPage (atExtraction w)))
        end
    end)))).

(** [BrowserLogin(ctx)]. *)
Definition BrowserLogin (fuel : nat) (w : World)
    : option (Result BrowserAuthResult) :=
  orReturn (ensurePlaywrightErr w) (
  orReturn (launchErr w) (
  orReturn (newPageErr w) (
  orReturn (gotoErr w) (
    let waited :=
      if Go.Contains (landed w) "/login"
      then waitForLogin fuel (views w) (lag w) (start w + loginTimeout) 0 (start w)
      else Some (Ok tt) in
    match waited with
    | None => None
    | Some (Err e) => Some (Err e)
    | Some (Ok _) =>
        Some (extractAuthFromStorage (findBringAppPage (atExtraction w)))
    end)))).

End WithRuntime.
End BrowserAuth.

(** ** The earlier revision ([src/internal/cli/browser_auth.go]) *)

Module BrowserAuthLegacy.

Import Playwright.
Import BrowserAuth.

(** The handler given to [page.OnResponse]: it assigns the variable
    [authResponse]. *)
Definition onResponse (authResponse : option authResponsePayload)
    (response : Response.t) : option authResponsePayload :=
  if negb (Response.Status response =? 200) then authResponse
  else if negb (Go.Contains (Response.URL response) "/bringauth") then authResponse
  else
    match Response.JSON response with
    | None => authResponse
    | Some payload =>
        if negb (JS.isEmpty (Payload.AccessToken payload)) then Some payload
        else authResponse
    end.

(** [waitForLogin(page, timeout)]. *)
Fixpoint waitForLogin (fuel : nat) (views : nat -> View) (lag : nat -> Z)
    (deadline : Z) (k : nat) (now : Z) : option (Result unit) :=
  match fuel with
  | O => None
  | S fuel' =>
      if negb (Go.Contains (URL (page (views k))) "/login") then Some (Ok tt)
      else if deadline <? now then Some (Err ErrLoginTimedOut)
      else waitForLogin fuel' views lag deadline (S k)
             (now + pollInterval + lag k)
  end.

(** The script of [extractAuthFromLocalStorage] on a page. *)
Definition storageScript (p : Page) : list (string * JS.value) :=
  [("accessToken", JS.getItem (localStorage p) "accessToken");
   ("userUuid", JS.getItem (localStorage p) "userUuid");
   ("publicUserUuid", JS.getItem (localStorage p) "publicUserUuid");
   ("userName", JS.getItem (localStorage p) "userName");
   ("email", JS.getItem (localStorage p) "email")].

(** [extractAuthFromLocalStorage(page)]. *)
Definition extractAuthFromLocalStorage (p : Page) : Result BrowserAuthResult :=
  if evaluateFails p then Err (ErrDriver "Evaluate")
  else
    match unmarshalStrings (storageScript p) with
    | None => Err ErrUnmarshal
    | Some data =>
        if JS.isEmpty (at_ data "accessToken") || JS.isEmpty (at_ data "userUuid")
        then Err ErrExtractAuth
        else Ok (resultOf data)
    end.

(** [BrowserLoginWithIntercept(ctx)]: the code reads [authResponse] as
    the handler has left it when the login is detected. *)
Definition BrowserLoginWithIntercept (fuel : nat) (w : World)
    : option (Result BrowserAuthResult) :=
  orReturn (ensurePlaywrightErr w) (
  orReturn (launchErr w) (
  orReturn (newPageErr w) (
  orReturn (gotoErr w) (
    match waitForLogin fuel (views w) (lag w) (start w + loginTimeout) 0 (start w) with
    | None => None
    | Some (Err e) => Some (Err e)
    | Some (Ok _) =>
        match fold_left onResponse (inTime (waitFrom w) 0 (responses w)) None with
        | Some authResponse =>
            if negb (JS.isEmpty (Payload.AccessToken authResponse))
            then Some (Ok (ofPayload authResponse))
            else Some (extractAuthFromLocalStorage (page (atExtraction w)))
        | None => Some (extractAuthFromLocalStorage (page (atExtraction w)))
        end
    end)))).

End BrowserAuthLegacy.

(** ** A reference run-time

    The library functions of [Runtime], written out for JSON text as
    RFC 8259 defines it, on well-formed UTF-8. The concrete instances of
    the theorems are evaluated with it. *)

Module Reference.

(** *** Numbers *)

(** The [float64] nearest to [m * 10 ^ e10], ties to even; [neg] is the
    sign. *)
Definition decimalToFloat (neg : bool) (m : Z) (e10 : Z) : Go.float64 :=
  match m with
  | Zpos p =>
      if 0 <=? e10 then
        binary_normalize 53 1024 ((if neg then -1 else 1) * (m * 10 ^ e10)) 0 false
      else
        SFdiv 53 1024 (S754_finite neg p 0)
          (S754_finite false (Z.to_pos (10 ^ (- e10))) 0)
  | _ => S754_zero neg
  end.

Definition isDigit (c : ascii) : bool := Go.between 48 57 (N_of_ascii c).

Definition digitOf (c : ascii) : Z := Z.of_N (N_of_ascii c) - 48.

(** The digits at the head of a string: their value after [acc], how
    many they are, and the rest. *)
Fixpoint digits (s : string) (acc : Z) (n : Z) : Z * Z * string :=
  match s with
  | String c t =>
      if isDigit c then digits t (acc * 10 + digitOf c) (n + 1)
      else (acc, n, s)
  | EmptyString => (acc, n, s)
  end.

(** An optional exponent part [e], [e+] or [e-] followed by digits. *)
Definition exponent (s : string) : option (Z * string) :=
  match s with
  | String c t =>
      if Ascii.eqb c "e"%char || Ascii.eqb c "E"%char then
        let '(neg, t') :=
          match t with
          | String d u =>
              if Ascii.eqb d "-"%char then (true, u)
              else if Ascii.eqb d "+"%char then (false, u)
              else (false, t)
          | EmptyString => (false, t)
          end in
        let '(v, n, r) := digits t' 0 0 in
        if n =? 0 then None else Some (if neg then - v else v, r)
      else Some (0, s)
  | EmptyString => Some (0, s)
  end.

(** An optional fraction part: the mantissa extended by its digits and
    their number. *)
Definition fraction (s : string) (int : Z) : option (Z * Z * string) :=
  match s with
  | String c t =>
      if Ascii.eqb c "."%char then
        let '(v, n, r) := digits t int 0 in
        if n =? 0 then None else Some (v, n, r)
      else Some (int, 0, s)
  | EmptyString => Some (int, 0, s)
  end.

(** A JSON number at the head of a string: an optional minus sign, an
    integer part without superfluous leading zero, an optional fraction
    and an optional exponent. *)
Definition number (s : string) : option (Go.float64 * string) :=
  let '(neg, s1) :=
    match s with
    | String c t => if Ascii.eqb c "-"%char then (true, t) else (false, s)
    | EmptyString => (false, s)
    end in
  let '(int, n, s2) := digits s1 0 0 in
  let leadingZero :=
    match s1 with
    | String c _ => Ascii.eqb c "0"%char && (1 <? n)
    | EmptyString => false
    end in
  if (n =? 0) || leadingZero then None
  else
    match fraction s2 int with
    | None => None
    | Some (m, fn, s3) =>
        match exponent s3 with
        | None => None
        | Some (e, s4) => Some (decimalToFloat neg m (e - fn), s4)
        end
    end.

(** *** Strings *)

Definition hexOf (c : ascii) : option N :=
  let n := N_of_ascii c in
  if Go.between 48 57 n then Some (n - 48)%N
  else if Go.between 65 70 n then Some (n - 55)%N
  else if Go.between 97 102 n then Some (n - 87)%N
  else None.

Definition hex4 (a b c d : ascii) : option N :=
  match hexOf a, hexOf b, hexOf c, hexOf d with
  | Some x, Some y, Some z, Some w => Some (((x * 16 + y) * 16 + z) * 16 + w)%N
  | _, _, _, _ => None
  end.

Definition chr (n : N) : string := String (ascii_of_N n) EmptyString.

(** The UTF-8 encoding of a code point. *)
Definition utf8 (cp : N) : string :=
  (if cp <? 128 then chr cp
   else if cp <? 2048 then chr (192 + cp / 64) +:+ chr (128 + cp mod 64)
   else if cp <? 65536 then
     chr (224 + cp / 4096) +:+ chr (128 + (cp / 64) mod 64)
     +:+ chr (128 + cp mod 64)
   else
     chr (240 + cp / 262144) +:+ chr (128 + (cp / 4096) mod 64)
     +:+ chr (128 + (cp / 64) mod 64) +:+ chr (128 + cp mod 64))%N.

Definition replacementChar : N := 65533.

Definition isHighSurrogate (cp : N) : bool := Go.between 55296 56319 cp.
Definition isLowSurrogate (cp : N) : bool := Go.between 56320 57343 cp.

(** The character a one-letter escape stands for. *)
Definition escaped (c : ascii) : option N :=
  let n := N_of_ascii c in
  if (n =? 34)%N || (n =? 92)%N || (n =? 47)%N then Some n
  else if Ascii.eqb c "b"%char then Some 8%N
  else if Ascii.eqb c "f"%char then Some 12%N
  else if Ascii.eqb c "n"%char then Some 10%N
  else if Ascii.eqb c "r"%char then Some 13%N
  else if Ascii.eqb c "t"%char then Some 9%N
  else None.

Definition cons_ (prefix : string) (r : option (string * string))
    : option (string * string) :=
  match r with
  | Some (body, rest) => Some (prefix +:+ body, rest)
  | None => None
  end.

(** A string after its opening quote: its content and what follows the
    closing quote. A surrogate escape without its partner gives the
    replacement character. *)
Fixpoint stringBody (s : string) : option (string * string) :=
  match s with
  | EmptyString => None
  | String c t =>
      if (N_of_ascii c =? 34)%N then Some (EmptyString, t)
      else if (N_of_ascii c =? 92)%N then
        match t with
        | String e u =>
            if Ascii.eqb e "u"%char then
              match u with
              | String h1 (String h2 (String h3 (String h4 r))) =>
                  match hex4 h1 h2 h3 h4 with
                  | None => None
                  | Some cp =>
                      if isHighSurrogate cp then
                        match r with
                        | String b (String v (String l1 (String l2 (String l3 (String l4 r'))))) =>
                            match (if (N_of_ascii b =? 92)%N && Ascii.eqb v "u"%char
                                   then hex4 l1 l2 l3 l4 else None) with
                            | Some lo =>
                                if isLowSurrogate lo then
                                  cons_ (utf8 (65536 + (cp - 55296) * 1024 + (lo - 56320)))
                                        (stringBody r')
                                else cons_ (utf8 replacementChar) (stringBody r)
                            | None => cons_ (utf8 replacementChar) (stringBody r)
                            end
                        | _ => cons_ (utf8 replacementChar) (stringBody r)
                        end
                      else if isLowSurrogate cp then
                        cons_ (utf8 replacementChar) (stringBody r)
                      else cons_ (utf8 cp) (stringBody r)
                  end
              | _ => None
              end
            else
              match escaped e with
              | Some n => cons_ (chr n) (stringBody u)
              | None => None
              end
        | EmptyString => None
        end
      else if (N_of_ascii c <? 32)%N then None
      else cons_ (String c EmptyString) (stringBody t)
  end.

(** *** Values *)

Definition isSpace (c : ascii) : bool :=
  let n := N_of_ascii c in
  (n =? 32)%N || (n =? 9)%N || (n =? 10)%N || (n =? 13)%N.

Fixpoint skipSpace (s : string) : string :=
  match s with
  | String c t => if isSpace c then skipSpace t else s
  | EmptyString => s
  end.

(** The rest of [s] after the literal [lit], if [s] starts with it. *)
Fixpoint after (lit s : string) : option string :=
  match lit, s with
  | EmptyString, _ => Some s
  | String a l, String b t => if Ascii.eqb a b then after l t else None
  | String _ _, EmptyString => None
  end.

Definition startsWith (n : N) (s : string) : option string :=
  match s with
  | String c t => if (N_of_ascii c =? n)%N then Some t else None
  | EmptyString => None
  end.

(** A value at the head of a string, after optional white space; the
    elements of an array after the first; the members of an object after
    the first. [fuel] bounds the number of values read. *)
Fixpoint value (fuel : nat) (s : string) : option (JSON * string) :=
  match fuel with
  | O => None
  | S fuel' =>
      let s := skipSpace s in
      match s with
      | EmptyString => None
      | String c t =>
          if Ascii.eqb c "n"%char then
            match after "null" s with Some r => Some (JNull, r) | None => None end
          else if Ascii.eqb c "t"%char then
            match after "true" s with Some r => Some (JBool true, r) | None => None end
          else if Ascii.eqb c "f"%char then
            match after "false" s with Some r => Some (JBool false, r) | None => None end
          else if (N_of_ascii c =? 34)%N then
            match stringBody t with
            | Some (body, r) => Some (JString body, r)
            | None => None
            end
          else if Ascii.eqb c "["%char then
            match startsWith 93 (skipSpace t) with
            | Some r => Some (JArray [], r)
            | None =>
                match value fuel' t with
                | Some (v, r) =>
                    match elements fuel' r [v] with
                    | Some (l, r') => Some (JArray l, r')
                    | None => None
                    end
                | None => None
                end
            end
          else if Ascii.eqb c "{"%char then
            match startsWith 125 (skipSpace t) with
            | Some r => Some (JObject [], r)
            | None =>
                match members fuel' (String ","%char t) [] with
                | Some (l, r') => Some (JObject l, r')
                | None => None
                end
            end
          else
            match number s with
            | Some (f, r) => Some (JNumber f, r)
            | None => None
            end
      end
  end
with elements (fuel : nat) (s : string) (acc : list JSON)
    : option (list JSON * string) :=
  match fuel with
  | O => None
  | S fuel' =>
      match skipSpace s with
      | String c t =>
          if Ascii.eqb c "]"%char then Some (rev acc, t)
          else if Ascii.eqb c ","%char then
            match value fuel' t with
            | Some (v, r) => elements fuel' r (v :: acc)
            | None => None
            end
          else None
      | EmptyString => None
      end
  end
with members (fuel : nat) (s : string) (acc : list (string * JSON))
    : option (list (string * JSON) * string) :=
  match fuel with
  | O => None
  | S fuel' =>
      match skipSpace s with
      | String c t =>
          if Ascii.eqb c "}"%char then Some (rev acc, t)
          else if Ascii.eqb c ","%char then
            match startsWith 34 (skipSpace t) with
            | Some t1 =>
                match stringBody t1 with
                | Some (k, t2) =>
                    match startsWith 58 (skipSpace t2) with
                    | Some t3 =>
                        match value fuel' t3 with
                        | Some (v, r) => members fuel' r ((k, v) :: acc)
                        | None => None
                        end
                    | None => None
                    end
                | None => None
                end
            | None => None
            end
          else None
      | EmptyString => None
      end
  end.

(** A whole text: one value between optional white space. *)
Definition parse (text : string) : option JSON :=
  match value (2 * String.length text + 2) text with
  | Some (v, r) => if JS.isEmpty (skipSpace r) then Some v else None
  | None => None
  end.

(** JSON text written with an apostrophe for each quotation mark. *)
Definition json (s : string) : string :=
  string_of_list_ascii
    (List.map (fun c => if Ascii.eqb c "'"%char then ascii_of_N 34 else c)
       (list_ascii_of_string s)).

(** *** [json.Unmarshal] into a map *)

(** No number of the value is an infinity: [Unmarshal] returns an error
    for a number beyond the range of [float64]. *)
Fixpoint inRange (j : JSON) : bool :=
  match j with
  | JNumber (S754_infinity _) => false
  | JArray l => forallb inRange l
  | JObject ms => forallb (fun kv => inRange (snd kv)) ms
  | _ => true
  end.

(** The Go map of an object: a later member replaces an earlier one of
    the same key. *)
Definition toMap (ms : list (string * JSON)) : gmap string JSON :=
  fold_left (fun m kv => <[fst kv := snd kv]> m) ms ∅.

(** [json.Unmarshal(data, &raw)]: an object fills the map, [null] leaves
    it nil, any other text is an error. *)
Definition Unmarshal (data : string) : option (gmap string JSON) :=
  match parse data with
  | Some (JObject ms) => if inRange (JObject ms) then Some (toMap ms) else None
  | Some JNull => Some ∅
  | _ => None
  end.

(** *** [strconv.ParseFloat] *)

Definition lower (c : ascii) : ascii :=
  let n := N_of_ascii c in
  if Go.between 65 90 n then ascii_of_N (n + 32) else c.

(** [commonPrefixLenIgnoreCase(s, prefix)], for a lower-case prefix. *)
Fixpoint commonPrefixLen (s prefix : string) : nat :=
  match s, prefix with
  | String a t, String b u =>
      if Ascii.eqb (lower a) b then S (commonPrefixLen t u) else O
  | _, _ => O
  end.

(** [special(s)], for a string it has to match as a whole. *)
Definition special (s : string) : option Go.float64 :=
  let inf (neg : bool) (t : string) :=
    let n := commonPrefixLen t "infinity" in
    if ((n =? 3)%nat || (n =? 8)%nat) && (String.length t =? n)%nat
    then Some (S754_infinity neg) else None in
  match s with
  | String c t =>
      if Ascii.eqb c "+"%char then inf false t
      else if Ascii.eqb c "-"%char then inf true t
      else if Ascii.eqb (lower c) "i"%char then inf false s
      else if Ascii.eqb (lower c) "n"%char then
        if (commonPrefixLen s "nan" =? 3)%nat && (String.length s =? 3)%nat
        then Some S754_nan else None
      else None
  | EmptyString => None
  end.

Definition digitIn (hex : bool) (c : ascii) : option Z :=
  if isDigit c then Some (digitOf c)
  else if hex && Go.between 97 102 (N_of_ascii (lower c))
  then Some (Z.of_N (N_of_ascii (lower c)) - 87)
  else None.

(** The state of [underscoreOK]: nothing yet, after a digit or the base
    prefix, after an underscore, after anything else. *)
Inductive seen : Type := SeenNone | SeenDigit | SeenUnderscore | SeenOther.

Fixpoint underscoreLoop (hex : bool) (s : string) (i : seen) : bool :=
  match s with
  | EmptyString => match i with SeenUnderscore => false | _ => true end
  | String c t =>
      match digitIn hex c with
      | Some _ => underscoreLoop hex t SeenDigit
      | None =>
          if Ascii.eqb c "_"%char then
            match i with
            | SeenDigit => underscoreLoop hex t SeenUnderscore
            | _ => false
            end
          else
            match i with
            | SeenUnderscore => false
            | _ => underscoreLoop hex t SeenOther
            end
      end
  end.

(** [underscoreOK(s)]. *)
Definition underscoreOK (s : string) : bool :=
  let s1 :=
    match s with
    | String c t =>
        if Ascii.eqb c "-"%char || Ascii.eqb c "+"%char then t else s
    | EmptyString => s
    end in
  match s1 with
  | String z (String b t) =>
      if Ascii.eqb z "0"%char
         && (Ascii.eqb (lower b) "b"%char || Ascii.eqb (lower b) "o"%char
             || Ascii.eqb (lower b) "x"%char)
      then underscoreLoop (Ascii.eqb (lower b) "x"%char) t SeenDigit
      else underscoreLoop false s1 SeenNone
  | _ => underscoreLoop false s1 SeenNone
  end.

(** What the mantissa loop of [readFloat] has read. *)
Record mantissaRead : Type := mkMantissa {
  mant : Z;
  sawdot : bool;
  sawdigits : bool;
  fracDigits : Z;
  underscores : bool;
  rest : string
}.

Fixpoint mantissa (hex : bool) (s : string) (r : mantissaRead) : mantissaRead :=
  let stop := mkMantissa (mant r) (sawdot r) (sawdigits r) (fracDigits r)
                (underscores r) s in
  match s with
  | EmptyString => stop
  | String c t =>
      if Ascii.eqb c "_"%char then
        mantissa hex t (mkMantissa (mant r) (sawdot r) (sawdigits r)
                          (fracDigits r) true t)
      else if Ascii.eqb c "."%char then
        if sawdot r then stop
        else mantissa hex t (mkMantissa (mant r) true (sawdigits r)
                               (fracDigits r) (underscores r) t)
      else
        match digitIn hex c with
        | Some d =>
            mantissa hex t
              (mkMantissa (mant r * (if hex then 16 else 10) + d) (sawdot r) true
                 (if sawdot r then fracDigits r + 1 else fracDigits r)
                 (underscores r) t)
        | None => stop
        end
  end.

(** The digits of an exponent, underscores skipped; the value stops
    growing at 10000 as in [readFloat]. *)
Fixpoint expDigits (s : string) (e : Z) (us : bool) : Z * bool * string :=
  match s with
  | String c t =>
      if Ascii.eqb c "_"%char then expDigits t e true
      else if isDigit c then
        expDigits t (if e <? 10000 then e * 10 + digitOf c else e) us
      else (e, us, s)
  | EmptyString => (e, us, s)
  end.

(** The exponent part of [readFloat]: [None] is a syntax error. *)
Definition expPart (hex : bool) (s : string) : option (Z * bool * string) :=
  match s with
  | String c t =>
      if Ascii.eqb (lower c) (if hex then "p"%char else "e"%char) then
        let '(neg, t') :=
          match t with
          | String d u =>
              if Ascii.eqb d "+"%char then (false, u)
              else if Ascii.eqb d "-"%char then (true, u)
              else (false, t)
          | EmptyString => (false, t)
          end in
        match t' with
        | String d _ =>
            if isDigit d then
              let '(e, us, r) := expDigits t' 0 false in
              Some (if neg then - e else e, us, r)
            else None
        | EmptyString => None
        end
      else if hex then None
      else Some (0, false, s)
  | EmptyString => if hex then None else Some (0, false, s)
  end.

Definition finiteOnly (f : Go.float64) : option Go.float64 :=
  match f with
  | S754_infinity _ => None
  | _ => Some f
  end.

(** [strconv.ParseFloat(s, 64)]; [None] for a syntax error and for a
    value out of range. *)
Definition ParseFloat (s : string) : option Go.float64 :=
  match special s with
  | Some f => Some f
  | None =>
      let '(neg, s1) :=
        match s with
        | String c t =>
            if Ascii.eqb c "+"%char then (false, t)
            else if Ascii.eqb c "-"%char then (true, t)
            else (false, s)
        | EmptyString => (false, s)
        end in
      let '(hex, s2) :=
        match s1 with
        | String z (String x (String c t)) =>
            if Ascii.eqb z "0"%char && Ascii.eqb (lower x) "x"%char
            then (true, String c t) else (false, s1)
        | _ => (false, s1)
        end in
      let m := mantissa hex s2 (mkMantissa 0 false false 0 false s2) in
      if negb (sawdigits m) then None
      else
        match expPart hex (rest m) with
        | None => None
        | Some (e, us, r) =>
            if negb (JS.isEmpty r) then None
            else if (underscores m || us) && negb (underscoreOK s) then None
            else if hex then
              finiteOnly
                (match mant m with
                 | Z0 => S754_zero neg
                 | _ => binary_normalize 53 1024
                          ((if neg then -1 else 1) * mant m)
                          (e - 4 * fracDigits m) false
                 end)
            else finiteOnly (decimalToFloat neg (mant m) (e - fracDigits m))
        end
  end.

(** *** [strconv.FormatInt] and [strconv.FormatFloat] *)

Fixpoint decimalDigits (fuel : nat) (n : Z) (acc : string) : string :=
  let acc' := String (ascii_of_N (48 + Z.to_N (n mod 10))) acc in
  match fuel with
  | O => acc'
  | S fuel' => if n <? 10 then acc' else decimalDigits fuel' (n / 10) acc'
  end.

(** The decimal digits of a natural number. *)
Definition decimal (n : Z) : string :=
  decimalDigits (Z.to_nat (Z.log2 n)) n EmptyString.

(** [strconv.FormatInt(i, 10)]. *)
Definition FormatInt (i : Z) : string :=
  if i <? 0 then String "-"%char (decimal (- i)) else decimal i.

Fixpoint zeros (n : nat) : string :=
  match n with
  | O => EmptyString
  | S n' => String "0"%char (zeros n')
  end.

(** The digits [d] at the decimal exponent [q], in the format [f]. *)
Definition fixed (d q : Z) : string :=
  let ds := decimal d in
  let len := Z.of_nat (String.length ds) in
  if 0 <=? q then ds +:+ zeros (Z.to_nat q)
  else if - q <? len then
    String.substring 0 (Z.to_nat (len + q)) ds +:+ "."
    +:+ String.substring (Z.to_nat (len + q)) (Z.to_nat (- q)) ds
  else "0." +:+ zeros (Z.to_nat (- q - len)) +:+ ds.

Fixpoint stripZeros (fuel : nat) (d q : Z) : Z * Z :=
  match fuel with
  | O => (d, q)
  | S fuel' =>
      if (d mod 10 =? 0) && negb (d =? 0) then stripZeros fuel' (d / 10) (q + 1)
      else (d, q)
  end.

Definition readsBack (m : positive) (e : Z) (d q : Z) : bool :=
  match decimalToFloat false d q with
  | S754_finite _ m' e' => Pos.eqb m m' && (e =? e')
  | _ => false
  end.

(** The shortest decimal that reads back as [m * 2 ^ e], the one nearest
    to that value when there are two: its digits and its exponent. [k] is
    the decimal exponent of the leading digit of the value and [n] the
    number of digits tried. *)
Fixpoint shortestFrom (fuel : nat) (m : positive) (e : Z) (k : Z) (n : Z)
    : Z * Z :=
  let num := if 0 <=? e then Z.pos m * 2 ^ e else Z.pos m in
  let den := if 0 <=? e then 1 else 2 ^ (- e) in
  let q := k - n + 1 in
  let top := if 0 <=? q then num else num * 10 ^ (- q) in
  let bottom := if 0 <=? q then den * 10 ^ q else den in
  let lo := top / bottom in
  let rem := top mod bottom in
  let okLo := readsBack m e lo q in
  let okHi := readsBack m e (lo + 1) q in
  let pick :=
    if rem =? 0 then Some lo
    else if okLo && okHi then
      Some (if 2 * rem <? bottom then lo
            else if bottom <? 2 * rem then lo + 1
            else if Z.even lo then lo else lo + 1)
    else if okLo then Some lo
    else if okHi then Some (lo + 1)
    else None in
  match pick, fuel with
  | Some d, _ => stripZeros 20 d q
  | None, S fuel' => shortestFrom fuel' m e k (n + 1)
  | None, O => (lo, q)
  end.

(** The decimal exponent of the leading digit of [m * 2 ^ e]. *)
Definition leadingExponent (m : positive) (e : Z) : Z :=
  let num := if 0 <=? e then Z.pos m * 2 ^ e else Z.pos m in
  let den := if 0 <=? e then 1 else 2 ^ (- e) in
  let k0 := Z.log2 num * 30103 / 100000 - Z.log2 den * 30103 / 100000 in
  let reaches (k : Z) :=
    if 0 <=? k then den * 10 ^ k <=? num else den <=? num * 10 ^ (- k) in
  if reaches (k0 + 2) then k0 + 2
  else if reaches (k0 + 1) then k0 + 1
  else if reaches k0 then k0
  else if reaches (k0 - 1) then k0 - 1
  else k0 - 2.

(** [strconv.FormatFloat(v, 'f', -1, 64)]. *)
Definition FormatFloat (v : Go.float64) : string :=
  match v with
  | S754_nan => "NaN"
  | S754_infinity false => "+Inf"
  | S754_infinity true => "-Inf"
  | S754_zero false => "0"
  | S754_zero true => "-0"
  | S754_finite neg m e =>
      let '(d, q) := shortestFrom 17 m e (leadingExponent m e) 1 in
      (if neg then "-" else EmptyString) +:+ fixed d q
  end.

(** The reference run-time; its conversion to [int64] is the one of
    amd64, which gives the smallest [int64] for what does not fit. *)
Definition runtime : Runtime := {|
  json_Unmarshal := Unmarshal;
  JSON_parse := parse;
  strconv_ParseFloat := ParseFloat;
  strconv_FormatFloat := FormatFloat;
  strconv_FormatInt := FormatInt;
  int64_unrepresentable := fun _ => Go.minInt64
|}.

End Reference.

(** ** Notions the statements use *)

(** How often a character occurs in a string. *)
Fixpoint countChar (c : ascii) (s : string) : nat :=
  match s with
  | EmptyString => O
  | String d t => if Ascii.eqb d c then S (countChar c t) else countChar c t
  end.

(** A JSON value that is neither a number nor a string. *)
Definition notNumeric (j : JSON) : bool :=
  match j with
  | JNumber _ | JString _ => false
  | _ => true
  end.

Module Assembly.

Import Playwright.
Import BrowserAuth.

(** The payload the handler offers to the channel for a response, if it
    offers one: status 200, the auth path in the URL, a body that decodes,
    a non-empty access token. *)
Definition accepted (response : Response.t) : option authResponsePayload :=
  if (Response.Status response =? 200)
     && Go.Contains (Response.URL response) "/bringauth"
  then
    match Response.JSON response with
    | Some payload =>
        if JS.isEmpty (Payload.AccessToken payload) then None else Some payload
    | None => None
    end
  else None.

(** The first payload offered for a list of responses. *)
Definition firstAccepted (rs : list Response.t) : option authResponsePayload :=
  head (omap accepted rs).

(** The payload delivered to the login of a run: the first one offered
    within the ten seconds after the login is detected. *)
Definition delivered (w : World) : option authResponsePayload :=
  firstAccepted (inTime (waitFrom w) authResponseTimeout (responses w)).

(** The last payload offered for a list of responses. *)
Definition lastAccepted (rs : list Response.t) : option authResponsePayload :=
  last (omap accepted rs).

(** The value of a canonical key read from both storage areas: the
    non-empty one of the persistent area, otherwise the one of the session
    area, otherwise empty. *)
Definition stored (p : Page) (key : string) : string :=
  match List.find (fun kv => String.eqb (fst kv) key) (localStorage p) with
  | Some (_, String c v) => String c v
  | _ =>
      match List.find (fun kv => String.eqb (fst kv) key) (sessionStorage p) with
      | Some (_, v) => v
      | None => EmptyString
      end
  end.

(** A page is a login target: on the domain of the service and not on its
    login path. *)
Definition isAppPage (p : Page) : bool :=
  isBringURL (URL p) && negb (Go.Contains (URL p) "/login").

(** The calls of the driver take no negative time. *)
Definition steady (lag : nat -> Z) : Prop := forall k, 0 <= lag k.

(** The reading of the clock [n] turns after the turn [k] read [now]. *)
Fixpoint clockFrom (lag : nat -> Z) (k : nat) (now : Z) (n : nat) : Z :=
  match n with
  | O => now
  | S m => clockFrom lag (S k) (now + pollInterval + lag k) m
  end.

(** The reading of the clock in the [n]-th turn of a loop entered at
    [start]. *)
Definition clockAt (lag : nat -> Z) (start : Z) (n : nat) : Z :=
  clockFrom lag 0 start n.

(** What Go reads from a member the script set to a string or to null. *)
Definition fieldOf (v : JS.value) : string :=
  match v with
  | JS.Val (JString s) => s
  | _ => EmptyString
  end.

Definition stringOrNull (v : JS.value) : bool :=
  match v with
  | JS.Val (JString _) | JS.Val JNull => true
  | _ => false
  end.

(** A result with its user id replaced. *)
Definition withUserUUID (result : BrowserAuthResult) (id : string)
    : BrowserAuthResult :=
  {| AccessToken := AccessToken result;
     UserUUID := id;
     PublicUserUUID := PublicUserUUID result;
     UserName := UserName result;
     Email := Email result |}.

(** A run with another browser at the time the storage is read. *)
Definition withExtraction (w : World) (v : View) : World :=
  {| ensurePlaywrightErr := ensurePlaywrightErr w;
     launchErr := launchErr w;
     newPageErr := newPageErr w;
     gotoErr := gotoErr w;
     landed := landed w;
     start := start w;
     views := views w;
     lag := lag w;
     responses := responses w;
     waitFrom := waitFrom w;
     atExtraction := v |}.

(** No call of the driver before the login returns an error. *)
Definition launches (w : World) : Prop :=
  ensurePlaywrightErr w = None /\ launchErr w = None
  /\ newPageErr w = None /\ gotoErr w = None.

(** The candidates of the scan for the access token of an object, in the
    order the script probes them. *)
Definition tokenCandidates (obj : JS.value) : list JS.value :=
  [JS.prop obj "access_token"; JS.prop obj "accessToken"; JS.prop obj "token";
   JS.prop (JS.prop obj "auth") "access_token";
   JS.prop (JS.prop obj "auth") "accessToken"].

End Assembly.

(** *** The specification's wording, for comparison with the code *)

Module Spec.

Import Playwright.
Import BrowserAuth.

(** The expiry predicate as the specification words it: [exp] is present
    (a missing claim decodes to 0), nonzero, and strictly less than [now],
    both in seconds. *)
Definition isExpired (exp now : Z) : bool :=
  negb (exp =? 0) && (exp <? now).

(** The subject shape [seg:seg:seg:id] of the specification: four
    segments between colons. *)
Definition subjectShape (sub : string) : bool :=
  (length (Go.Split sub ":"%char) =? 4)%nat.

(** The merge rule of the specification: for each field the value the
    interceptor delivered if present, otherwise the value of the storage
    extractor. *)
Definition merge (intercepted : option BrowserAuthResult)
    (storage : BrowserAuthResult) : BrowserAuthResult :=
  match intercepted with
  | Some i =>
      {| AccessToken := orElse (AccessToken i) (AccessToken storage);
         UserUUID := orElse (UserUUID i) (UserUUID storage);
         PublicUserUUID := orElse (PublicUserUUID i) (PublicUserUUID storage);
         UserName := orElse (UserName i) (UserName storage);
         Email := orElse (Email i) (Email storage) |}
  | None => storage
  end.

End Spec.

(** ** Concrete inputs *)

Module Examples.

(** The header of the tokens of the test file: the base64 of a JSON object
    naming the algorithm none. *)
Definition header : string := "eyJhbGciOiJub25lIn0".

(** A token with the given claims piece and, as in the tests, an empty
    signature. *)
Definition tokenOf (claims64 : string) : string :=
  header +:+ "." +:+ claims64 +:+ ".".

(** Claims with the subject A:B:C:id-123 and an expiry. *)
Definition idClaims64 : string :=
  "eyJzdWIiOiJBOkI6QzppZC0xMjMiLCJleHAiOjE3MDAwMDAwMDB9".
Definition idClaims : string :=
  Reference.json "{'sub':'A:B:C:id-123','exp':1700000000}".
Definition idRaw : gmap string JSON :=
  Reference.toMap
    [("sub", JString "A:B:C:id-123");
     ("exp", JNumber (Cli.float64_of_int64 1700000000))].

(** Claims whose expiry is written 1.7e9, is the string 1700000000, and
    is 1e999, a number beyond [float64]; and claims of the wrong types: a
    number as subject, null as email, true as expiry. *)
Definition floatExpClaims64 : string := "eyJleHAiOjEuN2U5fQ".
Definition stringExpClaims64 : string := "eyJleHAiOiIxNzAwMDAwMDAwIn0".
Definition hugeExpClaims64 : string := "eyJleHAiOjFlOTk5fQ".
Definition mistypedClaims64 : string :=
  "eyJzdWIiOjQyLCJlbWFpbCI6bnVsbCwiZXhwIjp0cnVlfQ".

(** Claims with neither subject nor email nor expiry. *)
Definition noClaims64 : string := "e30".
Definition noClaims : string := "{}".
Definition noRaw : gmap string JSON := ∅.

(** Claims with the subject s and the expiry -5. *)
Definition pastClaims64 : string := "eyJzdWIiOiJzIiwiZXhwIjotNX0".

(** Two responses of the auth endpoint with different tokens, and one of
    another endpoint. *)
Definition firstResponse : BrowserAuth.Response.t :=
  BrowserAuth.Response.mk 200 "https://api.getbring.com/rest/v2/bringauth"
    (Some (BrowserAuth.Payload.mkPayload "Ann" "u-1" "p-1" "first" "r-1"))
    2500.
Definition secondResponse : BrowserAuth.Response.t :=
  BrowserAuth.Response.mk 200 "https://api.getbring.com/rest/v2/bringauth"
    (Some (BrowserAuth.Payload.mkPayload "Ann" "u-1" "p-1" "second" "r-2"))
    2600.
Definition otherResponse : BrowserAuth.Response.t :=
  BrowserAuth.Response.mk 200 "https://web.getbring.com/app" None 100.

(** The login page, a sign-in page of another site, and a tab on the
    application whose storage holds a token with the subject
    X:Y:Z:uuid-123 and no user id. *)
Definition loginPage : Playwright.Page :=
  Playwright.mkPage "https://web.getbring.com/login" [] [] false.
Definition elsewhere : Playwright.Page :=
  Playwright.mkPage "https://accounts.example.com/signin" [] [] false.
Definition uuidClaims64 : string := "eyJzdWIiOiJYOlk6Wjp1dWlkLTEyMyJ9".
Definition appTab : Playwright.Page :=
  Playwright.mkPage "https://web.getbring.com/app"
    [("locale", "en"); ("accessToken", tokenOf uuidClaims64)] [] false.

(** The user completes the login in a new tab during the third second. *)
Definition loginViews (k : nat) : Playwright.View :=
  Playwright.mkView loginPage
    (Some (if (k <? 3)%nat then [loginPage; elsewhere]
           else [loginPage; elsewhere; appTab])).

(** The user never completes the login. *)
Definition stuckViews (k : nat) : Playwright.View :=
  Playwright.mkView loginPage (Some [loginPage]).

(** Each turn of the loop takes 20 ms beside the wait. *)
Definition someLag (k : nat) : Z := 20.

(** The user completes the login in the tab the code opened. *)
Definition appPage : Playwright.Page :=
  Playwright.mkPage "https://web.getbring.com/app" [] [] false.
Definition sameTabViews (k : nat) : Playwright.View :=
  Playwright.mkView (if (k <? 3)%nat then loginPage else appPage) None.

(** A run of the login with the given responses, views and browser at the
    time the storage is read, no error of the driver, and the login
    detected after three seconds. *)
Definition run (rs : list BrowserAuth.Response.t)
    (vs : nat -> Playwright.View) (v : Playwright.View) : BrowserAuth.World :=
  BrowserAuth.mkWorld None None None None "https://web.getbring.com/login"
    0 vs someLag rs 3100 v.

(** Login detected, no matching response, and a storage that yields only
    the token. *)
Definition storageOnly : BrowserAuth.World :=
  run [otherResponse] loginViews (loginViews 3).
Definition storageOnlyResult : BrowserAuth.BrowserAuthResult :=
  BrowserAuth.mkResult (tokenOf uuidClaims64) EmptyString EmptyString
    EmptyString EmptyString.

(** A token whose subject is abc, without any colon. *)
Definition abcClaims64 : string := "eyJzdWIiOiJhYmMifQ".
Definition abcResult : BrowserAuth.BrowserAuthResult :=
  BrowserAuth.mkResult (tokenOf abcClaims64) EmptyString EmptyString
    EmptyString EmptyString.

(** A response of the auth endpoint without user id, whose token has the
    subject A:B:C: with nothing after the last colon. *)
Definition colonClaims64 : string := "eyJzdWIiOiJBOkI6QzoifQ".
Definition colonResponse : BrowserAuth.Response.t :=
  BrowserAuth.Response.mk 200 "https://api.getbring.com/rest/v2/bringauth"
    (Some (BrowserAuth.Payload.mkPayload "Ann" EmptyString EmptyString
             (tokenOf colonClaims64) EmptyString))
    2500.
Definition colonRun : BrowserAuth.World :=
  run [colonResponse] sameTabViews (sameTabViews 3).

(** A response of the auth endpoint with a token and no user id. *)
Definition anonymousResponse : BrowserAuth.Response.t :=
  BrowserAuth.Response.mk 200 "https://api.getbring.com/rest/v2/bringauth"
    (Some (BrowserAuth.Payload.mkPayload "Ann" EmptyString EmptyString
             "first" EmptyString))
    2500.
Definition anonymousRun : BrowserAuth.World :=
  run [anonymousResponse] sameTabViews (sameTabViews 3).

(** A tab whose storage holds the canonical keys, split over the two
    areas, and a tab whose persistent area holds a token, a user id and an
    email. *)
Definition splitTab : Playwright.Page :=
  Playwright.mkPage "https://web.getbring.com/app"
    [("accessToken", "tok-1"); ("userName", "Ann")]
    [("userUuid", "u-1"); ("accessToken", "tok-session")] false.
Definition storedTab : Playwright.Page :=
  Playwright.mkPage "https://web.getbring.com/app"
    [("accessToken", "stored-token"); ("userUuid", "u-2");
     ("email", "ann@example.com")] [] false.
Definition storedResult : BrowserAuth.BrowserAuthResult :=
  BrowserAuth.mkResult "stored-token" "u-2" EmptyString EmptyString
    "ann@example.com".

(** A tab whose storage holds a token that is not a JWT and no user id. *)
Definition opaqueTab : Playwright.Page :=
  Playwright.mkPage "https://web.getbring.com/app"
    [("accessToken", "opaque")] [] false.

(** Both sources have something: a response of the auth endpoint, with or
    without a user id, and the stored values. *)
Definition storedView : Playwright.View :=
  Playwright.mkView storedTab None.
Definition bothSources : BrowserAuth.World :=
  run [firstResponse] sameTabViews storedView.
Definition bothAnonymous : BrowserAuth.World :=
  run [anonymousResponse] sameTabViews storedView.

(** The response with the token arrives a minute after the login, when
    the code has stopped waiting. *)
Definition lateResponse : BrowserAuth.Response.t :=
  BrowserAuth.Response.mk 200 "https://api.getbring.com/rest/v2/bringauth"
    (Some (BrowserAuth.Payload.mkPayload "Ann" "u-1" "p-1" "first" "r-1"))
    63000.
Definition lateSource : BrowserAuth.World :=
  run [lateResponse] sameTabViews storedView.
Definition firstPayload : BrowserAuth.authResponsePayload :=
  BrowserAuth.Payload.mkPayload "Ann" "u-1" "p-1" "first" "r-1".
Definition anonymousPayload : BrowserAuth.authResponsePayload :=
  BrowserAuth.Payload.mkPayload "Ann" EmptyString EmptyString "first"
    EmptyString.

(** The stored value of the specification's scan example, and a tab
    whose only stored value it is, without and with a stored user id. *)
Definition nestedToken : JSON :=
  JObject [("auth", JObject [("access_token", JString "abc")])].
Definition nestedTokenText : string :=
  Reference.json "{'auth':{'access_token':'abc'}}".
Definition nestedTab : Playwright.Page :=
  Playwright.mkPage "https://web.getbring.com/app"
    [("persist:root", nestedTokenText)] [] false.
Definition nestedTabWithUser : Playwright.Page :=
  Playwright.mkPage "https://web.getbring.com/app"
    [("userUuid", "u-1"); ("persist:root", nestedTokenText)] [] false.

(** A signed token as a service issues it, and the same text with a
    backslash before each dot. *)
Definition signedToken : string := header +:+ "." +:+ idClaims64 +:+ ".c2ln".
Definition escapedToken : string :=
  header +:+ "\." +:+ idClaims64 +:+ "\.c2ln".

(** Two stored values with a token under different aliases. *)
Definition twoTokensTab : Playwright.Page :=
  Playwright.mkPage "https://web.getbring.com/app"
    [("session", Reference.json "{'token':'zzz'}");
     ("persist:root", nestedTokenText)] [] false.

End Examples.

(** ** The rest of the command-line file and what it calls

    The functions of [src/unnamed/part_002] around the login: the
    argument parser and the dispatcher, the conversions of decoded JSON
    values, the scaling of amounts, the ingredients of a recipe and the
    commands that read and write the stored configuration
    ([src/internal/cli/config.go], first document), with the parts of
    the client they call ([src/bring/bring.go]). Printing is left out:
    a command is its exit code and what it does to the disk. *)

(** *** [strings] and [strconv] *)

Module Strings.

(** [strings.HasPrefix(s, prefix)]. *)
Fixpoint HasPrefix (s prefix : string) {struct prefix} : bool :=
  match prefix, s with
  | EmptyString, _ => true
  | String a p, String b t => Ascii.eqb a b && HasPrefix t p
  | String _ _, EmptyString => false
  end.

(** [strings.HasSuffix(s, suffix)]. *)
Fixpoint HasSuffix (s suffix : string) : bool :=
  String.eqb s suffix
  || match s with
     | EmptyString => false
     | String _ t => HasSuffix t suffix
     end.

(** [s[n:]], for [n] up to the length of [s]. *)
Fixpoint from (n : nat) (s : string) : string :=
  match n, s with
  | O, _ => s
  | S m, String _ t => from m t
  | S _, EmptyString => EmptyString
  end.

(** [strings.SplitN(s, sep, 2)] for a one-byte separator: [s] alone when
    it holds no separator, otherwise what is before and what is after the
    first one. *)
Fixpoint SplitN2 (s : string) (sep : ascii) : list string :=
  match s with
  | EmptyString => [EmptyString]
  | String c t =>
      if Ascii.eqb c sep then [EmptyString; t]
      else match SplitN2 t sep with
           | h :: r => String c h :: r
           | [] => [String c EmptyString]
           end
  end.

(** [strings.ReplaceAll(s, old, new)] for one byte and one byte. *)
Fixpoint ReplaceAll (s : string) (old new : ascii) : string :=
  match s with
  | EmptyString => EmptyString
  | String c t =>
      String (if Ascii.eqb c old then new else c) (ReplaceAll t old new)
  end.

(** [strings.TrimSuffix(s, suffix)]. *)
Fixpoint TrimSuffix (s suffix : string) : string :=
  if String.eqb s suffix then EmptyString
  else match s with
       | EmptyString => EmptyString
       | String c t => if HasSuffix t suffix then String c (TrimSuffix t suffix)
                       else s
       end.

(** The length in bytes of the white space character at the head of a
    string, [O] when there is none: [unicode.IsSpace] on the rune that
    [utf8.DecodeRuneInString] reads. These are the tab, the line feed,
    the vertical tab, the form feed, the carriage return, the space,
    U+0085, U+00A0, U+1680, U+2000 to U+200A, U+2028, U+2029, U+202F,
    U+205F and U+3000. *)
Definition spaceAt (s : string) : nat :=
  match s with
  | EmptyString => O
  | String c t =>
      let n := N_of_ascii c in
      if Go.between 9 13 n || (n =? 32)%N then 1%nat
      else
        match t with
        | String d u =>
            let m := N_of_ascii d in
            if (n =? 194)%N then
              if (m =? 133)%N || (m =? 160)%N then 2%nat else O
            else
              match u with
              | String e _ =>
                  let l := N_of_ascii e in
                  if (n =? 225)%N then
                    if (m =? 154)%N && (l =? 128)%N then 3%nat else O
                  else if (n =? 226)%N then
                    if (m =? 128)%N
                       && (Go.between 128 138 l || (l =? 168)%N
                           || (l =? 169)%N || (l =? 175)%N)
                    then 3%nat
                    else if (m =? 129)%N && (l =? 159)%N then 3%nat else O
                  else if (n =? 227)%N then
                    if (m =? 128)%N && (l =? 128)%N then 3%nat else O
                  else O
              | EmptyString => O
              end
        | EmptyString => O
        end
  end.

(** [strings.TrimLeftFunc(s, unicode.IsSpace)]; [fuel] is at least the
    length of [s]. *)
Fixpoint trimLeft (fuel : nat) (s : string) : string :=
  match fuel with
  | O => s
  | S fuel' =>
      match spaceAt s with
      | O => s
      | n => trimLeft fuel' (from n s)
      end
  end.

(** Whether a string is white space from end to end. *)
Definition allSpace (s : string) : bool :=
  String.eqb (trimLeft (String.length s) s) EmptyString.

(** [strings.TrimRightFunc(s, unicode.IsSpace)]: [s] without the white
    space it ends in. *)
Fixpoint trimRight (s : string) : string :=
  match s with
  | EmptyString => EmptyString
  | String c t => if allSpace s then EmptyString else String c (trimRight t)
  end.

(** [strings.TrimSpace(s)]. *)
Definition TrimSpace (s : string) : string :=
  trimRight (trimLeft (String.length s) s).

Definition isASCII (s : string) : bool :=
  forallb (fun c => (N_of_ascii c <? 128)%N) (list_ascii_of_string s).

Definition lowerByte (c : ascii) : ascii :=
  let n := N_of_ascii c in
  if Go.between 65 90 n then ascii_of_N (n + 32) else c.

(** [strings.ToLower(s)]: the letters A to Z of a string of ASCII are
    shifted; a string that holds any other byte is mapped rune by rune
    through [unicode.ToLower], here [mapLower]. *)
Definition ToLower (mapLower : string -> string) (s : string) : string :=
  if isASCII s
  then string_of_list_ascii (List.map lowerByte (list_ascii_of_string s))
  else mapLower s.

End Strings.

Module Strconv.

Definition isDigit (c : ascii) : bool := Go.between 48 57 (N_of_ascii c).

(** The value of a string of decimal digits after [acc]; [None] when a
    byte is no digit. *)
Fixpoint digits (s : string) (acc : Z) : option Z :=
  match s with
  | EmptyString => Some acc
  | String c t =>
      if isDigit c then digits t (acc * 10 + (Z.of_N (N_of_ascii c) - 48))
      else None
  end.

(** [strconv.Atoi(s)] where [int] has 64 bits: an optional sign and one
    or more decimal digits, of a value within [int]; [None] is its
    syntax or range error. *)
Definition Atoi (s : string) : option Z :=
  let signed (neg : bool) (t : string) :=
    match t with
    | EmptyString => None
    | _ =>
        match digits t 0 with
        | Some n =>
            let v := if neg then - n else n in
            if (Go.minInt64 <=? v) && (v <=? Go.maxInt64) then Some v else None
        | None => None
        end
    end in
  match s with
  | EmptyString => None
  | String c t =>
      if Ascii.eqb c "-"%char then signed true t
      else if Ascii.eqb c "+"%char then signed false t
      else signed false s
  end.

(** The decimal digits of a natural number, [n] itself of one digit when
    below ten. *)
Fixpoint decimalFrom (fuel : nat) (n : Z) (acc : string) : string :=
  let acc' := String (ascii_of_N (Z.to_N (n mod 10) + 48)) acc in
  match fuel with
  | O => acc'
  | S fuel' => if n <? 10 then acc' else decimalFrom fuel' (n / 10) acc'
  end.

Definition decimal (n : Z) : string :=
  decimalFrom (Z.to_nat (Z.log2 n)) n EmptyString.

(** [strconv.FormatFloat(v, 'f', 1, 64)]: the value rounded to one digit
    after the point, a tie toward the even digit; the conversion is
    exact. *)
Definition FormatFloat1 (v : Go.float64) : string :=
  match v with
  | S754_nan => "NaN"
  | S754_infinity false => "+Inf"
  | S754_infinity true => "-Inf"
  | S754_zero false => "0.0"
  | S754_zero true => "-0.0"
  | S754_finite neg m e =>
      let num := (if 0 <=? e then Z.pos m * 2 ^ e else Z.pos m) * 10 in
      let den := if 0 <=? e then 1 else 2 ^ (- e) in
      let q := num / den in
      let r := num mod den in
      let tenths :=
        if 2 * r <? den then q
        else if den <? 2 * r then q + 1
        else if Z.even q then q else q + 1 in
      (if neg then "-" else EmptyString)
      +:+ decimal (tenths / 10) +:+ "."
      +:+ decimal (tenths mod 10)
  end.

End Strconv.

(** *** The arguments and the dispatcher *)

Module Args.

Record FlagSet : Type := mkFlagSet {
  Values : gmap string string;
  Bools : gmap string bool
}.

(** [f.Bools[name] || f.Values[name] != ""]. *)
Definition Has (f : FlagSet) (name : string) : bool :=
  default false (Bools f !! name)
  || Cli.nonEmpty (default EmptyString (Values f !! name)).

(** [f.Values[name]]. *)
Definition Get (f : FlagSet) (name : string) : string :=
  default EmptyString (Values f !! name).

(** The three results of [parseArgs], which are also the variables of
    its loop. *)
Record parsed : Type := mkParsed {
  command : string;
  flags : FlagSet;
  positional : list string
}.

Definition setCommand (st : parsed) (arg : string) : parsed :=
  {| command := arg; flags := flags st; positional := positional st |}.

(** [flags.Values[key] = value]. *)
Definition setValue (st : parsed) (key value : string) : parsed :=
  {| command := command st;
     flags := {| Values := <[key := value]> (Values (flags st));
                 Bools := Bools (flags st) |};
     positional := positional st |}.

(** [flags.Bools[key] = true]. *)
Definition setBool (st : parsed) (key : string) : parsed :=
  {| command := command st;
     flags := {| Values := Values (flags st);
                 Bools := <[key := true]> (Bools (flags st)) |};
     positional := positional st |}.

(** [positional = append(positional, arg)]. *)
Definition addPositional (st : parsed) (arg : string) : parsed :=
  {| command := command st;
     flags := flags st;
     positional := positional st ++ [arg] |}.

(** The loop of [parseArgs] from index [i] on, [rest] being [args[i:]]. *)
Fixpoint loop (i : nat) (rest : list string) (st : parsed) : parsed :=
  match rest with
  | [] => st
  | arg :: rest' =>
      if Nat.eqb i 0 && negb (Strings.HasPrefix arg "-") then
        loop (S i) rest' (setCommand st arg)
      else if Strings.HasPrefix arg "--" then
        match Strings.SplitN2 (Strings.from 2 arg) "="%char with
        | [key; value] => loop (S i) rest' (setValue st key value)
        | keyValue =>
            let key := hd EmptyString keyValue in
            match rest' with
            | next :: rest'' =>
                if negb (Strings.HasPrefix next "-")
                then loop (S (S i)) rest'' (setValue st key next)
                else loop (S i) rest' (setBool st key)
            | [] => loop (S i) rest' (setBool st key)
            end
        end
      else if Strings.HasPrefix arg "-" then
        loop (S i) rest' (setBool st (Strings.from 1 arg))
      else loop (S i) rest' (addPositional st arg)
  end.

Definition noFlags : FlagSet := {| Values := ∅; Bools := ∅ |}.

(** [parseArgs(args)]. *)
Definition parseArgs (args : list string) : parsed :=
  loop 0 args {| command := EmptyString; flags := noFlags; positional := [] |}.

(** An argument that does not start with a dash. *)
Definition plain (arg : string) : Prop := Strings.HasPrefix arg "-" = false.

(** Where the flags of a parse come from: a value from an argument
    [--key=value] or from the argument after [--key], which does not
    start with a dash; a switch from an argument [-key] or [--key], and
    it is on. *)
Definition valuesFrom (args : list string) (f : FlagSet) : Prop :=
  forall key value,
    Values f !! key = Some value ->
    In ("--" +:+ key +:+ String "="%char value) args
    \/ exists before after,
         args = (before ++ ("--" +:+ key) :: value :: after)%list
         /\ plain value.

Definition boolsFrom (args : list string) (f : FlagSet) : Prop :=
  forall key b,
    Bools f !! key = Some b ->
    b = true /\ (In ("-" +:+ key) args \/ In ("--" +:+ key) args).

(** What [Run] hands the arguments to: the help text, one of the
    commands with what it is given, or the complaint about an unknown
    command. [Run] returns 0 after the help text, 1 after the complaint,
    and otherwise what the command returns. *)
Inductive call : Type :=
  | showHelp
  | loginCommand (flags : FlagSet)
  | logoutCommand
  | statusCommand
  | listsCommand
  | itemsCommand (positional : list string) (flags : FlagSet)
  | addCommand (positional : list string) (flags : FlagSet)
  | removeCommand (positional : list string) (flags : FlagSet)
  | completeCommand (positional : list string) (flags : FlagSet)
  | usersCommand (flags : FlagSet)
  | notifyCommand (positional : list string) (flags : FlagSet)
  | activityCommand (flags : FlagSet)
  | accountCommand
  | settingsCommand
  | configCommand (positional : list string)
  | inspirationsCommand (positional : list string) (flags : FlagSet)
  | recipeCommand (positional : list string) (flags : FlagSet)
  | addRecipeCommand (positional : list string) (flags : FlagSet)
  | catalogCommand (positional : list string)
  | unknownCommand (command : string).

(** The [switch] of [Run]. *)
Definition dispatch (command : string) (flags : FlagSet)
    (positional : list string) : call :=
  if String.eqb command "login" then loginCommand flags
  else if String.eqb command "logout" then logoutCommand
  else if String.eqb command "status" then statusCommand
  else if String.eqb command "lists" then listsCommand
  else if String.eqb command "items" then itemsCommand positional flags
  else if String.eqb command "add" then addCommand positional flags
  else if String.eqb command "remove" || String.eqb command "rm"
  then removeCommand positional flags
  else if String.eqb command "complete" || String.eqb command "done"
  then completeCommand positional flags
  else if String.eqb command "users" then usersCommand flags
  else if String.eqb command "notify" then notifyCommand positional flags
  else if String.eqb command "activity" then activityCommand flags
  else if String.eqb command "account" then accountCommand
  else if String.eqb command "settings" then settingsCommand
  else if String.eqb command "config" then configCommand positional
  else if String.eqb command "inspirations"
  then inspirationsCommand positional flags
  else if String.eqb command "recipe" then recipeCommand positional flags
  else if String.eqb command "add-recipe"
  then addRecipeCommand positional flags
  else if String.eqb command "catalog" then catalogCommand positional
  else if String.eqb command EmptyString then showHelp
  else unknownCommand command.

(** [Run(args)], up to the call. *)
Definition Run (args : list string) : call :=
  let p := parseArgs args in
  if Has (flags p) "help" || Has (flags p) "h"
     || String.eqb (command p) "help"
  then showHelp
  else dispatch (command p) (flags p) (positional p).

End Args.

(** *** Conversions of decoded values *)

Module Conv.
Section WithRuntime.
Context `{Runtime}.

(** [coalesce(values...)]. *)
Fixpoint coalesce (values : list string) : string :=
  match values with
  | [] => EmptyString
  | value :: rest => if Cli.nonEmpty value then value else coalesce rest
  end.

(** [m[key]] for a [map[string]interface{}]: [nil] for a missing key. *)
Definition index (m : gmap string JSON) (key : string) : JSON :=
  default JNull (m !! key).

(** [toInt(value)] on a decoded JSON value, [int] having 64 bits: a
    number is truncated, a string goes through [strconv.Atoi], anything
    else gives zero. *)
Definition toInt (value : JSON) : Z :=
  match value with
  | JNumber v => Cli.int64_of_float64 v
  | _ =>
      let s := Cli.toString value in
      if Cli.nonEmpty s then
        match Strconv.Atoi s with
        | Some i => i
        | None => 0
        end
      else 0
  end.

(** [toBool(value)] on a decoded JSON value. *)
Definition toBool (value : JSON) : bool :=
  match value with
  | JBool v => v
  | JString v => String.eqb v "true" || String.eqb v "1"
  | JNumber v => negb (SFeqb v Go.float64_0)
  | _ => false
  end.

(** [toMap(value)]. *)
Definition toMap (value : JSON) : gmap string JSON :=
  match value with
  | JObject ms => Reference.toMap ms
  | _ => ∅
  end.

(** [toSlice(value)]. *)
Definition toSlice (value : JSON) : list JSON :=
  match value with
  | JArray s => s
  | _ => []
  end.

(** [parseServings(values...)]. *)
Fixpoint parseServings (values : list JSON) : Z :=
  match values with
  | [] => 0
  | JNull :: rest => parseServings rest
  | value :: rest =>
      let i := toInt value in
      if 0 <? i then i else parseServings rest
  end.

(** The two errors of [parseOutputFormat]. *)
Inductive formatError : Type :=
  | FormatRequiresValue
  | UnknownFormat (format : string).

(** [parseOutputFormat(flags, defaultFormat)]: the format, whether it is
    pretty, or the error. *)
Definition parseOutputFormat (mapLower : string -> string)
    (flags : Args.FlagSet) (defaultFormat : string)
    : (string * bool) + formatError :=
  let format := Strings.ToLower mapLower (Args.Get flags "format") in
  if negb (Cli.nonEmpty format) && Args.Has flags "format"
  then inr FormatRequiresValue
  else
    let format := if Cli.nonEmpty format then format else defaultFormat in
    if String.eqb format "json" then inl ("json", false)
    else if String.eqb format "pretty" || String.eqb format "pretty-json"
            || String.eqb format "json-pretty"
    then inl ("json", true)
    else if String.eqb format "human" || String.eqb format "text"
    then inl ("human", false)
    else inr (UnknownFormat format).

End WithRuntime.
End Conv.

(** *** Amounts and ingredients of a recipe *)

Module Recipe.

(** The class [[\d.,]] of [specAmountRe]. *)
Definition isAmount (c : ascii) : bool :=
  Strconv.isDigit c || Ascii.eqb c "." || Ascii.eqb c ",".

(** The class [\s] of the [regexp] package: the tab, the line feed, the
    form feed, the carriage return and the space. *)
Definition isBlank (c : ascii) : bool :=
  let n := N_of_ascii c in
  ((n =? 9) || (n =? 10) || (n =? 12) || (n =? 13) || (n =? 32))%N.

(** The longest prefix of a string whose bytes are in a class, and what
    follows it: a greedy repetition of the class. Both classes hold bytes
    of ASCII only, so matching by byte is matching by rune. *)
Fixpoint span (p : ascii -> bool) (s : string) : string * string :=
  match s with
  | EmptyString => (EmptyString, EmptyString)
  | String c t =>
      if p c then let '(a, r) := span p t in (String c a, r)
      else (EmptyString, s)
  end.

(** [specAmountRe.FindStringSubmatch(spec)] for the expression
    [^([\d.,]+)\s*]: [None] when there is no match, otherwise the group
    [match[1]] and [spec[len(match[0]):]]. *)
Definition findAmount (spec : string) : option (string * string) :=
  let '(amount, r) := span isAmount spec in
  if String.eqb amount EmptyString then None
  else Some (amount, snd (span isBlank r)).

(** The [float64] 1. *)
Definition one : Go.float64 := S754_finite false 4503599627370496 (-52).

(** Whether every byte of a string is in a class, and whether its first
    byte is. *)
Fixpoint allOf (p : ascii -> bool) (s : string) : bool :=
  match s with
  | EmptyString => true
  | String c t => p c && allOf p t
  end.

Definition startsWith (p : ascii -> bool) (s : string) : bool :=
  match s with
  | EmptyString => false
  | String c _ => p c
  end.

Section WithRuntime.
Context `{Runtime}.

(** [scaleSpec(spec, scale)]. The expression is anchored at the start,
    so [ReplaceAllString] replaces the one match there; the replacement
    holds no dollar sign, so it is taken as it is. *)
Definition scaleSpec (spec : string) (scale : Go.float64) : string :=
  if String.eqb spec EmptyString || SFeqb scale one then spec
  else
    match findAmount spec with
    | None => spec
    | Some (amount, rest) =>
        let remaining := Strings.TrimSpace rest in
        if Strings.HasPrefix remaining "-" || Strings.HasPrefix remaining "/"
        then spec
        else
          let numStr := Strings.ReplaceAll amount "," "." in
          match strconv_ParseFloat numStr with
          | None => spec
          | Some num =>
              let scaled := SFmul 53 1024 num scale in
              let scaledStr := Strconv.FormatFloat1 scaled in
              let scaledStr := Strings.TrimSuffix scaledStr ".0" in
              let scaledStr := Strings.ReplaceAll scaledStr "." "," in
              scaledStr +:+ " " +:+ rest
          end
    end.

(** The text [scaleSpec] writes for a scaled amount. *)
Definition amountText (scaled : Go.float64) : string :=
  Strings.ReplaceAll
    (Strings.TrimSuffix (Strconv.FormatFloat1 scaled) ".0") "." ",".

(** [recipeIngredientOutput]. *)
Record recipeIngredientOutput : Type := mkIngredient {
  Name : string;
  Spec : string;
  Pantry : bool
}.

(** The name [recipeIngredients] gives to an item. *)
Definition nameOf (item : JSON) : string :=
  let m := Conv.toMap item in
  Conv.coalesce [Cli.toString (Conv.index m "itemId");
                 Cli.toString (Conv.index m "name");
                 Cli.toString (Conv.index m "text")].

(** The loop of [recipeIngredients] over the items. *)
Fixpoint ingredientsOf (items : list JSON) (scale : Go.float64)
    : list recipeIngredientOutput :=
  match items with
  | [] => []
  | item :: rest =>
      let m := Conv.toMap item in
      let name := nameOf item in
      if negb (Cli.nonEmpty name) then ingredientsOf rest scale
      else
        {| Name := name;
           Spec := scaleSpec (Cli.toString (Conv.index m "spec")) scale;
           Pantry := Conv.toBool (Conv.index m "stock") |}
        :: ingredientsOf rest scale
  end.

(** The items [recipeIngredients] goes through. *)
Definition itemsOf (recipe : gmap string JSON) : list JSON :=
  match Conv.toSlice (Conv.index recipe "items") with
  | [] => Conv.toSlice (Conv.index recipe "ingredients")
  | items => items
  end.

(** [recipeIngredients(recipe, scale)]; [None] is the nil slice. *)
Definition recipeIngredients (recipe : gmap string JSON) (scale : Go.float64)
    : option (list recipeIngredientOutput) :=
  match itemsOf recipe with
  | [] => None
  | items => Some (ingredientsOf items scale)
  end.

End WithRuntime.
End Recipe.

(** *** The client, as far as the login calls it ([src/bring/bring.go]) *)

Module Bring.

Definition defaultBaseURL : string := "https://api.getbring.com/rest/v2/".

(** [normalizeBaseURL(base)]. *)
Definition normalizeBaseURL (base : string) : string :=
  if String.eqb base EmptyString then defaultBaseURL
  else if Strings.HasSuffix base "/" then base
  else base +:+ "/".

(** [TokenAuthOptions]. *)
Record TokenAuthOptions : Type := mkOptions {
  AccessToken : string;
  UserUUID : string;
  PublicUserUUID : string;
  URL : string
}.

(** The fields of [GetUserAccountResponse] the commands read. *)
Record Account : Type := mkAccount {
  accountUserUUID : string;
  accountPublicUserUUID : string;
  accountName : string;
  accountEmail : string
}.

End Bring.

(** *** The stored configuration ([src/internal/cli/config.go], first
    document) and the commands that use it *)

Module Store.

(** [Config]. *)
Record Config : Type := mkConfig {
  AccessToken : string;
  UserUUID : string;
  PublicUserUUID : string;
  UserName : string;
  Email : string;
  Servings : Z;
  DefaultList : string;
  Locale : string
}.

(** [Config{}]. *)
Definition noConfig : Config :=
  mkConfig EmptyString EmptyString EmptyString EmptyString EmptyString 0
    EmptyString EmptyString.

(** [json.MarshalIndent(config, "", "  ")], which returns no error for
    this struct, and [json.Unmarshal(data, &config)], [None] when it
    returns an error. *)
Class Codec : Type := {
  json_MarshalIndent : Config -> string;
  json_UnmarshalConfig : string -> option Config
}.

(** The disk at the path of the configuration: the bytes of the file,
    [None] when there is no file. *)
Definition Disk : Type := option string.

(** What the operating system does to the calls of one command beside
    the plain case: [os.ReadFile] fails on the file that is there;
    [os.MkdirAll] fails; [os.WriteFile] fails, leaving the file in some
    state; [os.Remove] fails on the file that is there. *)
Record Faults : Type := mkFaults {
  readErr : bool;
  mkdirErr : option string;
  writeErr : option (string * Disk);
  removeErr : option string
}.

Definition noFaults : Faults := mkFaults false None None None.

Section WithCodec.
Context `{Codec}.
Variable os : Faults.

(** [os.ReadFile(path)]; [None] is its error. *)
Definition ReadFile (d : Disk) : option string :=
  if readErr os then None else d.

(** [loadConfig()]. *)
Definition loadConfig (d : Disk) : Config :=
  match ReadFile d with
  | None => noConfig
  | Some data =>
      match json_UnmarshalConfig data with
      | Some config => config
      | None => noConfig
      end
  end.

(** [saveConfig(config)]: the error it returns, if any, and the disk
    afterwards. *)
Definition saveConfig (config : Config) (d : Disk) : option string * Disk :=
  match mkdirErr os with
  | Some e => (Some e, d)
  | None =>
      match writeErr os with
      | Some (e, remains) => (Some e, remains)
      | None => (None, Some (json_MarshalIndent config))
      end
  end.

(** [clearConfig()]: removing a file that is not there is no error. *)
Definition clearConfig (d : Disk) : option string * Disk :=
  match d with
  | None => (None, d)
  | Some _ =>
      match removeErr os with
      | Some e => (Some e, d)
      | None => (None, None)
      end
  end.

(** [isLoggedIn()]. *)
Definition isLoggedIn (d : Disk) : bool :=
  Cli.nonEmpty (AccessToken (loadConfig d)).

(** [logoutCommand()]: the exit code and the disk afterwards. *)
Definition logoutCommand (d : Disk) : Z * Disk :=
  if negb (isLoggedIn d) then (0, d)
  else
    match clearConfig d with
    | (Some _, d') => (1, d')
    | (None, d') => (0, d')
    end.

(** [getBringClient()]: the options the client is made from, when the
    stored configuration holds a token and a user id. *)
Definition getBringClient (baseURL : string) (d : Disk)
    : option Bring.TokenAuthOptions :=
  let cfg := loadConfig d in
  if negb (Cli.nonEmpty (AccessToken cfg)) || negb (Cli.nonEmpty (UserUUID cfg))
  then None
  else Some (Bring.mkOptions (AccessToken cfg) (UserUUID cfg)
               (PublicUserUUID cfg) baseURL).

Definition withServings (cfg : Config) (n : Z) : Config :=
  mkConfig (AccessToken cfg) (UserUUID cfg) (PublicUserUUID cfg)
    (UserName cfg) (Email cfg) n (DefaultList cfg) (Locale cfg).

Definition withDefaultList (cfg : Config) (v : string) : Config :=
  mkConfig (AccessToken cfg) (UserUUID cfg) (PublicUserUUID cfg)
    (UserName cfg) (Email cfg) (Servings cfg) v (Locale cfg).

Definition withLocale (cfg : Config) (v : string) : Config :=
  mkConfig (AccessToken cfg) (UserUUID cfg) (PublicUserUUID cfg)
    (UserName cfg) (Email cfg) (Servings cfg) (DefaultList cfg) v.

Definition isKey (key : string) : bool :=
  String.eqb key "servings" || String.eqb key "defaultList"
  || String.eqb key "locale".

(** [configCommand(positional)]: the exit code and the disk
    afterwards. *)
Definition configCommand (positional : list string) (d : Disk) : Z * Disk :=
  let cfg := loadConfig d in
  match positional with
  | [] => (0, d)
  | [key] => if isKey key then (0, d) else (1, d)
  | key :: value :: _ =>
      if String.eqb value EmptyString then (1, d)
      else
        let changed :=
          if String.eqb key "servings" then
            match Strconv.Atoi value with
            | Some num => if num <? 1 then None else Some (withServings cfg num)
            | None => None
            end
          else if String.eqb key "defaultList"
          then Some (withDefaultList cfg value)
          else if String.eqb key "locale" then Some (withLocale cfg value)
          else None in
        match changed with
        | None => (1, d)
        | Some cfg' =>
            match saveConfig cfg' d with
            | (Some _, d') => (1, d')
            | (None, d') => (0, d')
            end
        end
  end.

(** What a login meets outside the disk: [BRINGS_BASE_URL], the line
    [prompt] reads ([None] when [ReadString] returns an error), the
    clock, the browser, and the account service behind
    [client.GetUserAccount], which answers with an error or an account. *)
Record Env : Type := mkEnv {
  baseURL : string;
  stdin : option string;
  now : Go.Time;
  browser : BrowserAuth.World;
  getUserAccount : Bring.TokenAuthOptions -> string + Bring.Account
}.

(** [prompt(question)]. *)
Definition prompt (env : Env) : option string :=
  match stdin env with
  | Some text => Some (Strings.TrimSpace text)
  | None => None
  end.

(** The end of both paths of [loginCommand]: the configuration is
    saved. *)
Definition saved (cfg : Config) (d : Disk) : Z * Disk :=
  match saveConfig cfg d with
  | (Some _, d') => (1, d')
  | (None, d') => (0, d')
  end.

Context `{Runtime}.

(** [loginCommand(flags)]: the exit code and the disk afterwards;
    [fuel] bounds the turns of the wait for the login in the browser. *)
Definition loginCommand (fuel : nat) (flags : Args.FlagSet) (env : Env)
    (d : Disk) : option (Z * Disk) :=
  if Args.Has flags "browser" || Args.Has flags "b" then
    match BrowserAuth.BrowserLoginWithIntercept fuel (browser env) with
    | None => None
    | Some (Err _) => Some (1, d)
    | Some (Ok result) =>
        match getUserAccount env
                (Bring.mkOptions (BrowserAuth.AccessToken result)
                   (BrowserAuth.UserUUID result)
                   (BrowserAuth.PublicUserUUID result) (baseURL env)) with
        | inl _ => Some (1, d)
        | inr account =>
            Some (saved
                    (mkConfig (BrowserAuth.AccessToken result)
                       (Bring.accountUserUUID account)
                       (Bring.accountPublicUserUUID account)
                       (Conv.coalesce [Bring.accountName account;
                                       BrowserAuth.UserName result])
                       (Conv.coalesce [Bring.accountEmail account;
                                       BrowserAuth.Email result])
                       0 EmptyString EmptyString) d)
        end
    end
  else
    let entered :=
      if Cli.nonEmpty (Args.Get flags "token")
      then Some (Args.Get flags "token")
      else prompt env in
    match entered with
    | None => Some (1, d)
    | Some token =>
        match Cli.loginCommand token (now env) with
        | Cli.ValidateToken token userUUID =>
            match getUserAccount env
                    (Bring.mkOptions token userUUID EmptyString
                       (baseURL env)) with
            | inl _ => Some (1, d)
            | inr account =>
                Some (saved
                        (mkConfig token (Bring.accountUserUUID account)
                           (Bring.accountPublicUserUUID account)
                           (Bring.accountName account)
                           (Bring.accountEmail account)
                           0 EmptyString EmptyString) d)
            end
        | _ => Some (1, d)
        end
    end.

End WithCodec.

(** What a login that got as far as saving has saved: the token it
    asked the account service about, which is not empty, the user ids of
    the account the service answered with, and no preferences. *)
Definition loginSaved (env : Env) (cfg : Config) : Prop :=
  exists options account,
    getUserAccount env options = inr account
    /\ Bring.AccessToken options = AccessToken cfg
    /\ Bring.URL options = baseURL env
    /\ AccessToken cfg <> EmptyString
    /\ UserUUID cfg = Bring.accountUserUUID account
    /\ PublicUserUUID cfg = Bring.accountPublicUserUUID account
    /\ Servings cfg = 0 /\ DefaultList cfg = EmptyString
    /\ Locale cfg = EmptyString.

End Store.

(** *** A reference encoding of the configuration

    [json.MarshalIndent] and [json.Unmarshal] for [Config], written out
    for the concrete instances: text in well-formed UTF-8, keys spelled
    as the struct tags spell them, [servings] read by its value. *)

Module ReferenceCodec.

Definition hexDigit (n : N) : ascii :=
  ascii_of_N (if (n <? 10)%N then n + 48 else n + 87).

(** One byte of a string as the encoder writes it: quote and backslash
    escaped, the control characters and the three characters of HTML as
    [\uXXXX] or by their short form. *)
Definition escape (c : ascii) : string :=
  let n := N_of_ascii c in
  let u := "\u00" +:+ String (hexDigit (n / 16))
                       (String (hexDigit (n mod 16)) EmptyString) in
  if (n =? 34)%N || (n =? 92)%N then String "\"%char (String c EmptyString)
  else if (n =? 8)%N then "\b"
  else if (n =? 12)%N then "\f"
  else if (n =? 10)%N then "\n"
  else if (n =? 13)%N then "\r"
  else if (n =? 9)%N then "\t"
  else if (n <? 32)%N || (n =? 60)%N || (n =? 62)%N || (n =? 38)%N then u
  else String c EmptyString.

Fixpoint escapeAll (s : string) : string :=
  match s with
  | EmptyString => EmptyString
  | String c t => escape c +:+ escapeAll t
  end.

Definition quote : string := String (ascii_of_N 34) EmptyString.

Definition newline : string := String (ascii_of_N 10) EmptyString.

Definition text (key value : string) : string :=
  "  " +:+ quote +:+ key +:+ quote +:+ ": "
  +:+ quote +:+ escapeAll value +:+ quote.

Definition int (n : Z) : string :=
  if n <? 0 then "-" +:+ Strconv.decimal (- n) else Strconv.decimal n.

Definition MarshalIndent (config : Store.Config) : string :=
  "{" +:+ newline
  +:+ text "accessToken" (Store.AccessToken config) +:+ "," +:+ newline
  +:+ text "userUuid" (Store.UserUUID config) +:+ "," +:+ newline
  +:+ text "publicUserUuid" (Store.PublicUserUUID config) +:+ "," +:+ newline
  +:+ text "userName" (Store.UserName config) +:+ "," +:+ newline
  +:+ text "email" (Store.Email config) +:+ "," +:+ newline
  +:+ "  " +:+ quote +:+ "servings" +:+ quote +:+ ": "
  +:+ int (Store.Servings config) +:+ "," +:+ newline
  +:+ text "defaultList" (Store.DefaultList config) +:+ "," +:+ newline
  +:+ text "locale" (Store.Locale config) +:+ newline
  +:+ "}".

(** A string field: absent or null leaves it empty, a string fills it,
    anything else is an error. *)
Definition stringField (ms : list (string * JSON)) (key : string)
    : option string :=
  match member key ms with
  | None | Some JNull => Some EmptyString
  | Some (JString s) => Some s
  | Some _ => None
  end.

Definition intField (ms : list (string * JSON)) (key : string) : option Z :=
  match member key ms with
  | None | Some JNull => Some 0
  | Some (JNumber f) =>
      match Go.truncate f with
      | Some v =>
          if SFeqb f (binary_normalize 53 1024 v 0 false) then Some v else None
      | None => None
      end
  | Some _ => None
  end.

Definition UnmarshalConfig (data : string) : option Store.Config :=
  match Reference.parse data with
  | Some JNull => Some Store.noConfig
  | Some (JObject ms) =>
      match stringField ms "accessToken", stringField ms "userUuid",
            stringField ms "publicUserUuid", stringField ms "userName",
            stringField ms "email", intField ms "servings",
            stringField ms "defaultList", stringField ms "locale" with
      | Some a, Some u, Some p, Some n, Some e, Some s, Some l, Some c =>
          Some (Store.mkConfig a u p n e s l c)
      | _, _, _, _, _, _, _, _ => None
      end
  | _ => None
  end.

Definition codec : Store.Codec := {|
  Store.json_MarshalIndent := MarshalIndent;
  Store.json_UnmarshalConfig := UnmarshalConfig
|}.

End ReferenceCodec.

(** *** Notions for the storage scan *)

Module ScanFacts.

(** A member of the scan result that [json.Unmarshal] cannot store in a
    [map[string]string]: anything but undefined (left out of the text),
    a string, null, and an infinite number (written as null). *)
Definition notText (v : JS.value) : bool :=
  match v with
  | JS.Undefined | JS.Val (JString _) | JS.Val JNull
  | JS.Val (JNumber (S754_infinity _)) => false
  | JS.Val _ => true
  end.

(** A stored value the scan gets nothing from: no backslash in it, and
    [JSON.parse] throws on it. *)
Definition opaque `{Runtime} (value : string) : Prop :=
  countChar "\"%char value = O /\ JSON_parse value = None.

(** How a member of the scan result can change: not at all, or from a
    falsy value to a truthy one. *)
Definition step (a b : JS.value) : Prop :=
  b = a \/ (JS.truthy a = false /\ JS.truthy b = true).

Definition grew (r r' : BrowserAuth.scanResult) : Prop :=
  step (BrowserAuth.accessToken r) (BrowserAuth.accessToken r')
  /\ step (BrowserAuth.userUuid r) (BrowserAuth.userUuid r')
  /\ step (BrowserAuth.publicUserUuid r) (BrowserAuth.publicUserUuid r')
  /\ step (BrowserAuth.userName r) (BrowserAuth.userName r')
  /\ step (BrowserAuth.email r) (BrowserAuth.email r').

(** The values of the two storage areas of a page. *)
Definition storedValues (p : Playwright.Page) : list string :=
  List.map snd (Playwright.localStorage p ++ Playwright.sessionStorage p).

End ScanFacts.

(** *** Concrete inputs for the commands *)

Module Cases.

(** The configuration of the persistence test. *)
Definition testConfig : Store.Config :=
  Store.mkConfig "token" "user" "public" "Tester" "test@example.com" 3
    "list-1" "en-US".

(** A disk that holds preferences and no token. *)
Definition preferences : Store.Disk :=
  Some (Reference.json "{'servings': 4, 'locale': 'de-CH'}").

(** An account service that knows one user, and one that answers with
    an account without ids, as [decodeJSON] reads an empty body. *)
Definition tester : Bring.Account :=
  Bring.mkAccount "user-uuid" "public-uuid" "Tester" "test@example.com".
Definition service (options : Bring.TokenAuthOptions) : string + Bring.Account :=
  if String.eqb (Bring.UserUUID options) "user-uuid" then inr tester
  else inl "http 404".
Definition emptyService (options : Bring.TokenAuthOptions)
    : string + Bring.Account :=
  inr (Bring.mkAccount EmptyString EmptyString EmptyString EmptyString).

(** A token for that user that does not expire before 2100. *)
Definition userClaims64 : string :=
  "eyJzdWIiOiJCUk46VEVTVDpVU0VSOnVzZXItdXVpZCIsImV4cCI6NDEwMjQ0NDgwMH0".
Definition userToken : string := Examples.tokenOf userClaims64.

(** The surroundings of a login by token in 2023, with either
    service. *)
Definition tokenEnv : Store.Env :=
  Store.mkEnv EmptyString None (Go.At 1700000000 0) Examples.storageOnly
    service.
Definition emptyAccountEnv : Store.Env :=
  Store.mkEnv EmptyString None (Go.At 1700000000 0) Examples.storageOnly
    emptyService.

(** The surroundings of a login in the browser that ends in a payload
    for that user. *)
Definition userResponse : BrowserAuth.Response.t :=
  BrowserAuth.Response.mk 200 "https://api.getbring.com/rest/v2/bringauth"
    (Some (BrowserAuth.Payload.mkPayload "Ann" "user-uuid" "p-1" "first"
             "r-1"))
    2500.
Definition browserEnv : Store.Env :=
  Store.mkEnv EmptyString None (Go.At 1700000000 0)
    (Examples.run [userResponse] Examples.sameTabViews Examples.storedView)
    service.

(** A tab whose storage holds a signed token as it is, under a key of
    its own, and a tab whose stored object holds a token and a number as
    user id. *)
Definition rawTokenTab : Playwright.Page :=
  Playwright.mkPage "https://web.getbring.com/app"
    [("jwt", Examples.signedToken)] [] false.
Definition numericIdTab : Playwright.Page :=
  Playwright.mkPage "https://web.getbring.com/app"
    [("persist:auth", Reference.json "{'token':'abc','uuid':42}")] [] false.

(** The user never completes the login, although the auth response was
    seen. *)
Definition stuckRun : BrowserAuth.World :=
  Examples.run [Examples.firstResponse] Examples.stuckViews
    (Examples.stuckViews 0).

(** Two auth responses before the login is detected. *)
Definition twoEarly : BrowserAuth.World :=
  Examples.run [Examples.firstResponse; Examples.secondResponse]
    Examples.sameTabViews (Examples.sameTabViews 3).

(** The flags of a login by token. *)
Definition tokenFlags : Args.FlagSet :=
  Args.flags (Args.parseArgs ["login"; "--token"; userToken]).

(** The scales 2 and 1.5. *)
Definition double : Go.float64 := S754_finite false 4503599627370496 (-51).

Definition oneAndHalf : Go.float64 :=
  S754_finite false 6755399441055744 (-52).

End Cases.

(** * Properties *)

(** ** Strings *)

Lemma Split_nonempty (s : string) (sep : ascii) : Go.Split s sep <> [].
Proof.
  destruct s as [|c t]; simpl; [discriminate|].
  destruct (Ascii.eqb c sep); [discriminate|].
  destruct (Go.Split t sep); discriminate.
Qed.

(** [strings.Split] returns one piece more than there are separators. *)
Lemma Split_length (s : string) (sep : ascii) :
  length (Go.Split s sep) = S (countChar sep s).
Proof.
  induction s as [|c t IH]; simpl; [reflexivity|].
  destruct (Ascii.eqb c sep); simpl; [now rewrite IH|].
  destruct (Go.Split t sep) eqn:E; simpl in *; [discriminate|exact IH].
Qed.

Lemma isEmpty_true (s : string) : JS.isEmpty s = true <-> s = EmptyString.
Proof. unfold JS.isEmpty. apply String.eqb_eq. Qed.

Lemma isEmpty_false (s : string) : JS.isEmpty s = false <-> s <> EmptyString.
Proof. unfold JS.isEmpty. apply String.eqb_neq. Qed.

Lemma nonEmpty_true (s : string) : Cli.nonEmpty s = true <-> s <> EmptyString.
Proof.
  unfold Cli.nonEmpty. rewrite negb_true_iff. apply String.eqb_neq.
Qed.

(** A string without the separator is one piece. *)
Lemma Split_none (s : string) (sep : ascii) :
  countChar sep s = O -> Go.Split s sep = [s].
Proof.
  induction s as [|c t IH]; simpl; [reflexivity|].
  destruct (Ascii.eqb c sep); [discriminate|].
  intros E. now rewrite (IH E).
Qed.

(** The last piece of [prefix ++ sep ++ id] is [id] when [id] has no
    separator. *)
Lemma Split_last (prefix id : string) (sep : ascii) :
  countChar sep id = O ->
  Go.lastPart (Go.Split (prefix +:+ String sep id) sep) = id.
Proof.
  intros Hid. unfold Go.lastPart.
  induction prefix as [|c t IH]; simpl.
  - rewrite Ascii.eqb_refl, (Split_none _ _ Hid). reflexivity.
  - destruct (Ascii.eqb c sep).
    + destruct (Go.Split (t +:+ String sep id) sep) eqn:E;
        [now apply Split_nonempty in E|exact IH].
    + destruct (Go.Split (t +:+ String sep id) sep) as [|h [|h' r]] eqn:E.
      * now apply Split_nonempty in E.
      * pose proof (Split_length (t +:+ String sep id) sep) as L.
        rewrite E in L. simpl in L.
        assert (countChar sep (t +:+ String sep id) <> O) as N.
        { clear. induction t as [|d u IHu]; simpl.
          - now rewrite Ascii.eqb_refl.
          - destruct (Ascii.eqb d sep); [discriminate|exact IHu]. }
        lia.
      * exact IH.
Qed.

(** ** Decoding a token *)

Section DecodeJWT.
Context `{Runtime}.

(** What [decodeJWT] returns on a token of three pieces. *)
Lemma decodeJWT_three (token h p s : string) :
  Go.Split token "."%char = [h; p; s] ->
  Cli.decodeJWT token =
    match Go.RawURLDecodeString p with
    | None => Err ErrCorruptInput
    | Some payload =>
        match json_Unmarshal payload with
        | None => Err ErrUnmarshal
        | Some raw =>
            Ok {| Cli.Sub := Cli.stringClaim raw "sub";
                  Cli.Email := Cli.stringClaim raw "email";
                  Cli.Exp := match raw !! "exp" with
                             | Some expVal => Cli.int64_of_float64 (Cli.toFloat expVal)
                             | None => 0
                             end |}
        end
    end.
Proof. intros E. unfold Cli.decodeJWT. rewrite E. reflexivity. Qed.

Lemma toFloat_notNumeric (j : JSON) :
  notNumeric j = true -> Cli.toFloat j = Go.float64_0.
Proof. destruct j; simpl; intros E; try discriminate; reflexivity. Qed.

Lemma three_pieces (token : string) :
  countChar "."%char token = 2%nat ->
  exists h p s, Go.Split token "."%char = [h; p; s].
Proof.
  intros E. pose proof (Split_length token "."%char) as L. rewrite E in L.
  destruct (Go.Split token "."%char) as [|h [|p [|s [|x r]]]]; simpl in L;
    try discriminate.
  now exists h, p, s.
Qed.

(** C7. [decodeJWT] splits the token at the dots. A token that does not
    have exactly three pieces (exactly two dots) fails with the error
    invalid token format. A token of three pieces has its middle piece
    decoded as unpadded URL-safe base64 and the bytes parsed as a JSON
    object: [Sub] is the string member sub, [Email] the string member
    email (empty when absent), and [Exp] the member exp converted to an
    integer, be it a JSON number or a string holding a number (zero when
    absent). In particular a subject A:B:C:id-123 is returned as it is. *)
Theorem decodeJWT_contract (token : string) :
  (countChar "."%char token <> 2%nat ->
   Cli.decodeJWT token = Err ErrInvalidTokenFormat)
  /\ (countChar "."%char token = 2%nat ->
      exists h p s, Go.Split token "."%char = [h; p; s])
  /\ (forall h p s payload raw,
        Go.Split token "."%char = [h; p; s] ->
        Go.RawURLDecodeString p = Some payload ->
        json_Unmarshal payload = Some raw ->
        exists claims,
          Cli.decodeJWT token = Ok claims
          /\ (forall v, raw !! "sub" = Some (JString v) -> Cli.Sub claims = v)
          /\ (raw !! "sub" = Some (JString "A:B:C:id-123") ->
              Cli.Sub claims = "A:B:C:id-123")
          /\ (forall v, raw !! "email" = Some (JString v) -> Cli.Email claims = v)
          /\ (raw !! "email" = None -> Cli.Email claims = EmptyString)
          /\ (raw !! "exp" = None -> Cli.Exp claims = 0)
          /\ (forall f, raw !! "exp" = Some (JNumber f) ->
              Cli.Exp claims = Cli.int64_of_float64 f)
          /\ (forall t f, raw !! "exp" = Some (JString t) ->
              t <> EmptyString -> strconv_ParseFloat t = Some f ->
              Cli.Exp claims = Cli.int64_of_float64 f)).
Proof.
  split; [|split].
  - intros N. unfold Cli.decodeJWT. rewrite Split_length.
    destruct (Nat.eqb_spec (S (countChar "."%char token)) 3) as [E|E]; [lia|].
    reflexivity.
  - apply three_pieces.
  - intros h p s payload raw E B U.
    rewrite (decodeJWT_three _ _ _ _ E), B, U.
    eexists. split; [reflexivity|]. simpl. unfold Cli.stringClaim.
    repeat split.
    + intros v ->. reflexivity.
    + intros ->. reflexivity.
    + intros v ->. reflexivity.
    + intros ->. reflexivity.
    + intros ->. reflexivity.
    + intros f ->. reflexivity.
    + intros t f -> N P. simpl.
      apply nonEmpty_true in N. rewrite N, P. reflexivity.
Qed.


End DecodeJWT.

(** ** Instances of the decoding theorems *)

Lemma id_pieces :
  Go.Split (Examples.tokenOf Examples.idClaims64) "."%char
  = [Examples.header; Examples.idClaims64; EmptyString].
Proof. vm_compute. reflexivity. Qed.

Lemma id_bytes : Go.RawURLDecodeString Examples.idClaims64 = Some Examples.idClaims.
Proof. vm_compute. reflexivity. Qed.

Lemma id_raw :
  json_Unmarshal (Runtime := Reference.runtime) Examples.idClaims
  = Some Examples.idRaw.
Proof. vm_compute. reflexivity. Qed.

Lemma id_sub : Examples.idRaw !! "sub" = Some (JString "A:B:C:id-123").
Proof. vm_compute. reflexivity. Qed.

Lemma id_email : Examples.idRaw !! "email" = None.
Proof. vm_compute. reflexivity. Qed.

Lemma id_exp :
  Examples.idRaw !! "exp" = Some (JNumber (Cli.float64_of_int64 1700000000)).
Proof. vm_compute. reflexivity. Qed.

Lemma id_exp_int :
  Cli.int64_of_float64 (H := Reference.runtime)
    (Cli.float64_of_int64 1700000000) = 1700000000.
Proof. vm_compute. reflexivity. Qed.

Lemma notjwt_dots : countChar "."%char "not-a-jwt" <> 2%nat.
Proof. vm_compute. discriminate. Qed.

(** The token of the specification decodes to its subject and expiry, and
    the text of the test file is not a token. *)
Lemma decodeJWT_contract_witness :
  Cli.decodeJWT (H := Reference.runtime) (Examples.tokenOf Examples.idClaims64)
  = Ok (Cli.mkClaims "A:B:C:id-123" EmptyString 1700000000)
  /\ Cli.decodeJWT (H := Reference.runtime) "not-a-jwt"
     = Err ErrInvalidTokenFormat.
Proof.
  split.
  - destruct (decodeJWT_contract (H := Reference.runtime)
                (Examples.tokenOf Examples.idClaims64)) as (_ & _ & D).
    destruct (D _ _ _ _ _ id_pieces id_bytes id_raw)
      as (claims & E & S & _ & _ & M & _ & X & _).
    rewrite E. destruct claims as [sub email exp].
    cbn [Cli.Sub Cli.Email Cli.Exp] in S, M, X.
    rewrite (S _ id_sub), (M id_email), (X _ id_exp), id_exp_int.
    reflexivity.
  - exact (proj1 (decodeJWT_contract (H := Reference.runtime) "not-a-jwt")
             notjwt_dots).
Defined.

(** The expiry is read from a number in any notation and from a string
    that holds a number; claims of the wrong types decode to the zero
    values; a number beyond [float64] makes the decoding of the object
    fail. *)
Lemma decodeJWT_exp_forms :
  Cli.decodeJWT (H := Reference.runtime)
    (Examples.tokenOf Examples.floatExpClaims64)
  = Ok (Cli.mkClaims EmptyString EmptyString 1700000000)
  /\ Cli.decodeJWT (H := Reference.runtime)
       (Examples.tokenOf Examples.stringExpClaims64)
     = Ok (Cli.mkClaims EmptyString EmptyString 1700000000)
  /\ Cli.decodeJWT (H := Reference.runtime)
       (Examples.tokenOf Examples.mistypedClaims64)
     = Ok (Cli.mkClaims EmptyString EmptyString 0)
  /\ Cli.decodeJWT (H := Reference.runtime)
       (Examples.tokenOf Examples.hugeExpClaims64)
     = Err ErrUnmarshal.
Proof. vm_compute. repeat split. Qed.

Lemma no_pieces :
  Go.Split (Examples.tokenOf Examples.noClaims64) "."%char
  = [Examples.header; Examples.noClaims64; EmptyString].
Proof. vm_compute. reflexivity. Qed.

Lemma no_bytes : Go.RawURLDecodeString Examples.noClaims64 = Some Examples.noClaims.
Proof. vm_compute. reflexivity. Qed.

Lemma no_raw :
  json_Unmarshal (Runtime := Reference.runtime) Examples.noClaims
  = Some Examples.noRaw.
Proof. vm_compute. reflexivity. Qed.


(** ** Expiry *)

Lemma wrap64_small (z : Z) :
  Go.minInt64 <= z <= Go.maxInt64 -> Go.wrap64 z = z.
Proof.
  unfold Go.wrap64, Go.minInt64, Go.maxInt64. intros R.
  rewrite Z.mod_small; lia.
Qed.

Lemma Before_Unix (exp sec ns : Z) :
  0 < exp <= Go.maxInt64 - Go.unixToInternal ->
  Go.Before (Go.Unix exp) (Go.At sec ns) = true
  <-> exp < sec \/ (exp = sec /\ 0 < ns).
Proof.
  intros R. unfold Go.Before, Go.Unix, Go.At. simpl.
  rewrite wrap64_small
    by (unfold Go.minInt64, Go.maxInt64, Go.unixToInternal in *; lia).
  rewrite orb_true_iff, andb_true_iff, !Z.ltb_lt, Z.eqb_eq. lia.
Qed.

(** C8, as the code has it. The expiry test of [loginCommand] and
    [statusCommand] holds exactly when the expiry is positive and lies
    strictly before the current instant; an expiry of zero (also: an
    absent claim) or below zero never counts as expired. Two hours after
    the expiry the test holds, two hours before it fails. The expiry is
    taken below the point where [time.Unix] overflows. *)
Theorem tokenExpired_positive (decoded : Cli.jwtClaims) (sec ns : Z) :
  Cli.Exp decoded <= Go.maxInt64 - Go.unixToInternal ->
  (Cli.tokenExpired decoded (Go.At sec ns) = true
   <-> 0 < Cli.Exp decoded
       /\ (Cli.Exp decoded < sec \/ (Cli.Exp decoded = sec /\ 0 < ns)))
  /\ (Cli.tokenExpired decoded (Go.At sec 0) = true
      <-> 0 < Cli.Exp decoded < sec)
  /\ (0 < Cli.Exp decoded ->
      Cli.tokenExpired decoded (Go.At (Cli.Exp decoded + 7200) ns) = true)
  /\ (0 <= ns ->
      Cli.tokenExpired decoded (Go.At (Cli.Exp decoded - 7200) ns) = false).
Proof.
  intros R.
  assert (forall s n, Cli.tokenExpired decoded (Go.At s n) = true
          <-> 0 < Cli.Exp decoded
              /\ (Cli.Exp decoded < s \/ (Cli.Exp decoded = s /\ 0 < n))) as A.
  { intros s n. unfold Cli.tokenExpired. rewrite andb_true_iff, Z.ltb_lt.
    split.
    - intros [P B]. split; [exact P|]. apply Before_Unix; [lia|exact B].
    - intros [P B]. split; [exact P|]. apply Before_Unix; [lia|exact B]. }
  split; [apply A|]. split; [|split].
  - rewrite A. lia.
  - intros P. apply A. lia.
  - intros N. apply not_true_is_false. rewrite A. lia.
Qed.

Lemma tokenExpired_positive_witness :
  Cli.tokenExpired (Cli.mkClaims EmptyString EmptyString 1700000000)
    (Go.At (1700000000 + 7200) 0) = true
  /\ Cli.tokenExpired (Cli.mkClaims EmptyString EmptyString 1700000000)
       (Go.At (1700000000 - 7200) 0) = false.
Proof.
  assert (Cli.Exp (Cli.mkClaims EmptyString EmptyString 1700000000)
          <= Go.maxInt64 - Go.unixToInternal) as R by (vm_compute; discriminate).
  destruct (tokenExpired_positive
              (Cli.mkClaims EmptyString EmptyString 1700000000) 0 0 R)
    as (_ & _ & T & F).
  split.
  - apply T. reflexivity.
  - apply F. discriminate.
Defined.

(** An expiry below zero is present, nonzero and strictly less than now,
    and the test of the code does not hold for it. *)
Lemma tokenExpired_negative :
  Spec.isExpired (-7200) 1700000000 = true
  /\ Cli.tokenExpired (Cli.mkClaims EmptyString EmptyString (-7200))
       (Go.At 1700000000 0) = false
  /\ Cli.loginCommand (H := Reference.runtime)
       (Examples.tokenOf Examples.pastClaims64) (Go.At 1700000000 0)
     = Cli.ValidateToken (Examples.tokenOf Examples.pastClaims64) "s".
Proof. vm_compute. repeat split. Qed.

(** ** The handoff of the intercepted payload *)

Section Handoff.
Import BrowserAuth.
Import Assembly.

Lemma onResponse_accepted (ch : chan) (r : Response.t) :
  onResponse ch r =
    match accepted r with
    | Some payload => trySend ch payload
    | None => ch
    end.
Proof.
  unfold onResponse, accepted.
  destruct (Response.Status r =? 200); simpl; [|reflexivity].
  destruct (Go.Contains (Response.URL r) "/bringauth"); simpl; [|reflexivity].
  destruct (Response.JSON r) as [payload|]; [|reflexivity].
  destruct (JS.isEmpty (Payload.AccessToken payload)); reflexivity.
Qed.

(** A filled buffer stays as it is, whatever arrives. *)
Lemma offered_pending (rs : list Response.t) (pending : authResponsePayload) :
  fold_left onResponse rs (Some pending) = Some pending.
Proof.
  induction rs as [|r rs IH]; simpl; [reflexivity|].
  rewrite onResponse_accepted.
  destruct (accepted r); simpl; exact IH.
Qed.

Lemma offered_first (rs : list Response.t) : offered rs = firstAccepted rs.
Proof.
  unfold offered, firstAccepted.
  induction rs as [|r rs IH]; simpl; [reflexivity|].
  rewrite onResponse_accepted.
  destruct (accepted r) as [payload|]; simpl; [apply offered_pending|exact IH].
Qed.

Lemma offered_app (rs1 rs2 : list Response.t) :
  offered (rs1 ++ rs2) =
    match offered rs1 with
    | Some pending => Some pending
    | None => offered rs2
    end.
Proof.
  unfold offered. rewrite fold_left_app.
  destruct (fold_left onResponse rs1 None) as [pending|];
    [apply offered_pending|reflexivity].
Qed.

Lemma first_accepted_in (rs : list Response.t) (payload : authResponsePayload) :
  firstAccepted rs = Some payload ->
  exists r, In r rs /\ accepted r = Some payload.
Proof.
  unfold firstAccepted. induction rs as [|r rs IH]; [discriminate|].
  change (omap accepted (r :: rs))
    with (match accepted r with
          | Some y => y :: omap accepted rs
          | None => omap accepted rs
          end).
  destruct (accepted r) as [y|] eqn:A.
  - intros [= <-]. exists r. split; [now left|exact A].
  - intros F. destruct (IH F) as (r' & I & A'). exists r'.
    split; [now right|exact A'].
Qed.

(** C5. The channel holds one payload: an offer to a filled buffer is
    dropped and leaves the pending payload in place. After any sequence of
    responses the buffer holds the first payload that was accepted (status
    200, the auth path, a body that decodes, a non-empty token), later
    arrivals never replace it, and the one receive of the login returns
    at most one payload: the first one accepted among the responses the
    handler is done with before the timer fires. *)
Theorem handoff_first_valid_wins :
  (forall pending payload, trySend (Some pending) payload = Some pending)
  /\ (forall rs, offered rs = firstAccepted rs)
  /\ (forall rs later pending,
        offered rs = Some pending -> offered (rs ++ later) = Some pending)
  /\ (forall before r1 between r2 after p1 p2,
        firstAccepted before = None ->
        accepted r1 = Some p1 -> accepted r2 = Some p2 ->
        offered (before ++ r1 :: between ++ r2 :: after) = Some p1)
  /\ (forall sends from timeout,
        waitForAuthResponse sends from timeout
        = firstAccepted (inTime from timeout sends))
  /\ (forall sends from timeout payload,
        waitForAuthResponse sends from timeout = Some payload ->
        exists r,
          In r sends /\ accepted r = Some payload
          /\ Response.Sent r < from + timeout).
Proof.
  split; [reflexivity|]. split; [exact offered_first|].
  split; [|split; [|split]].
  - intros rs later pending E. now rewrite offered_app, E.
  - intros before r1 between r2 after p1 p2 N A1 A2.
    rewrite offered_app, offered_first, N.
    unfold offered. simpl. rewrite onResponse_accepted, A1. simpl.
    apply offered_pending.
  - intros sends from timeout. apply offered_first.
  - intros sends from timeout payload. unfold waitForAuthResponse.
    rewrite offered_first. intros F.
    destruct (first_accepted_in _ _ F) as (r & I & A).
    apply filter_In in I as [I T]. apply Z.ltb_lt in T.
    now exists r.
Qed.

(** Of two matching responses in a row the first is delivered. *)
Lemma handoff_first_valid_wins_witness :
  waitForAuthResponse
    [Examples.otherResponse; Examples.firstResponse; Examples.secondResponse]
    3000 authResponseTimeout
  = Some (Payload.mkPayload "Ann" "u-1" "p-1" "first" "r-1").
Proof.
  destruct handoff_first_valid_wins as (_ & _ & _ & _ & W & _).
  rewrite W. reflexivity.
Defined.

(** In the earlier revision the handler assigns a variable: the last
    accepted payload is the one the login reads. *)
Lemma legacy_last_valid_wins (rs : list Response.t)
    (seen : option authResponsePayload) :
  fold_left BrowserAuthLegacy.onResponse rs seen =
    match lastAccepted rs with
    | Some payload => Some payload
    | None => seen
    end.
Proof.
  unfold lastAccepted. revert seen.
  induction rs as [|r rs IH]; intros seen; [reflexivity|].
  assert (BrowserAuthLegacy.onResponse seen r =
          match accepted r with Some p => Some p | None => seen end) as E.
  { unfold BrowserAuthLegacy.onResponse, accepted.
    destruct (Response.Status r =? 200); simpl; [|reflexivity].
    destruct (Go.Contains (Response.URL r) "/bringauth"); simpl; [|reflexivity].
    destruct (Response.JSON r) as [payload|]; [|reflexivity].
    destruct (JS.isEmpty (Payload.AccessToken payload)); reflexivity. }
  change (fold_left BrowserAuthLegacy.onResponse (r :: rs) seen)
    with (fold_left BrowserAuthLegacy.onResponse rs
            (BrowserAuthLegacy.onResponse seen r)).
  change (omap accepted (r :: rs))
    with (match accepted r with
          | Some y => y :: omap accepted rs
          | None => omap accepted rs
          end).
  rewrite IH, E. destruct (accepted r) as [p|]; [|reflexivity].
  rewrite last_cons. destruct (last (omap accepted rs)); reflexivity.
Qed.

End Handoff.

(** ** Waiting for the login *)

Section Polling.
Import Playwright.
Import BrowserAuth.
Import Assembly.

Variable views : nat -> View.
Variable deadline : Z.

Lemma anyLoggedIn_existsb (pages : list Page) :
  anyLoggedIn pages = existsb isAppPage pages.
Proof.
  induction pages as [|p r IH]; simpl; [reflexivity|].
  unfold isAppPage at 1.
  destruct (isBringURL (URL p)); simpl; [|exact IH].
  destruct (Go.Contains (URL p) "/login"); simpl; [exact IH|reflexivity].
Qed.

(** The first page that is a login target, with the pages before it. *)
Lemma firstAppPage_first (pages : list Page) :
  existsb isAppPage pages = true ->
  exists before p after,
    pages = (before ++ p :: after)%list
    /\ isAppPage p = true
    /\ forallb (fun q => negb (isAppPage q)) before = true
    /\ firstAppPage pages = Some p.
Proof.
  induction pages as [|q r IH]; simpl; [discriminate|].
  fold (isAppPage q). destruct (isAppPage q) eqn:A; simpl.
  - intros _. exists [], q, r. repeat split; assumption.
  - intros E. destruct (IH E) as (before & p & after & -> & Ap & B & F).
    exists (q :: before), p, after. simpl. rewrite A. repeat split; assumption.
Qed.

Variable lag : nat -> Z.

Lemma clockFrom_succ (k : nat) (now : Z) (n : nat) :
  clockFrom lag k now (S n)
  = clockFrom lag k now n + pollInterval + lag (k + n)%nat.
Proof.
  revert k now. induction n as [|n IH]; intros k now.
  - simpl. now rewrite Nat.add_0_r.
  - change (clockFrom lag k now (S (S n)))
      with (clockFrom lag (S k) (now + pollInterval + lag k) (S n)).
    rewrite IH. simpl. now rewrite Nat.add_succ_r.
Qed.

Lemma clockFrom_advance (k : nat) (now : Z) (n : nat) :
  steady lag -> now + pollInterval * Z.of_nat n <= clockFrom lag k now n.
Proof.
  intros S. induction n as [|n IH]; [simpl; lia|].
  rewrite clockFrom_succ. specialize (S (k + n)%nat).
  unfold pollInterval in *. lia.
Qed.

(** The loop returns success at the first turn that detects the login,
    when no earlier turn is past the deadline. *)
Lemma waitForLogin_detects (fuel k : nat) (now : Z) (n : nat) :
  (n < fuel)%nat ->
  loginDetected (views (k + n)) = true ->
  (forall i, (i < n)%nat ->
     loginDetected (views (k + i)) = false
     /\ clockFrom lag k now i <= deadline) ->
  waitForLogin fuel views lag deadline k now = Some (Ok tt).
Proof.
  revert k now n. induction fuel as [|fuel IH]; intros k now n L D B; [lia|].
  simpl. destruct n as [|n].
  - rewrite Nat.add_0_r in D. now rewrite D.
  - destruct (B O ltac:(lia)) as [N T]. rewrite Nat.add_0_r in N. simpl in T.
    rewrite N. destruct (Z.ltb_spec deadline now); [lia|].
    apply (IH (S k) _ n); [lia| |].
    + now rewrite Nat.add_succ_comm.
    + intros i Li. rewrite Nat.add_succ_comm. apply (B (S i)). lia.
Qed.

(** What a result of the loop says about the turns it made. *)
Lemma waitForLogin_inv (fuel k : nat) (now : Z) (r : Result unit) :
  waitForLogin fuel views lag deadline k now = Some r ->
  exists n,
    (n < fuel)%nat
    /\ (forall i, (i < n)%nat ->
          loginDetected (views (k + i)) = false
          /\ clockFrom lag k now i <= deadline)
    /\ ((r = Ok tt /\ loginDetected (views (k + n)) = true)
        \/ (r = Err ErrLoginTimedOut
            /\ loginDetected (views (k + n)) = false
            /\ deadline < clockFrom lag k now n)).
Proof.
  revert k now. induction fuel as [|fuel IH]; intros k now; simpl;
    [discriminate|].
  destruct (loginDetected (views k)) eqn:D.
  - intros [= <-]. exists O. rewrite Nat.add_0_r.
    split; [lia|]. split; [intros i Li; lia|]. left. now split.
  - destruct (Z.ltb_spec deadline now) as [T|T].
    + intros [= <-]. exists O. rewrite Nat.add_0_r.
      split; [lia|]. split; [intros i Li; lia|]. right. now repeat split.
    + intros E. destruct (IH _ _ E) as (n & Ln & B & R).
      exists (S n). split; [lia|]. split.
      * intros [|i] Li.
        -- rewrite Nat.add_0_r. now split.
        -- rewrite <- Nat.add_succ_comm. apply B. lia.
      * rewrite <- Nat.add_succ_comm. exact R.
Qed.

(** The loop ends by the first turn that is past the deadline. *)
Lemma waitForLogin_ends (fuel k : nat) (now : Z) (m : nat) :
  (m < fuel)%nat ->
  deadline < clockFrom lag k now m ->
  exists r, waitForLogin fuel views lag deadline k now = Some r.
Proof.
  revert k now m. induction fuel as [|fuel IH]; intros k now m L T; [lia|].
  simpl. destruct (loginDetected (views k)); [now eexists|].
  destruct (Z.ltb_spec deadline now) as [P|P]; [now eexists|].
  destruct m as [|m]; [simpl in T; lia|].
  apply (IH (S k) _ m); [lia|exact T].
Qed.

End Polling.

(** C9. [waitForLogin] looks, turn after turn, at every page of the
    browsing context (at the page itself when there is no context) for a
    URL on the domain of the service that does not contain the login
    path; between two turns it waits one second. It returns success at
    the first turn that finds such a page, and the error login timed out
    at the first turn that finds none after the deadline of five minutes;
    it always returns, within 302 turns. [findBringAppPage] then returns
    the first such page of the context. *)
Theorem waitForLogin_polls (views : nat -> Playwright.View) (lag : nat -> Z)
    (start : Z) :
  Assembly.steady lag ->
  let deadline := start + BrowserAuth.loginTimeout in
  let clock := Assembly.clockAt lag start in
  (clock O = start
   /\ forall n, clock (S n) = clock n + 1000 + lag n)
  /\ (exists r,
        BrowserAuth.waitForLogin 302 views lag deadline 0 start = Some r)
  /\ (forall fuel n,
        (n < fuel)%nat ->
        BrowserAuth.loginDetected (views n) = true ->
        (forall i, (i < n)%nat ->
           BrowserAuth.loginDetected (views i) = false
           /\ clock i <= deadline) ->
        BrowserAuth.waitForLogin fuel views lag deadline 0 start
        = Some (Ok tt))
  /\ (forall fuel,
        BrowserAuth.waitForLogin fuel views lag deadline 0 start
        = Some (Ok tt) ->
        exists n,
          BrowserAuth.loginDetected (views n) = true
          /\ forall i, (i < n)%nat ->
               BrowserAuth.loginDetected (views i) = false
               /\ clock i <= deadline)
  /\ (forall fuel e,
        BrowserAuth.waitForLogin fuel views lag deadline 0 start
        = Some (Err e) ->
        e = ErrLoginTimedOut
        /\ exists n,
             deadline < clock n
             /\ forall i, (i <= n)%nat ->
                  BrowserAuth.loginDetected (views i) = false)
  /\ (forall fuel,
        (302 <= fuel)%nat ->
        (forall i, (i < 302)%nat ->
           BrowserAuth.loginDetected (views i) = false) ->
        BrowserAuth.waitForLogin fuel views lag deadline 0 start
        = Some (Err ErrLoginTimedOut))
  /\ (forall v,
        BrowserAuth.loginDetected v = true
        <-> exists p, In p (Playwright.pagesOf v) /\ Assembly.isAppPage p = true)
  /\ (forall v,
        BrowserAuth.loginDetected v = true ->
        exists before p after,
          Playwright.pagesOf v = (before ++ p :: after)%list
          /\ Assembly.isAppPage p = true
          /\ forallb (fun q => negb (Assembly.isAppPage q)) before = true
          /\ BrowserAuth.findBringAppPage v = p).
Proof.
  intros T deadline clock.
  assert (deadline < Assembly.clockFrom lag 0 start 301) as Late.
  { pose proof (clockFrom_advance lag 0 start 301 T) as A.
    unfold deadline, BrowserAuth.loginTimeout, BrowserAuth.pollInterval in *.
    lia. }
  split; [|split; [|split; [|split; [|split; [|split; [|split]]]]]].
  - split; [reflexivity|]. intros n. unfold clock, Assembly.clockAt.
    now rewrite clockFrom_succ.
  - apply (waitForLogin_ends views deadline lag 302 0 start 301);
      [lia|exact Late].
  - intros fuel n L D B.
    apply (waitForLogin_detects views deadline lag fuel 0 start n L D B).
  - intros fuel E.
    destruct (waitForLogin_inv views deadline lag fuel 0 start _ E)
      as (n & _ & B & [[_ D]|[[=] _]]).
    exists n. split; [exact D|exact B].
  - intros fuel e E.
    destruct (waitForLogin_inv views deadline lag fuel 0 start _ E)
      as (n & _ & B & [[[=] _]|([= ->] & D & P)]).
    split; [reflexivity|]. exists n. split; [exact P|].
    intros i Li. destruct (Nat.eq_dec i n) as [->|Ne]; [exact D|].
    apply B. lia.
  - intros fuel F N.
    destruct (waitForLogin_ends views deadline lag fuel 0 start 301
                ltac:(lia) Late) as [r E].
    rewrite E.
    destruct (waitForLogin_inv views deadline lag fuel 0 start _ E)
      as (n & Ln & B & [[_ D]|[-> _]]); [|reflexivity].
    destruct (Nat.lt_ge_cases n 302) as [Lt|Ge].
    + simpl in D. rewrite (N n Lt) in D. discriminate.
    + destruct (B 301%nat ltac:(lia)) as [_ P]. lia.
  - intros v. unfold BrowserAuth.loginDetected.
    rewrite anyLoggedIn_existsb. apply existsb_exists.
  - intros v D. unfold BrowserAuth.loginDetected in D.
    rewrite anyLoggedIn_existsb in D.
    destruct (firstAppPage_first _ D) as (before & p & after & E & A & B & F).
    exists before, p, after. unfold BrowserAuth.findBringAppPage.
    rewrite F. repeat split; assumption.
Qed.

Lemma someLag_steady : Assembly.steady Examples.someLag.
Proof. intros k. unfold Examples.someLag. lia. Qed.

Lemma loginViews_before (i : nat) :
  (i < 3)%nat ->
  BrowserAuth.loginDetected (Examples.loginViews i) = false
  /\ Assembly.clockAt Examples.someLag 0 i <= 0 + BrowserAuth.loginTimeout.
Proof.
  intros L. destruct i as [|[|[|i]]]; [| | |lia];
    (split; [reflexivity|vm_compute; discriminate]).
Qed.

(** A login completed in a new tab is detected at the fourth turn and the
    tab is the page found; a login never completed times out. *)
Lemma waitForLogin_polls_witness :
  BrowserAuth.waitForLogin 302 Examples.loginViews Examples.someLag
    (0 + BrowserAuth.loginTimeout) 0 0 = Some (Ok tt)
  /\ BrowserAuth.findBringAppPage (Examples.loginViews 3) = Examples.appTab
  /\ BrowserAuth.waitForLogin 302 Examples.stuckViews Examples.someLag
       (0 + BrowserAuth.loginTimeout) 0 0 = Some (Err ErrLoginTimedOut).
Proof.
  destruct (waitForLogin_polls Examples.loginViews Examples.someLag 0
              someLag_steady) as (_ & _ & D & _ & _ & _ & _ & F).
  destruct (waitForLogin_polls Examples.stuckViews Examples.someLag 0
              someLag_steady) as (_ & _ & _ & _ & _ & T & _).
  split; [|split].
  - apply (D 302%nat 3%nat); [lia|reflexivity|exact loginViews_before].
  - destruct (F (Examples.loginViews 3) eq_refl)
      as (before & p & after & E & A & _ & ->).
    assert (In p (Playwright.pagesOf (Examples.loginViews 3))) as I
      by (rewrite E; apply in_or_app; right; left; reflexivity).
    destruct I as [<-|[<-|[<-|[]]]]; [discriminate A|discriminate A|reflexivity].
  - apply (T 302%nat); [lia|]. intros i _. reflexivity.
Defined.

(** ** Finishing a result *)

Section Finalize.
Context `{Runtime}.
Import Playwright.
Import BrowserAuth.
Import Assembly.

Lemma finalize_empty_token (result : BrowserAuthResult) :
  AccessToken result = EmptyString ->
  finalizeAuthResult result = Err ErrExtractAuth.
Proof. intros E. unfold finalizeAuthResult. now rewrite E. Qed.

Lemma finalize_has_user (result : BrowserAuthResult) :
  AccessToken result <> EmptyString -> UserUUID result <> EmptyString ->
  finalizeAuthResult result = Ok result.
Proof.
  intros T U. unfold finalizeAuthResult.
  apply isEmpty_false in T, U. now rewrite T, U.
Qed.

Lemma finalize_decoded (result : BrowserAuthResult) :
  AccessToken result <> EmptyString -> UserUUID result = EmptyString ->
  finalizeAuthResult result =
    match Cli.decodeJWT (AccessToken result) with
    | Err _ => Err ErrExtractAuth
    | Ok claims =>
        if JS.isEmpty (Cli.Sub claims) then Err ErrExtractAuth
        else Ok (withUserUUID result (Cli.subjectUserUUID (Cli.Sub claims)))
    end.
Proof.
  intros T U. unfold finalizeAuthResult.
  apply isEmpty_false in T. now rewrite T, U.
Qed.

(** Every error of [finalizeAuthResult] is the extraction failure, and a
    result it returns has the token it was given, which is not empty. *)
Lemma finalize_inv (result : BrowserAuthResult) :
  (forall e, finalizeAuthResult result = Err e -> e = ErrExtractAuth)
  /\ (forall r, finalizeAuthResult result = Ok r ->
        AccessToken r = AccessToken result
        /\ AccessToken result <> EmptyString
        /\ PublicUserUUID r = PublicUserUUID result
        /\ UserName r = UserName result
        /\ Email r = Email result
        /\ (UserUUID result <> EmptyString -> r = result)).
Proof.
  unfold finalizeAuthResult.
  destruct (JS.isEmpty (AccessToken result)) eqn:T; simpl.
  { split; [now intros e [= <-]|discriminate]. }
  apply isEmpty_false in T.
  destruct (JS.isEmpty (UserUUID result)) eqn:U; simpl.
  - apply isEmpty_true in U.
    destruct (Cli.decodeJWT (AccessToken result)) as [claims|e'].
    + destruct (JS.isEmpty (Cli.Sub claims)).
      * split; [now intros e [= <-]|discriminate].
      * split; [discriminate|]. intros r [= <-]. simpl.
        repeat split; try assumption. intros N. now destruct N.
    + split; [now intros e [= <-]|discriminate].
  - split; [discriminate|]. intros r [= <-]. now repeat split.
Qed.

(** C2, as the code has it. When the token is there and the user id is
    not, [finalizeAuthResult] decodes the token and asks only for a
    subject that is not empty: a token that does not decode, or decodes
    without a subject, gives the extraction failure; otherwise the last
    piece of the subject between colons becomes the user id, the whole
    subject when it has no colon. The statement is about subjects whose
    last piece is not empty. *)
Theorem finalizeAuthResult_backfill (result : BrowserAuthResult) :
  AccessToken result <> EmptyString ->
  UserUUID result = EmptyString ->
  ((forall claims, Cli.decodeJWT (AccessToken result) = Ok claims ->
      Cli.Sub claims = EmptyString) ->
   finalizeAuthResult result = Err ErrExtractAuth)
  /\ (forall claims prefix id,
        Cli.decodeJWT (AccessToken result) = Ok claims ->
        Cli.Sub claims = prefix +:+ String ":"%char id ->
        countChar ":"%char id = O -> id <> EmptyString ->
        finalizeAuthResult result = Ok (withUserUUID result id))
  /\ (forall claims,
        Cli.decodeJWT (AccessToken result) = Ok claims ->
        countChar ":"%char (Cli.Sub claims) = O ->
        Cli.Sub claims <> EmptyString ->
        finalizeAuthResult result = Ok (withUserUUID result (Cli.Sub claims))).
Proof.
  intros T U. rewrite (finalize_decoded _ T U). split; [|split].
  - intros N. destruct (Cli.decodeJWT (AccessToken result)) as [claims|e];
      [|reflexivity].
    now rewrite (N claims eq_refl).
  - intros claims prefix id -> S C N.
    assert (Cli.Sub claims <> EmptyString) as NS
      by (rewrite S; destruct prefix; discriminate).
    apply isEmpty_false in NS. rewrite NS.
    unfold Cli.subjectUserUUID. now rewrite S, (Split_last _ _ _ C).
  - intros claims -> C N. apply isEmpty_false in N. rewrite N.
    unfold Cli.subjectUserUUID. now rewrite (Split_none _ _ C).
Qed.

End Finalize.

Lemma storageOnly_run :
  BrowserAuth.BrowserLoginWithIntercept (H := Reference.runtime) 302
    Examples.storageOnly
  = Some (BrowserAuth.finalizeAuthResult (H := Reference.runtime)
            Examples.storageOnlyResult).
Proof. vm_compute. reflexivity. Qed.

Lemma storageOnly_claims :
  Cli.decodeJWT (H := Reference.runtime)
    (BrowserAuth.AccessToken Examples.storageOnlyResult)
  = Ok (Cli.mkClaims "X:Y:Z:uuid-123" EmptyString 0).
Proof. vm_compute. reflexivity. Qed.

(** The end-to-end case of the specification: the login is detected, no
    matching response is observed, the storage yields only a token whose
    subject is X:Y:Z:uuid-123, and the user id of the result is
    uuid-123. *)
Lemma finalizeAuthResult_backfill_witness :
  BrowserAuth.BrowserLoginWithIntercept (H := Reference.runtime) 302
    Examples.storageOnly
  = Some (Ok (BrowserAuth.mkResult (Examples.tokenOf Examples.uuidClaims64)
                "uuid-123" EmptyString EmptyString EmptyString)).
Proof.
  assert (BrowserAuth.AccessToken Examples.storageOnlyResult <> EmptyString)
    as T by discriminate.
  destruct (finalizeAuthResult_backfill (H := Reference.runtime)
              Examples.storageOnlyResult T eq_refl) as (_ & B & _).
  rewrite storageOnly_run.
  rewrite (B _ "X:Y:Z" "uuid-123" storageOnly_claims eq_refl eq_refl
             ltac:(discriminate)).
  reflexivity.
Defined.

(** A subject without the shape of the specification is accepted: the
    subject abc gives the user id abc. *)
Lemma finalizeAuthResult_any_subject :
  Spec.subjectShape "abc" = false
  /\ Cli.decodeJWT (H := Reference.runtime)
       (BrowserAuth.AccessToken Examples.abcResult)
     = Ok (Cli.mkClaims "abc" EmptyString 0)
  /\ BrowserAuth.finalizeAuthResult (H := Reference.runtime) Examples.abcResult
     = Ok (BrowserAuth.mkResult (Examples.tokenOf Examples.abcClaims64)
             "abc" EmptyString EmptyString EmptyString).
Proof. vm_compute. repeat split. Qed.

(** C1 at its failing inputs. A result is returned with an empty user id:
    by this revision when the token of the intercepted payload has a
    subject that ends in a colon, and by the earlier revision whenever the
    intercepted payload has no user id. *)
Lemma emitted_with_empty_user_id :
  BrowserAuth.BrowserLoginWithIntercept (H := Reference.runtime) 302
    Examples.colonRun
  = Some (Ok (BrowserAuth.mkResult (Examples.tokenOf Examples.colonClaims64)
                EmptyString EmptyString "Ann" EmptyString))
  /\ BrowserAuthLegacy.BrowserLoginWithIntercept 302 Examples.anonymousRun
     = Some (Ok (BrowserAuth.mkResult "first" EmptyString EmptyString "Ann"
                   EmptyString)).
Proof. vm_compute. repeat split. Qed.

(** ** Reading the storage *)

Section Storage.
Context `{Runtime}.
Import Playwright.
Import BrowserAuth.
Import Assembly.

Lemma canonical_stored (p : Page) (key : string) :
  stringOrNull (canonical p key) = true
  /\ fieldOf (canonical p key) = stored p key.
Proof.
  unfold canonical, stored, JS.getItem, JS.or.
  destruct (List.find _ (localStorage p)) as [[k [|c v]]|]; simpl;
    try (split; reflexivity);
    destruct (List.find _ (sessionStorage p)) as [[k' v']|]; simpl;
    split; reflexivity.
Qed.

Lemma unmarshalStrings_cons (k : string) (v : JS.value)
    (r : list (string * JS.value)) (data : gmap string string) :
  stringOrNull v = true ->
  unmarshalStrings r = Some data ->
  unmarshalStrings ((k, v) :: r) = Some (<[k := fieldOf v]> data).
Proof.
  intros S E. simpl. rewrite E.
  destruct v as [|[]]; simpl in *; try discriminate; reflexivity.
Qed.

(** The canonical keys always give a map, and its fields are the stored
    values. *)
Lemma storageScript_data (p : Page) :
  exists data,
    unmarshalStrings (storageScript p) = Some data
    /\ resultOf data =
         {| AccessToken := stored p "accessToken";
            UserUUID := stored p "userUuid";
            PublicUserUUID := stored p "publicUserUuid";
            UserName := stored p "userName";
            Email := stored p "email" |}.
Proof.
  destruct (canonical_stored p "accessToken") as [S1 F1].
  destruct (canonical_stored p "userUuid") as [S2 F2].
  destruct (canonical_stored p "publicUserUuid") as [S3 F3].
  destruct (canonical_stored p "userName") as [S4 F4].
  destruct (canonical_stored p "email") as [S5 F5].
  eexists. split.
  - unfold storageScript.
    apply unmarshalStrings_cons; [exact S1|].
    apply unmarshalStrings_cons; [exact S2|].
    apply unmarshalStrings_cons; [exact S3|].
    apply unmarshalStrings_cons; [exact S4|].
    apply unmarshalStrings_cons; [exact S5|].
    reflexivity.
  - unfold resultOf, at_. rewrite F1, F2, F3, F4, F5.
    f_equal; simplify_map_eq; reflexivity.
Qed.

(** What [extractAuthFromStorage] does when the script runs. *)
Lemma extract_finalizes (p : Page) :
  evaluateFails p = false ->
  extractAuthFromStorage p =
    finalizeAuthResult
      (completed p
         {| AccessToken := stored p "accessToken";
            UserUUID := stored p "userUuid";
            PublicUserUUID := stored p "publicUserUuid";
            UserName := stored p "userName";
            Email := stored p "email" |}).
Proof.
  intros E. unfold extractAuthFromStorage. rewrite E.
  destruct (storageScript_data p) as (data & -> & ->). reflexivity.
Qed.

(** The scan of two empty storage areas finds nothing. *)
Lemma fallback_empty (p : Page) :
  evaluateFails p = false ->
  localStorage p = [] -> sessionStorage p = [] ->
  extractAuthFromStorageFallback p = Ok noResult.
Proof.
  intros E L S. unfold extractAuthFromStorageFallback, fallbackScript.
  rewrite E, L, S. reflexivity.
Qed.

(** C3, as the code has it. [extractAuthFromStorage] can fail: with the
    error of the driver when the script cannot be evaluated, and
    otherwise only with the extraction failure, which it returns for a page
    whose two storage areas are empty. It reads the five canonical keys
    from both areas, the persistent one first; when they give a token and
    a user id it returns the five values as they are stored; and a result
    it returns always has a token. *)
Theorem extractAuthFromStorage_outcomes (p : Page) :
  (evaluateFails p = true ->
   extractAuthFromStorage p = Err (ErrDriver "Evaluate"))
  /\ (evaluateFails p = false ->
      stored p "accessToken" <> EmptyString ->
      stored p "userUuid" <> EmptyString ->
      extractAuthFromStorage p =
        Ok {| AccessToken := stored p "accessToken";
              UserUUID := stored p "userUuid";
              PublicUserUUID := stored p "publicUserUuid";
              UserName := stored p "userName";
              Email := stored p "email" |})
  /\ (evaluateFails p = false ->
      localStorage p = [] -> sessionStorage p = [] ->
      extractAuthFromStorage p = Err ErrExtractAuth)
  /\ (forall r, extractAuthFromStorage p = Ok r ->
        AccessToken r <> EmptyString)
  /\ (forall e, extractAuthFromStorage p = Err e ->
        e = ErrDriver "Evaluate" \/ e = ErrExtractAuth).
Proof.
  split; [|split; [|split; [|split]]].
  - intros E. unfold extractAuthFromStorage. now rewrite E.
  - intros E T U. rewrite (extract_finalizes p E).
    unfold completed. simpl.
    apply isEmpty_false in T, U. rewrite T, U. simpl.
    apply finalize_has_user; simpl; now apply isEmpty_false.
  - intros E L S. rewrite (extract_finalizes p E).
    unfold completed, stored. rewrite (fallback_empty p E L S), L, S. simpl.
    reflexivity.
  - intros r. destruct (evaluateFails p) eqn:E.
    + unfold extractAuthFromStorage. rewrite E. discriminate.
    + rewrite (extract_finalizes p E). intros F.
      destruct (proj2 (finalize_inv _) _ F) as (A & N & _).
      rewrite A. exact N.
  - intros e. destruct (evaluateFails p) eqn:E.
    + unfold extractAuthFromStorage. rewrite E. intros [= <-]. now left.
    + rewrite (extract_finalizes p E). intros F. right.
      exact (proj1 (finalize_inv _) _ F).
Qed.

End Storage.

(** The canonical keys are read from both areas, the persistent one
    first; empty storage areas give the extraction failure. *)
Lemma extractAuthFromStorage_outcomes_witness :
  BrowserAuth.extractAuthFromStorage (H := Reference.runtime) Examples.splitTab
  = Ok (BrowserAuth.mkResult "tok-1" "u-1" EmptyString "Ann" EmptyString)
  /\ BrowserAuth.extractAuthFromStorage (H := Reference.runtime)
       Examples.appPage
     = Err ErrExtractAuth.
Proof.
  split.
  - destruct (extractAuthFromStorage_outcomes (H := Reference.runtime)
                Examples.splitTab) as (_ & S & _).
    apply S; [reflexivity|discriminate|discriminate].
  - destruct (extractAuthFromStorage_outcomes (H := Reference.runtime)
                Examples.appPage) as (_ & _ & E & _).
    apply E; reflexivity.
Defined.

(** The extraction fails on a page without stored token, and on a page
    whose stored token is not a JWT and that stores no user id. *)
Lemma extractAuthFromStorage_fails :
  BrowserAuth.extractAuthFromStorage (H := Reference.runtime) Examples.appPage
  = Err ErrExtractAuth
  /\ BrowserAuth.extractAuthFromStorage (H := Reference.runtime)
       Examples.opaqueTab
     = Err ErrExtractAuth.
Proof. vm_compute. split; reflexivity. Qed.

(** ** The login as a whole *)

Section Login.
Context `{Runtime}.
Import Playwright.
Import BrowserAuth.
Import Assembly.

Lemma extract_ok_token (p : Page) (r : BrowserAuthResult) :
  extractAuthFromStorage p = Ok r -> AccessToken r <> EmptyString.
Proof.
  destruct (evaluateFails p) eqn:E.
  - unfold extractAuthFromStorage. rewrite E. discriminate.
  - rewrite (extract_finalizes p E). intros F.
    destruct (proj2 (finalize_inv _) _ F) as (A & N & _).
    rewrite A. exact N.
Qed.

Lemma extract_empty (p : Page) :
  evaluateFails p = false ->
  localStorage p = [] -> sessionStorage p = [] ->
  extractAuthFromStorage p = Err ErrExtractAuth.
Proof.
  intros E L S. rewrite (extract_finalizes p E).
  unfold completed, stored. rewrite (fallback_empty p E L S), L, S.
  reflexivity.
Qed.

(** The login once the browser is up and the login is detected. *)
Lemma login_sources (fuel : nat) (w : World) :
  launches w ->
  waitForLogin fuel (views w) (lag w) (start w + loginTimeout) 0 (start w) = Some (Ok tt) ->
  BrowserLoginWithIntercept fuel w =
    Some (match delivered w with
          | Some payload => finalizeAuthResult (ofPayload payload)
          | None => extractAuthFromStorage (findBringAppPage (atExtraction w))
          end).
Proof.
  intros (E1 & E2 & E3 & E4) W. unfold BrowserLoginWithIntercept.
  rewrite E1, E2, E3, E4, W. simpl. unfold waitForAuthResponse, delivered.
  rewrite offered_first.
  destruct (firstAccepted _); reflexivity.
Qed.

(** C6, as the code has it. After the login is detected the code waits
    up to ten seconds for the intercepted payload. When one arrives the
    result is built from that payload alone, its token, user id, public
    user id and name, with an empty email, and the storage is not read:
    the browser at that time has no influence on the result. Only when
    none arrives in time is the storage extractor run, once, on the
    application page. No result is returned with an empty token, and when
    no payload arrived and the storage is empty the login fails with the
    extraction failure. *)
Theorem login_takes_one_source (fuel : nat) (w : World) :
  launches w ->
  waitForLogin fuel (views w) (lag w) (start w + loginTimeout) 0 (start w) = Some (Ok tt) ->
  BrowserLoginWithIntercept fuel w =
    Some (match delivered w with
          | Some payload => finalizeAuthResult (ofPayload payload)
          | None => extractAuthFromStorage (findBringAppPage (atExtraction w))
          end)
  /\ (forall payload v,
        delivered w = Some payload ->
        BrowserLoginWithIntercept fuel (withExtraction w v)
        = BrowserLoginWithIntercept fuel w)
  /\ (forall payload r,
        delivered w = Some payload ->
        BrowserLoginWithIntercept fuel w = Some (Ok r) ->
        AccessToken r = Payload.AccessToken payload
        /\ PublicUserUUID r = Payload.PublicUUID payload
        /\ UserName r = Payload.Name payload
        /\ Email r = EmptyString)
  /\ (forall r,
        BrowserLoginWithIntercept fuel w = Some (Ok r) ->
        AccessToken r <> EmptyString)
  /\ (delivered w = None ->
      evaluateFails (findBringAppPage (atExtraction w)) = false ->
      localStorage (findBringAppPage (atExtraction w)) = [] ->
      sessionStorage (findBringAppPage (atExtraction w)) = [] ->
      BrowserLoginWithIntercept fuel w = Some (Err ErrExtractAuth)).
Proof.
  intros L W. pose proof (login_sources fuel w L W) as S.
  split; [exact S|]. split; [|split; [|split]].
  - intros payload v A.
    rewrite S, (login_sources fuel (withExtraction w v) L W).
    change (delivered (withExtraction w v)) with (delivered w).
    now rewrite A.
  - intros payload r A. rewrite S, A. intros [= F].
    destruct (proj2 (finalize_inv _) _ F) as (T & _ & P & N & E & _).
    now repeat split.
  - intros r. rewrite S.
    destruct (delivered w) as [payload|]; intros [= F].
    + destruct (proj2 (finalize_inv _) _ F) as (T & N & _).
      rewrite T. exact N.
    + exact (extract_ok_token _ _ F).
  - intros A E Ls Ss. rewrite S, A. f_equal. now apply extract_empty.
Qed.

End Login.

Lemma sameTab_wait :
  BrowserAuth.waitForLogin 302 Examples.sameTabViews Examples.someLag
    (0 + BrowserAuth.loginTimeout) 0 0 = Some (Ok tt).
Proof. vm_compute. reflexivity. Qed.

Lemma bothSources_launches : Assembly.launches Examples.bothSources.
Proof. repeat split. Qed.

Lemma bothSources_first :
  Assembly.delivered Examples.bothSources = Some Examples.firstPayload.
Proof. vm_compute. reflexivity. Qed.

Lemma firstPayload_final :
  BrowserAuth.finalizeAuthResult (H := Reference.runtime)
    (BrowserAuth.ofPayload Examples.firstPayload)
  = Ok (BrowserAuth.mkResult "first" "u-1" "p-1" "Ann" EmptyString).
Proof. vm_compute. reflexivity. Qed.

Lemma lateSource_launches : Assembly.launches Examples.lateSource.
Proof. repeat split. Qed.

Lemma lateSource_none : Assembly.delivered Examples.lateSource = None.
Proof. vm_compute. reflexivity. Qed.

Lemma storedTab_extracted :
  BrowserAuth.extractAuthFromStorage (H := Reference.runtime)
    (BrowserAuth.findBringAppPage
       (BrowserAuth.atExtraction Examples.lateSource))
  = Ok Examples.storedResult.
Proof. vm_compute. reflexivity. Qed.

(** With a payload in time and a filled storage the result is the
    payload's; with a payload that comes a minute late it is the stored
    one. *)
Lemma login_takes_one_source_witness :
  BrowserAuth.BrowserLoginWithIntercept (H := Reference.runtime) 302
    Examples.bothSources
  = Some (Ok (BrowserAuth.mkResult "first" "u-1" "p-1" "Ann" EmptyString))
  /\ BrowserAuth.BrowserLoginWithIntercept (H := Reference.runtime) 302
       Examples.lateSource
     = Some (Ok Examples.storedResult).
Proof.
  destruct (login_takes_one_source (H := Reference.runtime) 302
              Examples.bothSources bothSources_launches sameTab_wait)
    as (S & _).
  destruct (login_takes_one_source (H := Reference.runtime) 302
              Examples.lateSource lateSource_launches sameTab_wait)
    as (L & _).
  split.
  - rewrite S, bothSources_first, firstPayload_final. reflexivity.
  - rewrite L, lateSource_none, storedTab_extracted. reflexivity.
Defined.

(** The merge rule of the specification and the code disagree when both
    sources have something: the code returns the payload's fields and no
    email where the rule takes the stored email, and it fails on a payload
    without user id where the rule takes the stored user id. *)
Lemma merge_not_performed :
  BrowserAuth.extractAuthFromStorage (H := Reference.runtime)
    Examples.storedTab = Ok Examples.storedResult
  /\ BrowserAuth.BrowserLoginWithIntercept (H := Reference.runtime) 302
       Examples.bothSources
     = Some (Ok (BrowserAuth.mkResult "first" "u-1" "p-1" "Ann" EmptyString))
  /\ Spec.merge (Some (BrowserAuth.ofPayload Examples.firstPayload))
       Examples.storedResult
     = BrowserAuth.mkResult "first" "u-1" "p-1" "Ann" "ann@example.com"
  /\ BrowserAuth.BrowserLoginWithIntercept (H := Reference.runtime) 302
       Examples.bothAnonymous
     = Some (Err ErrExtractAuth)
  /\ Spec.merge (Some (BrowserAuth.ofPayload Examples.anonymousPayload))
       Examples.storedResult
     = BrowserAuth.mkResult "first" "u-2" EmptyString "Ann" "ann@example.com".
Proof. vm_compute. repeat split. Qed.

(** ** The scan of the storage *)

Section Scan.
Context `{Runtime}.
Import Playwright.
Import BrowserAuth.
Import Assembly.

Lemma prop_of_falsy (v : JS.value) (name : string) :
  JS.truthy v = false -> JS.prop v name = JS.Undefined.
Proof. destruct v as [|[]]; simpl; try discriminate; reflexivity. Qed.

Lemma setIfUnset_kept (v field : JS.value) :
  JS.truthy field = true -> setIfUnset v field = field.
Proof.
  intros T. unfold setIfUnset. rewrite T.
  now rewrite andb_false_r.
Qed.

Lemma setIfUnset_set (v field : JS.value) :
  JS.truthy field = false ->
  setIfUnset v field = if JS.truthy v then v else field.
Proof.
  intros T. unfold setIfUnset. rewrite T.
  now rewrite andb_true_r.
Qed.

Lemma trySet_keeps_token (obj : JS.value) (r : scanResult) :
  JS.truthy (accessToken r) = true ->
  accessToken (snd (trySet obj r)) = accessToken r.
Proof.
  intros T. unfold trySet.
  destruct (negb (JS.truthy obj) || negb (JS.isObject obj)); simpl;
    [reflexivity|].
  now apply setIfUnset_kept.
Qed.

Lemma adoptJwt_keeps (text : string) (r : scanResult) :
  JS.truthy (accessToken r) = true -> adoptJwt text r = r.
Proof. intros T. unfold adoptJwt. now rewrite T. Qed.

(** Once the token is set the scan leaves it as it is. *)
Lemma scan_keeps_token (items : list JS.value) (r : scanResult) :
  JS.truthy (accessToken r) = true ->
  accessToken (scan items r) = accessToken r.
Proof.
  revert r. induction items as [|item rest IH]; intros r T; [reflexivity|].
  simpl. destruct item as [|[]]; try (now apply IH).
  destruct (JS.isEmpty s); [now apply IH|].
  rewrite (adoptJwt_keeps _ _ T).
  destruct (JSON_parse s) as [parsed|]; [|now apply IH].
  pose proof (trySet_keeps_token (JS.Val parsed) r T) as K.
  destruct (trySet (JS.Val parsed) r) as [found r2]. simpl in K.
  destruct (found && JS.truthy (accessToken r2) && JS.truthy (userUuid r2));
    [exact K|].
  rewrite IH; [exact K|]. now rewrite K.
Qed.

(** As long as the token is not set the scan goes on to the next item. *)
Lemma scan_app (l1 l2 : list JS.value) (r : scanResult) :
  JS.truthy (accessToken (scan l1 r)) = false ->
  scan (l1 ++ l2) r = scan l2 (scan l1 r).
Proof.
  revert r. induction l1 as [|item rest IH]; intros r; [reflexivity|].
  simpl. destruct item as [|[]]; try (now apply IH).
  destruct (JS.isEmpty s); [now apply IH|].
  destruct (JSON_parse s) as [parsed|]; [|now apply IH].
  destruct (trySet (JS.Val parsed) (adoptJwt s r)) as [found r2].
  destruct (found && JS.truthy (accessToken r2) && JS.truthy (userUuid r2))
    eqn:C; [|now apply IH].
  intros U. apply andb_true_iff in C as [C _].
  apply andb_true_iff in C as [_ C]. congruence.
Qed.

(** The token [trySet] leaves: the one that was set, otherwise the first
    truthy candidate, otherwise none. *)
Lemma trySet_token (obj : JS.value) (r : scanResult) :
  JS.truthy obj = true -> JS.isObject obj = true ->
  accessToken (snd (trySet obj r)) =
    if JS.truthy (accessToken r) then accessToken r
    else match List.find JS.truthy (tokenCandidates obj) with
         | Some v => v
         | None => accessToken r
         end.
Proof.
  intros T O. unfold trySet. rewrite T, O. simpl.
  destruct (JS.truthy (accessToken r)) eqn:A; [now apply setIfUnset_kept|].
  rewrite (setIfUnset_set _ _ A). unfold JS.or, JS.and.
  destruct (JS.truthy (JS.prop obj "auth")) eqn:C4;
    [|rewrite !(prop_of_falsy _ _ C4)];
    destruct (JS.truthy (JS.prop obj "access_token")) eqn:C1;
    destruct (JS.truthy (JS.prop obj "accessToken")) eqn:C2;
    destruct (JS.truthy (JS.prop obj "token")) eqn:C3;
    try destruct (JS.truthy (JS.prop (JS.prop obj "auth") "access_token"))
      eqn:C5;
    try destruct (JS.truthy (JS.prop (JS.prop obj "auth") "accessToken"))
      eqn:C6;
    repeat match goal with
           | E : JS.truthy ?x = _ |- context [JS.truthy ?x] =>
               rewrite E; simpl
           end;
    reflexivity.
Qed.


End Scan.

Lemma nestedText_nonempty : JS.isEmpty Examples.nestedTokenText = false.
Proof. vm_compute. reflexivity. Qed.

Lemma nestedText_no_jwt : JS.jwtMatch Examples.nestedTokenText = None.
Proof. vm_compute. reflexivity. Qed.

Lemma nestedText_parsed :
  JSON_parse (Runtime := Reference.runtime) Examples.nestedTokenText
  = Some Examples.nestedToken.
Proof. vm_compute. reflexivity. Qed.

Lemma nestedTabWithUser_extracted :
  BrowserAuth.extractAuthFromStorage (H := Reference.runtime)
    Examples.nestedTabWithUser
  = Ok (BrowserAuth.mkResult "abc" "u-1" EmptyString EmptyString EmptyString).
Proof. vm_compute. reflexivity. Qed.


(** With two stored values that hold a token, the scan keeps the one it
    meets first. *)
Lemma scan_first_match_wins :
  BrowserAuth.extractAuthFromStorageFallback (H := Reference.runtime)
    Examples.twoTokensTab
  = Ok (BrowserAuth.mkResult "zzz" EmptyString EmptyString EmptyString
          EmptyString).
Proof. vm_compute. reflexivity. Qed.

(** *** The pattern of the scan

    The pattern asks for a backslash before each separator: a text
    without backslash has no match, a token with its dots included. *)

Lemma tokenRun_count (c : ascii) (s : string) :
  (countChar c (snd (JS.tokenRun s)) <= countChar c s)%nat.
Proof.
  induction s as [|d t IH]; simpl; [lia|].
  destruct (JS.isTokenChar d).
  - destruct (JS.tokenRun t) as [a r]. simpl in *.
    destruct (Ascii.eqb d c); lia.
  - simpl. lia.
Qed.

Lemma separated_backslash (s : string) :
  countChar "\"%char s = O -> JS.separated s = None.
Proof.
  destruct s as [|b [|c r]]; try reflexivity. simpl.
  destruct (Ascii.eqb b "\"%char); [discriminate|reflexivity].
Qed.

Lemma jwtAt_backslash (s : string) :
  countChar "\"%char s = O -> JS.jwtAt s = None.
Proof.
  intros Z. destruct s as [|c1 [|c2 [|c3 r0]]]; try reflexivity.
  unfold JS.jwtAt.
  destruct (Ascii.eqb c1 "e"%char && Ascii.eqb c2 "y"%char
            && Ascii.eqb c3 "J"%char); [|reflexivity].
  pose proof (tokenRun_count "\"%char r0) as L.
  destruct (JS.tokenRun r0) as [a r1]. simpl in L.
  destruct (JS.isEmpty a); [reflexivity|].
  rewrite separated_backslash; [reflexivity|].
  simpl in Z.
  destruct (Ascii.eqb c1 "\"%char); [discriminate|].
  destruct (Ascii.eqb c2 "\"%char); [discriminate|].
  destruct (Ascii.eqb c3 "\"%char); [discriminate|].
  lia.
Qed.

Lemma jwtMatch_backslash (s : string) :
  countChar "\"%char s = O -> JS.jwtMatch s = None.
Proof.
  induction s as [|c t IH]; intros Z.
  - reflexivity.
  - change (JS.jwtMatch (String c t))
      with (match JS.jwtAt (String c t) with
            | Some m => Some m
            | None => JS.jwtMatch t
            end).
    rewrite (jwtAt_backslash _ Z). apply IH.
    simpl in Z. destruct (Ascii.eqb c "\"%char); [discriminate|exact Z].
Qed.

Lemma jwtMatch_signedToken :
  JS.jwtMatch Examples.signedToken = None
  /\ JS.jwtMatch Examples.escapedToken = Some Examples.escapedToken.
Proof. vm_compute. split; reflexivity. Qed.

(** ** What a login can return *)

Section Emitted.
Context `{Runtime}.
Import Playwright.
Import BrowserAuth.
Import Assembly.

(** A result of [finalizeAuthResult] has an empty user id only when the
    subject of its token ends in a colon. *)
Lemma finalize_empty_user (result r : BrowserAuthResult) :
  finalizeAuthResult result = Ok r ->
  AccessToken r <> EmptyString
  /\ (UserUUID r = EmptyString ->
      exists claims,
        Cli.decodeJWT (AccessToken r) = Ok claims
        /\ Cli.Sub claims <> EmptyString
        /\ Cli.subjectUserUUID (Cli.Sub claims) = EmptyString).
Proof.
  intros F. destruct (proj2 (finalize_inv result) r F) as (T & N & _).
  split; [now rewrite T|]. revert F. unfold finalizeAuthResult.
  apply isEmpty_false in N. rewrite N.
  destruct (JS.isEmpty (UserUUID result)) eqn:U; simpl.
  - destruct (Cli.decodeJWT (AccessToken result)) as [claims|e] eqn:D;
      [|discriminate].
    destruct (JS.isEmpty (Cli.Sub claims)) eqn:S; [discriminate|].
    intros [= <-]. simpl. intros E. exists claims.
    split; [exact D|]. split; [now apply isEmpty_false|exact E].
  - intros [= <-] E. apply isEmpty_false in U. now destruct U.
Qed.

Lemma extract_by_finalize (p : Page) (r : BrowserAuthResult) :
  extractAuthFromStorage p = Ok r ->
  exists result, finalizeAuthResult result = Ok r.
Proof.
  unfold extractAuthFromStorage. destruct (evaluateFails p); [discriminate|].
  destruct (unmarshalStrings (storageScript p)); [|discriminate].
  intros F. eexists. exact F.
Qed.

(** Every result of the login, with or without interception, has a token;
    its user id is empty only when the subject of the token ends in a
    colon. *)
Lemma login_result (fuel : nat) (w : World) (r : BrowserAuthResult) :
  BrowserLoginWithIntercept fuel w = Some (Ok r)
  \/ BrowserLogin fuel w = Some (Ok r) ->
  AccessToken r <> EmptyString
  /\ (UserUUID r = EmptyString ->
      exists claims,
        Cli.decodeJWT (AccessToken r) = Ok claims
        /\ Cli.Sub claims <> EmptyString
        /\ Cli.subjectUserUUID (Cli.Sub claims) = EmptyString).
Proof.
  assert (forall o : Result BrowserAuthResult,
            o = Ok r -> (exists result, finalizeAuthResult result = o) ->
            AccessToken r <> EmptyString
            /\ (UserUUID r = EmptyString ->
                exists claims,
                  Cli.decodeJWT (AccessToken r) = Ok claims
                  /\ Cli.Sub claims <> EmptyString
                  /\ Cli.subjectUserUUID (Cli.Sub claims) = EmptyString)) as K.
  { intros o -> [result F]. exact (finalize_empty_user _ _ F). }
  unfold BrowserLoginWithIntercept, BrowserLogin, orReturn.
  destruct (ensurePlaywrightErr w); [intros [[=]|[=]]|].
  destruct (launchErr w); [intros [[=]|[=]]|].
  destruct (newPageErr w); [intros [[=]|[=]]|].
  destruct (gotoErr w); [intros [[=]|[=]]|].
  intros [E|E].
  - destruct (waitForLogin fuel (views w) (lag w) (start w + loginTimeout) 0 (start w))
      as [[[]|e]|]; try discriminate.
    destruct (waitForAuthResponse _ _ _) as [payload|]; injection E as E.
    + apply (K _ E). eexists. reflexivity.
    + apply (K _ E). rewrite E. exact (extract_by_finalize _ _ E).
  - destruct (if Go.Contains (landed w) "/login"
              then waitForLogin fuel (views w) (lag w) (start w + loginTimeout) 0 (start w)
              else Some (Ok tt)) as [[[]|e]|]; try discriminate.
    injection E as E. apply (K _ E). rewrite E.
    exact (extract_by_finalize _ _ E).
Qed.

End Emitted.

(** * More properties of the code *)

(** ** Strings *)

Lemma HasPrefix_app (p s : string) : Strings.HasPrefix (p +:+ s) p = true.
Proof.
  induction p as [|c p IH]; [reflexivity|].
  change (Ascii.eqb c c && Strings.HasPrefix (p +:+ s) p = true).
  now rewrite Ascii.eqb_refl.
Qed.

Lemma HasPrefix_split (p s : string) :
  Strings.HasPrefix s p = true ->
  s = p +:+ Strings.from (String.length p) s.
Proof.
  revert s. induction p as [|c p IH]; intros s P; [reflexivity|].
  destruct s as [|d s]; [discriminate P|]. cbn [Strings.HasPrefix] in P.
  apply andb_prop in P as [E P]. apply Ascii.eqb_eq in E as <-.
  change (String c s = String c (p +:+ Strings.from (String.length p) s)).
  f_equal. exact (IH s P).
Qed.

Lemma HasPrefix_dashes (arg : string) :
  Strings.HasPrefix arg "--" = true -> Strings.HasPrefix arg "-" = true.
Proof.
  destruct arg as [|c t]; [intros [=]|]. cbn [Strings.HasPrefix].
  intros P. apply andb_prop in P as [E _]. now rewrite E.
Qed.

(** [SplitN2] cuts at the first separator. *)
Lemma SplitN2_spec (s : string) (sep : ascii) :
  (Strings.SplitN2 s sep = [s] /\ countChar sep s = O)
  \/ (exists a b,
        Strings.SplitN2 s sep = [a; b]
        /\ s = a +:+ String sep b /\ countChar sep a = O).
Proof.
  induction s as [|c t IH]; simpl; [now left|].
  destruct (Ascii.eqb_spec c sep) as [->|N].
  - right. exists EmptyString, t. now repeat split.
  - destruct IH as [[E Z]|(a & b & E & S & Z)]; rewrite E.
    + left. split; [reflexivity|]. exact Z.
    + right. exists (String c a), b. simpl. rewrite S.
      destruct (Ascii.eqb_spec c sep); [contradiction|]. now repeat split.
Qed.

Lemma SplitN2_none (s : string) (sep : ascii) :
  countChar sep s = O -> Strings.SplitN2 s sep = [s].
Proof.
  intros Z. destruct (SplitN2_spec s sep) as [[E _]|(a & b & _ & S & _)];
    [exact E|].
  exfalso. rewrite S in Z. clear S. induction a as [|c a IH]; simpl in Z.
  - now rewrite Ascii.eqb_refl in Z.
  - destruct (Ascii.eqb c sep); [discriminate|auto].
Qed.

Lemma SplitN2_cut (a b : string) (sep : ascii) :
  countChar sep a = O -> Strings.SplitN2 (a +:+ String sep b) sep = [a; b].
Proof.
  induction a as [|c a IH]; simpl; intros Z.
  - now rewrite Ascii.eqb_refl.
  - destruct (Ascii.eqb c sep); [discriminate|]. now rewrite (IH Z).
Qed.

(** ** The arguments *)

Section ParseArgs.
Import Args.

(** One turn of the loop: what it does with an argument, by the form
    of the argument. *)
Lemma loop_cons (i : nat) (arg : string) :
  (i = O /\ plain arg
   /\ forall rest st,
        loop i (arg :: rest) st = loop (S i) rest (setCommand st arg))
  \/ (exists key value,
        arg = "--" +:+ key +:+ String "="%char value
        /\ countChar "="%char key = O
        /\ forall rest st,
             loop i (arg :: rest) st = loop (S i) rest (setValue st key value))
  \/ (exists key,
        arg = "--" +:+ key /\ countChar "="%char key = O
        /\ (forall next rest st,
              plain next ->
              loop i (arg :: next :: rest) st
              = loop (S (S i)) rest (setValue st key next))
        /\ (forall next rest st,
              Strings.HasPrefix next "-" = true ->
              loop i (arg :: next :: rest) st
              = loop (S i) (next :: rest) (setBool st key))
        /\ (forall st, loop i [arg] st = setBool st key))
  \/ (exists key,
        arg = "-" +:+ key /\ Strings.HasPrefix arg "--" = false
        /\ forall rest st,
             loop i (arg :: rest) st = loop (S i) rest (setBool st key))
  \/ (i <> O /\ plain arg
      /\ forall rest st,
           loop i (arg :: rest) st = loop (S i) rest (addPositional st arg)).
Proof.
  unfold plain.
  destruct (Strings.HasPrefix arg "-") eqn:D.
  - right. destruct (Strings.HasPrefix arg "--") eqn:DD.
    + pose proof (HasPrefix_split _ _ DD) as A.
      change (String.length "--") with 2%nat in A.
      destruct (SplitN2_spec (Strings.from 2 arg) "="%char)
        as [[E Z]|(key & value & E & S & Z)].
      * right. left. exists (Strings.from 2 arg).
        split; [exact A|]. split; [exact Z|]. split; [|split].
        -- intros next rest st N. cbn [loop].
           rewrite D, DD, andb_false_r, E. cbn [hd]. now rewrite N.
        -- intros next rest st N. cbn [loop].
           rewrite D, DD, andb_false_r, E. cbn [hd]. now rewrite N.
        -- intros st. cbn [loop]. now rewrite D, DD, andb_false_r, E.
      * left. exists key, value. rewrite S in A.
        split; [exact A|]. split; [exact Z|].
        intros rest st. cbn [loop]. now rewrite D, DD, andb_false_r, E.
    + do 2 right. left. exists (Strings.from 1 arg).
      split; [exact (HasPrefix_split _ _ D)|]. split; [reflexivity|].
      intros rest st. cbn [loop]. now rewrite D, DD, andb_false_r.
  - assert (Strings.HasPrefix arg "--" = false) as DD.
    { destruct (Strings.HasPrefix arg "--") eqn:DD; [|reflexivity].
      apply HasPrefix_dashes in DD. congruence. }
    destruct (Nat.eqb_spec i 0) as [->|N].
    + left. split; [reflexivity|]. split; [reflexivity|].
      intros rest st. cbn [loop]. now rewrite D.
    + do 4 right. split; [exact N|]. split; [reflexivity|].
      intros rest st. cbn [loop]. rewrite D, DD.
      destruct (Nat.eqb_spec i 0); [contradiction|reflexivity].
Qed.

Lemma plain_dash (s : string) : plain ("-" +:+ s) -> False.
Proof. unfold plain. now rewrite (HasPrefix_app "-" s). Qed.

Lemma plain_dashes (s : string) : plain ("--" +:+ s) -> False.
Proof.
  unfold plain. intros P. pose proof (HasPrefix_app "--" s) as D.
  apply HasPrefix_dashes in D. congruence.
Qed.

Lemma plain_or_not (arg : string) :
  plain arg \/ Strings.HasPrefix arg "-" = true.
Proof. unfold plain. destruct (Strings.HasPrefix arg "-"); auto. Qed.

Ltac loop_cases i arg :=
  destruct (loop_cons i arg)
    as [(I & P & E)
       |[(key & value & A & Z & E)
        |[(key & A & Z & E2 & E1 & E0)
         |[(key & A & D & E)
          |(I & P & E)]]]].

(** The positional arguments the loop adds are arguments it went over,
    in their order, and none starts with a dash. *)
Lemma loop_adds (n : nat) :
  forall rest, (length rest <= n)%nat ->
  forall i st,
  exists ps,
    positional (loop i rest st) = (positional st ++ ps)%list
    /\ sublist ps rest /\ Forall plain ps
    /\ (i = O -> sublist ps (tl rest)).
Proof.
  assert (forall i st,
            exists ps,
              positional (loop i [] st) = (positional st ++ ps)%list
              /\ sublist ps [] /\ Forall plain ps
              /\ (i = O -> sublist ps (tl []))) as Nil.
  { intros i st. exists []. rewrite app_nil_r.
    repeat split; try intros _; repeat constructor. }
  induction n as [|n IH]; intros [|arg rest] L i st; simpl in L; try lia;
    try apply Nil.
  assert (forall k st',
            positional st' = positional st ->
            exists ps,
              positional (loop k rest st') = (positional st ++ ps)%list
              /\ sublist ps (arg :: rest) /\ Forall plain ps
              /\ (i = O -> sublist ps (tl (arg :: rest)))) as Skip.
  { intros k st' Q. destruct (IH rest ltac:(lia) k st') as (ps & E & S & F & _).
    exists ps. rewrite E, Q. repeat split; try assumption;
      [now apply sublist_cons|intros _; exact S]. }
  loop_cases i arg; try (rewrite E; now apply Skip).
  - destruct rest as [|next rest].
    + rewrite E0. exists []. rewrite app_nil_r.
      repeat split; try intros _; repeat constructor.
    + destruct (plain_or_not next) as [N|N].
      * rewrite (E2 _ _ _ N). simpl in L.
        destruct (IH rest ltac:(lia) (S (S i)) (setValue st key next))
          as (ps & Q & S & F & _).
        exists ps. rewrite Q. repeat split; try assumption;
          repeat apply sublist_cons; try assumption.
        intros _. now apply sublist_cons.
      * rewrite (E1 _ _ _ N). now apply Skip.
  - rewrite E.
    destruct (IH rest ltac:(lia) (S i) (addPositional st arg))
      as (ps & Q & S & F & _).
    exists (arg :: ps). rewrite Q. simpl. rewrite <- app_assoc.
    repeat split; try (now constructor). intros ->. contradiction.
Qed.

(** From the second argument on, the command stays as it is. *)
Lemma loop_command (n : nat) :
  forall rest, (length rest <= n)%nat ->
  forall i st, i <> O -> command (loop i rest st) = command st.
Proof.
  induction n as [|n IH]; intros [|arg rest] L i st N; simpl in L; try lia;
    try reflexivity.
  loop_cases i arg; try contradiction;
    try (rewrite E, IH by lia; reflexivity).
  destruct rest as [|next rest]; [now rewrite E0|].
  destruct (plain_or_not next) as [Q|Q].
  - rewrite (E2 _ _ _ Q), IH by (simpl in L; lia). reflexivity.
  - rewrite (E1 _ _ _ Q), IH by lia. reflexivity.
Qed.

(** Arguments without a dash in front: the first is the command, the
    others are positional, and no flag is set. *)
Lemma loop_plain (rest : list string) :
  Forall plain rest ->
  forall i st, i <> O ->
  loop i rest st =
    {| command := command st; flags := flags st;
       positional := positional st ++ rest |}.
Proof.
  induction 1 as [|arg rest PA F IH]; intros i st N.
  - simpl. rewrite app_nil_r. now destruct st.
  - loop_cases i arg; subst;
      try contradiction; try (now apply plain_dash in PA);
      try (now apply plain_dashes in PA).
    rewrite E, IH by lia. simpl. now rewrite <- app_assoc.
Qed.

(** From the second argument on the index plays no part. *)
Lemma loop_index (n : nat) :
  forall rest, (length rest <= n)%nat ->
  forall i j st, i <> O -> j <> O -> loop i rest st = loop j rest st.
Proof.
  induction n as [|n IH]; intros [|arg rest] L i j st Ni Nj; simpl in L;
    try lia; try reflexivity.
  cbn [loop].
  destruct (Nat.eqb_spec i 0) as [|_]; [contradiction|].
  destruct (Nat.eqb_spec j 0) as [|_]; [contradiction|]. cbn [andb].
  destruct (Strings.HasPrefix arg "--").
  - destruct (Strings.SplitN2 (Strings.from 2 arg) "=") as [|k [|v [|x y]]];
      try (apply IH; lia);
      (destruct rest as [|next rest]; [reflexivity|];
       destruct (Strings.HasPrefix next "-"); cbn [negb];
       apply IH; simpl in *; lia).
  - destruct (Strings.HasPrefix arg "-"); apply IH; lia.
Qed.

(** What the loop adds to the positional arguments does not depend on
    the state. *)
Lemma loop_positional (n : nat) :
  forall rest, (length rest <= n)%nat ->
  forall i st st',
  exists ps,
    positional (loop i rest st) = (positional st ++ ps)%list
    /\ positional (loop i rest st') = (positional st' ++ ps)%list.
Proof.
  induction n as [|n IH]; intros [|arg rest] L i st st'; simpl in L;
    try lia; try (exists []; now rewrite !app_nil_r).
  assert (forall a s s',
            positional s = positional st -> positional s' = positional st' ->
            forall r, (length r <= n)%nat ->
            exists ps,
              positional (loop a r s) = (positional st ++ ps)%list
              /\ positional (loop a r s') = (positional st' ++ ps)%list)
    as Same.
  { intros a s s' Q Q' r Lr.
    destruct (IH r Lr a s s') as (ps & U & V).
    exists ps. now rewrite U, V, Q, Q'. }
  loop_cases i arg; try (rewrite !E; apply Same; try lia; reflexivity).
  - destruct rest as [|next rest].
    + rewrite !E0. exists []. now rewrite !app_nil_r.
    + destruct (plain_or_not next) as [N|N].
      * rewrite !(E2 _ _ _ N).
        apply Same; cbn [length] in *; try lia; reflexivity.
      * rewrite !(E1 _ _ _ N).
        apply Same; cbn [length] in *; try lia; reflexivity.
  - rewrite !E.
    destruct (IH rest ltac:(lia) (S i) (addPositional st arg)
                (addPositional st' arg)) as (ps & U & V).
    exists (arg :: ps). rewrite U, V. simpl. now rewrite <- !app_assoc.
Qed.

(** An argument that starts with a dash, added at the end, is handled
    after the others and by itself. *)
Lemma loop_single (i j : nat) (a : string) (st : parsed) :
  Strings.HasPrefix a "-" = true -> loop i [a] st = loop j [a] st.
Proof.
  intros D. cbn [loop]. rewrite D, !andb_false_r.
  destruct (Strings.HasPrefix a "--"); [|reflexivity].
  now destruct (Strings.SplitN2 (Strings.from 2 a) "=") as [|k [|v [|x y]]].
Qed.

Lemma loop_snoc (n : nat) (a : string) :
  Strings.HasPrefix a "-" = true ->
  forall rest, (length rest <= n)%nat ->
  forall i st, loop i (rest ++ [a]) st = loop 1 [a] (loop i rest st).
Proof.
  intros DA. induction n as [|n IH]; intros [|arg rest] L i st; simpl in L;
    try lia; try (now apply loop_single).
  change ((arg :: rest) ++ [a])%list with (arg :: (rest ++ [a]))%list.
  loop_cases i arg; try (rewrite !E; apply IH; lia).
  destruct rest as [|next rest].
  - change ([] ++ [a])%list with [a]. rewrite (E1 _ _ _ DA), E0.
    now apply loop_single.
  - change ((next :: rest) ++ [a])%list with (next :: (rest ++ [a]))%list.
    destruct (plain_or_not next) as [N|N].
    + rewrite !(E2 _ _ _ N). apply IH. simpl in L. lia.
    + rewrite !(E1 _ _ _ N).
      change (next :: (rest ++ [a]))%list with ((next :: rest) ++ [a])%list.
      apply IH. lia.
Qed.

(** The flags the loop sets come from the arguments. *)
Lemma loop_flags (args : list string) (n : nat) :
  forall rest, (length rest <= n)%nat ->
  forall pre i st,
  args = (pre ++ rest)%list ->
  valuesFrom args (flags st) /\ boolsFrom args (flags st) ->
  valuesFrom args (flags (loop i rest st))
  /\ boolsFrom args (flags (loop i rest st)).
Proof.
  assert (forall st key value,
            valuesFrom args (flags st) /\ boolsFrom args (flags st) ->
            (In ("--" +:+ key +:+ String "="%char value) args
             \/ exists before after,
                  args = (before ++ ("--" +:+ key) :: value :: after)%list
                  /\ plain value) ->
            valuesFrom args (flags (setValue st key value))
            /\ boolsFrom args (flags (setValue st key value))) as SetV.
  { intros st key value [V B] W. split; [|exact B].
    intros k v. simpl. rewrite lookup_insert_Some.
    intros [[<- <-]|[_ Q]]; [exact W|exact (V _ _ Q)]. }
  assert (forall st key,
            valuesFrom args (flags st) /\ boolsFrom args (flags st) ->
            In ("-" +:+ key) args \/ In ("--" +:+ key) args ->
            valuesFrom args (flags (setBool st key))
            /\ boolsFrom args (flags (setBool st key))) as SetB.
  { intros st key [V B] W. split; [exact V|].
    intros k b. simpl. rewrite lookup_insert_Some.
    intros [[<- <-]|[_ Q]]; [now split|exact (B _ _ Q)]. }
  induction n as [|n IH]; intros [|arg rest] L pre i st A F; simpl in L;
    try lia; try exact F.
  assert (In arg args) as Here by (rewrite A; apply in_elt).
  assert (args = ((pre ++ [arg]) ++ rest)%list) as A1
    by (now rewrite <- app_assoc).
  destruct (loop_cons i arg)
    as [(I & P & E)|[(key & value & Q & Z & E)|[(key & Q & Z & E2 & E1 & E0)
       |[(key & Q & D & E)|(I & P & E)]]]].
  - rewrite E. apply (IH rest ltac:(lia) _ _ _ A1). exact F.
  - rewrite E. apply (IH rest ltac:(lia) _ _ _ A1).
    apply SetV; [exact F|]. left. now rewrite <- Q.
  - destruct rest as [|next rest].
    + rewrite E0. apply SetB; [exact F|]. right. now rewrite <- Q.
    + destruct (plain_or_not next) as [N|N].
      * rewrite (E2 _ _ _ N).
        apply (IH rest ltac:(simpl in L; lia) ((pre ++ [arg]) ++ [next])%list).
        -- rewrite A1. now rewrite <- (app_assoc _ [next] rest).
        -- apply SetV; [exact F|]. right. exists pre, rest.
           split; [now rewrite <- Q|exact N].
      * rewrite (E1 _ _ _ N). apply (IH (next :: rest) ltac:(lia) _ _ _ A1).
        apply SetB; [exact F|]. right. now rewrite <- Q.
  - rewrite E. apply (IH rest ltac:(lia) _ _ _ A1).
    apply SetB; [exact F|]. left. now rewrite <- Q.
  - rewrite E. apply (IH rest ltac:(lia) _ _ _ A1). exact F.
Qed.

(** A switch that is on stays on. *)
Lemma loop_bool_kept (name : string) (n : nat) :
  forall rest, (length rest <= n)%nat ->
  forall i st,
  Bools (flags st) !! name = Some true ->
  Bools (flags (loop i rest st)) !! name = Some true.
Proof.
  assert (forall st key,
            Bools (flags st) !! name = Some true ->
            Bools (flags (setBool st key)) !! name = Some true) as SetB.
  { intros st key B. simpl. destruct (decide (key = name)) as [->|N].
    - now rewrite lookup_insert_eq.
    - now rewrite lookup_insert_ne. }
  induction n as [|n IH]; intros [|arg rest] L i st B; simpl in L;
    try lia; try exact B.
  loop_cases i arg; try (rewrite E; apply IH; [lia|]; auto).
  destruct rest as [|next rest]; [rewrite E0; auto|].
  destruct (plain_or_not next) as [N|N].
  - rewrite (E2 _ _ _ N). apply IH; [simpl in L; lia|]. exact B.
  - rewrite (E1 _ _ _ N). apply IH; [lia|]. auto.
Qed.

(** The argument [-name] turns the switch [name] on, wherever it
    stands. *)
Lemma loop_switch (name : string) (n : nat) :
  Strings.HasPrefix name "-" = false ->
  forall rest, (length rest <= n)%nat ->
  forall i st,
  In ("-" +:+ name) rest ->
  Bools (flags (loop i rest st)) !! name = Some true.
Proof.
  intros NN.
  assert (Strings.HasPrefix ("-" +:+ name) "--" = false) as ND.
  { change (Strings.HasPrefix (String "-" name) "--" = false).
    destruct name as [|c t]; [reflexivity|].
    cbn [Strings.HasPrefix] in *. now rewrite NN, andb_false_r. }
  induction n as [|n IH]; intros [|arg rest] L i st M; simpl in L;
    try lia; try (now destruct M).
  destruct M as [->|M].
  - destruct (loop_cons i ("-" +:+ name))
      as [(_ & P & _)|[(key & value & A & _)|[(key & A & _)
         |[(key & A & D & E)|(_ & P & _)]]]].
    + now apply plain_dash in P.
    + rewrite A in ND. now rewrite (HasPrefix_app "--") in ND.
    + rewrite A in ND. now rewrite (HasPrefix_app "--") in ND.
    + change (String "-" name = String "-" key) in A. injection A as <-.
      rewrite E.
      apply (loop_bool_kept name (length rest)); [lia|].
      simpl. now rewrite lookup_insert_eq.
    + now apply plain_dash in P.
  - loop_cases i arg; try (rewrite E; apply IH; [lia|exact M]).
    destruct rest as [|next rest]; [now destruct M|].
    destruct (plain_or_not next) as [N|N].
    + rewrite (E2 _ _ _ N). apply IH; [simpl in L; lia|].
      destruct M as [->|M]; [now apply plain_dash in N|exact M].
    + rewrite (E1 _ _ _ N). apply IH; [lia|exact M].
Qed.

End ParseArgs.

Lemma countChar_app (c : ascii) (a b : string) :
  countChar c (a +:+ b) = (countChar c a + countChar c b)%nat.
Proof.
  induction a as [|d a IH]; [reflexivity|].
  change (countChar c (String d (a +:+ b))
          = (countChar c (String d a) + countChar c b)%nat).
  cbn [countChar]. rewrite IH. now destruct (Ascii.eqb d c).
Qed.

Section ParseArgsFacts.
Import Args.

Let init : parsed :=
  {| command := EmptyString; flags := noFlags; positional := [] |}.

(** The turn of the loop for [--key=value] and for [--key]. *)
Lemma loop_key_value (i : nat) (key value : string) (rest : list string)
    (st : parsed) :
  countChar "="%char key = O ->
  loop i (("--" +:+ key +:+ String "="%char value) :: rest) st
  = loop (S i) rest (setValue st key value).
Proof.
  intros Z. cbn [loop].
  pose proof (HasPrefix_app "--" (key +:+ String "="%char value)) as DD.
  rewrite (HasPrefix_dashes _ DD), DD, andb_false_r.
  change (Strings.from 2 ("--" +:+ key +:+ String "="%char value))
    with (key +:+ String "="%char value).
  now rewrite (SplitN2_cut _ _ _ Z).
Qed.

Lemma loop_key (i : nat) (key : string) :
  countChar "="%char key = O ->
  (forall next rest st,
     plain next ->
     loop i (("--" +:+ key) :: next :: rest) st
     = loop (S (S i)) rest (setValue st key next))
  /\ (forall next rest st,
        Strings.HasPrefix next "-" = true ->
        loop i (("--" +:+ key) :: next :: rest) st
        = loop (S i) (next :: rest) (setBool st key))
  /\ (forall st, loop i ["--" +:+ key] st = setBool st key).
Proof.
  intros Z.
  pose proof (HasPrefix_app "--" key) as DD.
  assert (forall rest st,
            loop i (("--" +:+ key) :: rest) st =
              match rest with
              | next :: rest'' =>
                  if negb (Strings.HasPrefix next "-")
                  then loop (S (S i)) rest'' (setValue st key next)
                  else loop (S i) rest (setBool st key)
              | [] => loop (S i) rest (setBool st key)
              end) as K.
  { intros rest st. cbn [loop].
    rewrite (HasPrefix_dashes _ DD), DD, andb_false_r.
    change (Strings.from 2 ("--" +:+ key)) with key.
    now rewrite (SplitN2_none _ _ Z). }
  split; [|split].
  - intros next rest st N. rewrite K. unfold plain in N. now rewrite N.
  - intros next rest st N. rewrite K. now rewrite N.
  - intros st. now rewrite K.
Qed.

(** An argument without a dash at index 0 is the command. *)
Lemma loop_first (arg : string) (rest : list string) (st : parsed) :
  plain arg -> loop 0 (arg :: rest) st = loop 1 rest (setCommand st arg).
Proof. intros P. cbn [loop]. unfold plain in P. now rewrite P. Qed.

(** X1. The positional arguments [parseArgs]
    returns are arguments after the first one, in the order given, and
    none of them starts with a dash: the first argument is the command or
    a flag, never a positional argument. *)
Theorem parseArgs_positional (args : list string) :
  sublist (positional (parseArgs args)) (tl args)
  /\ Forall plain (positional (parseArgs args)).
Proof.
  destruct (loop_adds (length args) args (le_n _) O init)
    as (ps & E & _ & F & T).
  unfold parseArgs. fold init. rewrite E. split; [now apply T|exact F].
Qed.

(** X2. When no argument starts with a dash, the
    first argument is the command, all the others are positional in
    their order, and no flag is set. *)
Theorem parseArgs_no_flags (args : list string) :
  Forall plain args ->
  parseArgs args =
    {| command := hd EmptyString args; flags := noFlags;
       positional := tl args |}.
Proof.
  intros F. unfold parseArgs. destruct args as [|arg rest]; [reflexivity|].
  inversion F as [|? ? P R]; subst.
  rewrite (loop_first _ _ _ P). now rewrite (loop_plain _ R).
Qed.

Lemma parseArgs_no_flags_witness :
  parseArgs ["add"; "milk"; "eggs"] =
    {| command := "add"; flags := noFlags; positional := ["milk"; "eggs"] |}.
Proof.
  apply (parseArgs_no_flags ["add"; "milk"; "eggs"]).
  repeat constructor.
Defined.

(** X3. Every flag [parseArgs] returns
    comes from the arguments: a value is the text after the equals sign
    of an argument [--key=value], or the argument that follows [--key]
    and does not start with a dash; a switch comes from an argument
    [-key] or [--key] and is on, never off. *)
Theorem parseArgs_flags_from_arguments (args : list string) :
  valuesFrom args (flags (parseArgs args))
  /\ boolsFrom args (flags (parseArgs args)).
Proof.
  apply (loop_flags args (length args) args (le_n _) []); [reflexivity|].
  split; intros k v; simpl; rewrite lookup_empty; discriminate.
Qed.

(** X4. A word that follows [--key]
    (key without equals sign) and does not start with a dash is taken as
    the value of that flag and is never a positional argument: the
    positional arguments are those of the command line without the two,
    and [cmd --key word] alone has the value and no positional argument
    at all. *)
Theorem parseArgs_flag_takes_next_word (cmd key word : string)
    (rest : list string) :
  plain cmd -> countChar "="%char key = O -> plain word ->
  positional (parseArgs (cmd :: ("--" +:+ key) :: word :: rest))
  = positional (parseArgs (cmd :: rest))
  /\ parseArgs [cmd; "--" +:+ key; word] =
       {| command := cmd;
          flags := {| Values := {[ key := word ]}; Bools := ∅ |};
          positional := [] |}.
Proof.
  intros C Z W. destruct (loop_key 1 key Z) as (K & _).
  unfold parseArgs. rewrite !(loop_first _ _ _ C), !(K _ _ _ W).
  split; [|reflexivity].
  rewrite (loop_index (length rest) rest (le_n _) 3 1) by lia.
  destruct (loop_positional (length rest) rest (le_n _) 1
              (setValue (setCommand init cmd) key word) (setCommand init cmd))
    as (ps & U & V).
  fold init. now rewrite U, V.
Qed.

Lemma parseArgs_flag_takes_next_word_witness :
  positional (parseArgs ["add"; "--all"; "milk"; "eggs"]) = ["eggs"]
  /\ Get (flags (parseArgs ["add"; "--all"; "milk"])) "all" = "milk"
  /\ positional (parseArgs ["add"; "--all"; "milk"]) = [].
Proof.
  destruct (parseArgs_flag_takes_next_word "add" "all" "milk" ["eggs"]
              eq_refl eq_refl eq_refl) as [P E].
  split; [exact P|]. change ("--" +:+ "all") with "--all" in E.
  rewrite E. split; reflexivity.
Defined.

(** X5. A flag given as [--key=value] at the
    end of the command line sets the value of [key], whatever the
    arguments before it say about that flag. *)
Theorem parseArgs_last_value_wins (args : list string) (key value : string) :
  countChar "="%char key = O ->
  Get (flags (parseArgs (args ++ ["--" +:+ key +:+ String "="%char value])))
      key
  = value.
Proof.
  intros Z. unfold parseArgs.
  rewrite (loop_snoc (length args)); [| |exact (le_n _)].
  - rewrite (loop_key_value _ _ _ _ _ Z). unfold Get. simpl.
    now rewrite lookup_insert_eq.
  - apply HasPrefix_dashes. apply (HasPrefix_app "--").
Qed.

Lemma parseArgs_last_value_wins_witness :
  Get (flags (parseArgs ["recipe"; "r-1"; "--format"; "human";
                         "--format=json"])) "format"
  = "json".
Proof.
  exact (parseArgs_last_value_wins ["recipe"; "r-1"; "--format"; "human"]
           "format" "json" eq_refl).
Defined.

(** X6. When [-h] stands anywhere among the arguments,
    or [--help] stands last, [Run] shows the help text and calls no
    command, whatever command is named. *)
Theorem Run_help_switch (args : list string) :
  In "-h" args \/ last args = Some "--help" ->
  Run args = showHelp.
Proof.
  intros [M|L]; unfold Run.
  - assert (Has (flags (parseArgs args)) "h" = true) as ->.
    { unfold Has, parseArgs.
      now rewrite (loop_switch "h" (length args) eq_refl args (le_n _)). }
    now rewrite orb_true_r.
  - assert (Has (flags (parseArgs args)) "help" = true) as ->;
      [|reflexivity].
    apply last_Some in L as [before ->].
    unfold Has, parseArgs.
    rewrite (loop_snoc (length before)); [|reflexivity|exact (le_n _)].
    destruct (loop_key 1 "help" eq_refl) as (_ & _ & K).
    change "--help" with ("--" +:+ "help"). rewrite K. simpl.
    now rewrite lookup_insert_eq.
Qed.

Lemma Run_help_switch_witness :
  Run ["add"; "milk"; "-h"; "--list"; "l-1"] = showHelp.
Proof.
  apply (Run_help_switch ["add"; "milk"; "-h"; "--list"; "l-1"]).
  left. simpl. tauto.
Defined.

(** X7. The command is read from the first
    argument only: when the command line starts with a flag, no command
    is run, whatever follows, and [Run] shows the help text. *)
Theorem Run_flag_before_command (arg : string) (rest : list string) :
  Strings.HasPrefix arg "-" = true ->
  Run (arg :: rest) = showHelp.
Proof.
  intros D.
  assert (command (parseArgs (arg :: rest)) = EmptyString) as C.
  { unfold parseArgs.
    destruct (loop_cons 0 arg)
      as [(_ & P & _)|[(key & value & _ & _ & E)|[(key & _ & _ & E2 & E1 & E0)
         |[(key & _ & _ & E)|(I & _)]]]].
    - unfold plain in P. congruence.
    - rewrite E. now rewrite (loop_command (length rest)) by lia.
    - destruct rest as [|next rest]; [now rewrite E0|].
      destruct (plain_or_not next) as [N|N].
      + rewrite (E2 _ _ _ N). now rewrite (loop_command (length rest)) by lia.
      + rewrite (E1 _ _ _ N).
        now rewrite (loop_command (length (next :: rest))) by lia.
    - rewrite E. now rewrite (loop_command (length rest)) by lia.
    - contradiction. }
  unfold Run. rewrite C.
  now destruct (Has (flags (parseArgs (arg :: rest))) "help"
                || Has (flags (parseArgs (arg :: rest))) "h"
                || String.eqb EmptyString "help").
Qed.

Lemma Run_flag_before_command_witness :
  Run ["--list"; "l-1"; "items"] = showHelp.
Proof. exact (Run_flag_before_command "--list" ["l-1"; "items"] eq_refl). Defined.

End ParseArgsFacts.

(** ** Conversions *)

Section Conversions.
Context `{Runtime}.
Import Conv.

Lemma toInt_positive (v : JSON) :
  0 < toInt v ->
  (exists f, v = JNumber f)
  \/ (exists s, v = JString s /\ Strconv.Atoi s = Some (toInt v)).
Proof.
  destruct v as [|b|f|s|l|ms]; try (cbn; lia).
  - intros _. left. now exists f.
  - intros P. right. exists s. split; [reflexivity|].
    revert P. unfold toInt. cbn [Cli.toString].
    destruct (Cli.nonEmpty s); [|lia].
    destruct (Strconv.Atoi s); [reflexivity|lia].
Qed.

(** X8. [parseServings] returns the
    conversion of the first value that converts to a positive integer,
    and zero when there is none; it never returns a negative number.
    A value counts only if it is a number or a string that
    [strconv.Atoi] accepts: null, a boolean, a list, an object or a
    text such as 4 servings never does. *)
Theorem parseServings_first_positive (values : list JSON) :
  parseServings values =
    match List.find (fun v => 0 <? toInt v) values with
    | Some v => toInt v
    | None => 0
    end
  /\ 0 <= parseServings values
  /\ (0 < parseServings values ->
      exists v,
        In v values /\ toInt v = parseServings values
        /\ ((exists f, v = JNumber f)
            \/ exists s, v = JString s
                 /\ Strconv.Atoi s = Some (parseServings values))).
Proof.
  assert (parseServings values =
            match List.find (fun v => 0 <? toInt v) values with
            | Some v => toInt v
            | None => 0
            end) as E.
  { induction values as [|v rest IH]; [reflexivity|].
    cbn [List.find]. destruct (0 <? toInt v) eqn:P.
    - destruct v; cbn [parseServings]; try (now rewrite P).
      cbn in P. discriminate.
    - destruct v; cbn [parseServings]; try (now rewrite P). exact IH. }
  split; [exact E|].
  destruct (List.find (fun v => 0 <? toInt v) values) as [v|] eqn:F.
  - apply find_some in F as [I P]. apply Z.ltb_lt in P.
    split; [lia|]. intros _. exists v. split; [exact I|].
    split; [now rewrite E|]. rewrite E. now apply toInt_positive.
  - split; lia.
Qed.

Lemma lower_empty (mapLower : string -> string) :
  Strings.ToLower mapLower EmptyString = EmptyString.
Proof. reflexivity. Qed.


(** X10. For a command line that
    has set no format so far: [--format] at its end, with nothing after
    it, makes [parseOutputFormat] fail, asking for a value, while
    [--format=] with nothing after the equals sign is taken as no flag
    at all and the default decides. *)
Theorem parseOutputFormat_flag_without_value (mapLower : string -> string)
    (args : list string) (defaultFormat : string) :
  Args.Has (Args.flags (Args.parseArgs args)) "format" = false ->
  parseOutputFormat mapLower
    (Args.flags (Args.parseArgs (args ++ ["--format"]))) defaultFormat
  = inr FormatRequiresValue
  /\ parseOutputFormat mapLower
       (Args.flags (Args.parseArgs (args ++ ["--format="]))) defaultFormat
     = parseOutputFormat mapLower Args.noFlags defaultFormat.
Proof.
  intros N. unfold Args.Has in N. apply orb_false_elim in N as [B V].
  unfold Cli.nonEmpty in V. apply negb_false_iff, String.eqb_eq in V.
  unfold Args.parseArgs.
  rewrite !(loop_snoc (length args)) by (reflexivity || exact (le_n _)).
  destruct (loop_key 1 "format" eq_refl) as (_ & _ & K).
  change "--format" with ("--" +:+ "format"). rewrite K.
  change "--format=" with ("--" +:+ "format" +:+ String "="%char EmptyString).
  rewrite (loop_key_value 1 "format" EmptyString [] _ eq_refl).
  cbn [Args.loop]. unfold parseOutputFormat, Args.Get, Args.Has.
  cbn [Args.flags Args.setBool Args.setValue Args.Values Args.Bools
       Args.noFlags].
  fold (Args.parseArgs args).
  rewrite !lookup_insert_eq, !lookup_empty. cbn [default].
  rewrite V, B, lower_empty. split; reflexivity.
Qed.

Lemma parseOutputFormat_flag_without_value_witness :
  parseOutputFormat (fun s => s)
    (Args.flags (Args.parseArgs ["recipe"; "r-1"; "--format"])) "json"
  = inr FormatRequiresValue
  /\ parseOutputFormat (fun s => s)
       (Args.flags (Args.parseArgs ["recipe"; "r-1"; "--format="])) "json"
     = inl ("json", false).
Proof.
  exact (parseOutputFormat_flag_without_value (fun s => s) ["recipe"; "r-1"]
           "json" eq_refl).
Defined.

End Conversions.

(** ** The stored configuration *)

Section StoreFacts.
Context `{Store.Codec} `{Runtime}.
Variable os : Store.Faults.
Import Store.

Lemma isLoggedIn_no_file : isLoggedIn os None = false.
Proof. unfold isLoggedIn, loadConfig, ReadFile. now destruct (readErr os). Qed.

(** What [saved] leaves on the disk. *)
Lemma saved_outcome (cfg : Config) (d : Disk) :
  (saved os cfg d = (0, Some (json_MarshalIndent cfg))
   /\ mkdirErr os = None /\ writeErr os = None)
  \/ (saved os cfg d = (1, d) /\ mkdirErr os <> None)
  \/ (exists e d', saved os cfg d = (1, d') /\ writeErr os = Some (e, d')).
Proof.
  unfold saved, saveConfig.
  destruct (mkdirErr os) as [e|]; [right; left; now split|].
  destruct (writeErr os) as [[e d']|]; [|left; now repeat split].
  right. right. now exists e, d'.
Qed.

(** X11. [logoutCommand] returns 0 or 1. After it
    returned 0 nobody is logged in and [getBringClient] refuses; when
    nobody was logged in before, it leaves the disk as it is, a file with
    preferences included; when somebody was, the whole file is gone,
    preferences included. It returns 1 only when the file could not be
    removed, and then the disk is as before. *)
Theorem logoutCommand_outcome (d : Disk) (url : string) :
  (logoutCommand os d = (0, d) /\ isLoggedIn os d = false
   /\ getBringClient os url d = None)
  \/ (logoutCommand os d = (0, None) /\ isLoggedIn os d = true
      /\ removeErr os = None
      /\ isLoggedIn os None = false /\ getBringClient os url None = None)
  \/ (logoutCommand os d = (1, d) /\ isLoggedIn os d = true
      /\ removeErr os <> None).
Proof.
  unfold logoutCommand. destruct (isLoggedIn os d) eqn:L; cbn [negb].
  - right. destruct d as [data|]; [|now rewrite isLoggedIn_no_file in L].
    unfold clearConfig. destruct (removeErr os) as [e|].
    + right. now repeat split.
    + left. repeat split; try apply isLoggedIn_no_file.
      unfold getBringClient.
      pose proof isLoggedIn_no_file as N. unfold isLoggedIn in N.
      now rewrite N.
  - left. repeat split. unfold getBringClient.
    unfold isLoggedIn in L. now rewrite L.
Qed.


(** X13. What [saveConfig] has written
    without error, replacing whatever the file held, [loadConfig] reads
    back as the same configuration, provided the encoding of that
    configuration decodes to it and the file can be read; [isLoggedIn]
    then holds exactly when its token is not empty, and after a
    [clearConfig] without error the file is gone and [loadConfig] gives
    the empty configuration. *)
Theorem saveConfig_then_loadConfig (cfg : Config) (d d1 : Disk) :
  readErr os = false ->
  json_UnmarshalConfig (json_MarshalIndent cfg) = Some cfg ->
  saveConfig os cfg d = (None, d1) ->
  loadConfig os d1 = cfg
  /\ isLoggedIn os d1 = Cli.nonEmpty (AccessToken cfg)
  /\ forall d2, clearConfig os d1 = (None, d2) ->
       d2 = None /\ loadConfig os d2 = noConfig /\ isLoggedIn os d2 = false.
Proof.
  intros R T S. unfold saveConfig in S.
  destruct (mkdirErr os); [discriminate S|].
  destruct (writeErr os) as [[e remains]|]; [discriminate S|].
  injection S as <-.
  assert (loadConfig os (Some (json_MarshalIndent cfg)) = cfg) as L
    by (unfold loadConfig, ReadFile; now rewrite R, T).
  split; [exact L|]. split; [unfold isLoggedIn; now rewrite L|].
  intros d2 C. unfold clearConfig in C.
  destruct (removeErr os); [discriminate C|]. injection C as <-.
  split; [reflexivity|]. unfold isLoggedIn, loadConfig, ReadFile.
  now destruct (readErr os).
Qed.

Lemma loginCommand_saved (fuel : nat) (flags : Args.FlagSet) (env : Env)
    (d : Disk) (r : Z * Disk) :
  loginCommand os fuel flags env d = Some r ->
  r = (1, d) \/ exists cfg, r = saved os cfg d /\ loginSaved env cfg.
Proof.
  unfold loginCommand.
  destruct (Args.Has flags "browser" || Args.Has flags "b").
  - destruct (BrowserAuth.BrowserLoginWithIntercept fuel (browser env))
      as [[result|e]|] eqn:B; [| |discriminate].
    + destruct (getUserAccount env _) as [e|account] eqn:G.
      * intros [= <-]. now left.
      * intros [= <-]. right. eexists. split; [reflexivity|].
        eexists _, account. split; [exact G|]. repeat split.
        exact (proj1 (login_result fuel (browser env) result (or_introl B))).
    + intros [= <-]. now left.
  - destruct (if Cli.nonEmpty (Args.Get flags "token")
              then Some (Args.Get flags "token") else prompt env)
      as [token|]; [|intros [= <-]; now left].
    destruct (Cli.loginCommand token (now env)) as [| | | |token' userUUID]
      eqn:T; try (intros [= <-]; now left).
    destruct (getUserAccount env _) as [e|account] eqn:G.
    + intros [= <-]. now left.
    + intros [= <-]. right. eexists. split; [reflexivity|].
      eexists _, account. split; [exact G|]. repeat split.
      cbn [AccessToken]. revert T. unfold Cli.loginCommand.
      destruct (Cli.nonEmpty token) eqn:N; cbn [negb]; [|discriminate].
      destruct (Cli.decodeJWT token) as [decoded|]; [|discriminate].
      destruct (negb (Cli.nonEmpty (Cli.Sub decoded))); [discriminate|].
      destruct (Cli.tokenExpired decoded (now env)); [discriminate|].
      intros [= <- _]. intros ->. discriminate.
Qed.

(** X14. A login returns 0 or 1. One that returns 1
    leaves the disk as it is, unless the write itself failed. One that
    returns 0 has written the encoding of a configuration whose token is
    not empty, whose user ids are those of the account the service
    returned for that token, and whose servings, defaultList and locale
    are unset: preferences stored before are lost. *)
Theorem loginCommand_outcome (fuel : nat) (flags : Args.FlagSet) (env : Env)
    (d : Disk) (code : Z) (d' : Disk) :
  loginCommand os fuel flags env d = Some (code, d') ->
  (code = 1 /\ (d' = d \/ exists e, writeErr os = Some (e, d')))
  \/ (code = 0
      /\ exists cfg options account,
           d' = Some (json_MarshalIndent cfg)
           /\ getUserAccount env options = inr account
           /\ Bring.AccessToken options = AccessToken cfg
           /\ Bring.URL options = baseURL env
           /\ AccessToken cfg <> EmptyString
           /\ UserUUID cfg = Bring.accountUserUUID account
           /\ PublicUserUUID cfg = Bring.accountPublicUserUUID account
           /\ Servings cfg = 0 /\ DefaultList cfg = EmptyString
           /\ Locale cfg = EmptyString).
Proof.
  intros L. apply loginCommand_saved in L as [[= -> ->]|(cfg & Q & S)].
  - left. split; [reflexivity|now left].
  - destruct (saved_outcome cfg d) as [(R & _)|[(R & _)|(e & d1 & R & W)]];
      rewrite R in Q; injection Q as -> ->.
    + right. split; [reflexivity|].
      destruct S as (options & account & S). now exists cfg, options, account.
    + left. split; [reflexivity|now left].
    + left. split; [reflexivity|]. right. now exists e.
Qed.

(** X15. After a login that returned 0, when the file
    reads back as it was written, the user is logged in for
    [isLoggedIn], but [getBringClient] hands out a client only when the
    account the service returned had a user id: the user id of the
    credential itself is not what is stored. *)
Theorem login_then_client (fuel : nat) (flags : Args.FlagSet) (env : Env)
    (d d' : Disk) (url : string) :
  loginCommand os fuel flags env d = Some (0, d') ->
  readErr os = false ->
  exists cfg options account,
    d' = Some (json_MarshalIndent cfg)
    /\ getUserAccount env options = inr account
    /\ (json_UnmarshalConfig (json_MarshalIndent cfg) = Some cfg ->
        loadConfig os d' = cfg
        /\ isLoggedIn os d' = true
        /\ (getBringClient os url d' = None
            <-> Bring.accountUserUUID account = EmptyString)).
Proof.
  intros L R. apply loginCommand_saved in L as [[=]|(cfg & Q & S)].
  destruct (saved_outcome cfg d) as [(E & _)|[(E & _)|(e & d1 & E & W)]];
    rewrite E in Q; [injection Q as ->|discriminate Q|discriminate Q].
  destruct S as (options & account & G & _ & _ & T & U & _).
  exists cfg, options, account. split; [reflexivity|]. split; [exact G|].
  intros B.
  assert (loadConfig os (Some (json_MarshalIndent cfg)) = cfg) as Load
    by (unfold loadConfig, ReadFile; now rewrite R, B).
  split; [exact Load|]. unfold isLoggedIn, getBringClient. rewrite Load.
  assert (Cli.nonEmpty (AccessToken cfg) = true) as ->
    by (now apply nonEmpty_true).
  split; [reflexivity|]. cbn [negb orb]. rewrite <- U.
  unfold Cli.nonEmpty. destruct (String.eqb_spec (UserUUID cfg) EmptyString);
    cbn [negb]; split; intros; congruence.
Qed.

End StoreFacts.

Lemma tokenLogin_run :
  Store.loginCommand (H := ReferenceCodec.codec) Store.noFaults
    (H0 := Reference.runtime) 302 Cases.tokenFlags Cases.tokenEnv
    Cases.preferences
  = Some (0, Some (ReferenceCodec.MarshalIndent
                     (Store.mkConfig Cases.userToken "user-uuid" "public-uuid"
                        "Tester" "test@example.com" 0 EmptyString
                        EmptyString))).
Proof. vm_compute. reflexivity. Qed.

(** A login by token over stored preferences: it returns 0 and the file
    written holds no servings any more. *)
Lemma loginCommand_outcome_witness :
  exists cfg,
    Some (ReferenceCodec.MarshalIndent
            (Store.mkConfig Cases.userToken "user-uuid" "public-uuid"
               "Tester" "test@example.com" 0 EmptyString EmptyString))
    = Some (ReferenceCodec.MarshalIndent cfg)
    /\ Store.AccessToken cfg <> EmptyString /\ Store.Servings cfg = 0.
Proof.
  destruct (loginCommand_outcome (H := ReferenceCodec.codec)
              (H0 := Reference.runtime) Store.noFaults 302 Cases.tokenFlags
              Cases.tokenEnv Cases.preferences 0 _ tokenLogin_run)
    as [[C _]|(_ & cfg & options & account & E & _ & _ & _ & T & _ & _ & S & _)].
  - discriminate C.
  - exists cfg. repeat split; assumption.
Defined.

Lemma emptyAccount_run :
  Store.loginCommand (H := ReferenceCodec.codec) Store.noFaults
    (H0 := Reference.runtime) 302 Cases.tokenFlags Cases.emptyAccountEnv None
  = Some (0, Some (ReferenceCodec.MarshalIndent
                     (Store.mkConfig Cases.userToken EmptyString EmptyString
                        EmptyString EmptyString 0 EmptyString EmptyString))).
Proof. vm_compute. reflexivity. Qed.

Lemma emptyAccount_reads_back :
  ReferenceCodec.UnmarshalConfig
    (ReferenceCodec.MarshalIndent
       (Store.mkConfig Cases.userToken EmptyString EmptyString
          EmptyString EmptyString 0 EmptyString EmptyString))
  = Some (Store.mkConfig Cases.userToken EmptyString EmptyString
            EmptyString EmptyString 0 EmptyString EmptyString).
Proof. vm_compute. reflexivity. Qed.

Lemma emptyAccount_client :
  Store.getBringClient (H := ReferenceCodec.codec) Store.noFaults EmptyString
    (Some (ReferenceCodec.MarshalIndent
             (Store.mkConfig Cases.userToken EmptyString EmptyString
                EmptyString EmptyString 0 EmptyString EmptyString)))
  = None.
Proof. vm_compute. reflexivity. Qed.

(** A login against a service that answers with an account without ids:
    it returns 0, and the account it stored is the one of that answer. *)
Lemma login_then_client_witness :
  exists cfg options account,
    Some (ReferenceCodec.MarshalIndent
            (Store.mkConfig Cases.userToken EmptyString EmptyString
               EmptyString EmptyString 0 EmptyString EmptyString))
    = Some (ReferenceCodec.MarshalIndent cfg)
    /\ Cases.emptyService options = inr account.
Proof.
  destruct (login_then_client (H := ReferenceCodec.codec)
              (H0 := Reference.runtime) Store.noFaults 302 Cases.tokenFlags
              Cases.emptyAccountEnv None _ EmptyString emptyAccount_run
              eq_refl)
    as (cfg & options & account & E & G & _).
  exists cfg, options, account. split; assumption.
Defined.

(** ** More on the browser login *)

Section BrowserFacts.
Context `{Runtime}.
Import Playwright.
Import BrowserAuth.
Import Assembly.
Import ScanFacts.

(** A subject whose last piece is empty ends in a colon. *)
Lemma lastPart_empty (sub : string) :
  sub <> EmptyString ->
  Go.lastPart (Go.Split sub ":"%char) = EmptyString ->
  exists prefix, sub = prefix +:+ ":".
Proof.
  unfold Go.lastPart.
  induction sub as [|c t IH]; intros N S; [now destruct N|].
  assert (t <> EmptyString ->
          List.last (Go.Split t ":"%char) EmptyString = EmptyString ->
          exists prefix, String c t = prefix +:+ ":") as Step.
  { intros Nt L. destruct (IH Nt L) as [prefix ->].
    now exists (String c prefix). }
  cbn [Go.Split] in S.
  pose proof (Split_nonempty t ":"%char) as NE.
  destruct (Go.Split t ":"%char) as [|h r] eqn:Q; [contradiction|].
  destruct (Ascii.eqb_spec c ":"%char) as [->|Nc].
  - destruct t as [|d t']; [now exists EmptyString|].
    apply Step; [discriminate|]. exact S.
  - destruct r as [|h' r']; [discriminate S|].
    destruct t as [|d t']; [discriminate Q|].
    apply Step; [discriminate|]. exact S.
Qed.

(** X16. Whatever the browser, the responses and the
    storage are: a result that [BrowserLoginWithIntercept] or
    [BrowserLogin] returns without error has a token that is not empty,
    and its user id is empty in one case only, a token that decodes to a
    subject ending in a colon. *)
Theorem browser_login_result (fuel : nat) (w : World)
    (r : BrowserAuthResult) :
  BrowserLoginWithIntercept fuel w = Some (Ok r)
  \/ BrowserLogin fuel w = Some (Ok r) ->
  AccessToken r <> EmptyString
  /\ (UserUUID r = EmptyString ->
      exists claims,
        Cli.decodeJWT (AccessToken r) = Ok claims
        /\ Cli.Sub claims <> EmptyString
        /\ Cli.subjectUserUUID (Cli.Sub claims) = EmptyString
        /\ exists prefix, Cli.Sub claims = prefix +:+ ":").
Proof.
  intros L. destruct (login_result fuel w r L) as [T U].
  split; [exact T|]. intros E.
  destruct (U E) as (claims & D & N & S). exists claims.
  repeat split; try assumption. now apply lastPart_empty.
Qed.

(** X17. While no page of the browser
    shows the application, [BrowserLoginWithIntercept] ends in login
    timed out, also when the auth response with the token was seen: the
    channel is read only after the login has been detected. *)
Theorem login_timeout_ignores_payload (w : World) :
  launches w -> steady (lag w) ->
  (forall k, loginDetected (views w k) = false) ->
  BrowserLoginWithIntercept 302 w = Some (Err ErrLoginTimedOut).
Proof.
  intros (E1 & E2 & E3 & E4) T N.
  assert (start w + loginTimeout < clockFrom (lag w) 0 (start w) 301) as Late.
  { pose proof (clockFrom_advance (lag w) 0 (start w) 301 T) as A.
    unfold loginTimeout, pollInterval in *. lia. }
  destruct (waitForLogin_ends (views w) (start w + loginTimeout) (lag w)
              302 0 (start w) 301 ltac:(lia) Late) as [r E].
  destruct (waitForLogin_inv _ _ _ _ _ _ _ E)
    as (n & _ & _ & [[_ D]|[-> _]]); [now rewrite N in D|].
  unfold BrowserLoginWithIntercept. now rewrite E1, E2, E3, E4, E.
Qed.

Lemma scan_opaque (items : list JS.value) (r : scanResult) :
  Forall (fun item => forall s, item = JS.Val (JString s) -> opaque s) items ->
  scan items r = r.
Proof.
  induction 1 as [|item rest O _ IH]; [reflexivity|].
  cbn [scan]. destruct item as [|[]]; try exact IH.
  destruct (JS.isEmpty s); [exact IH|].
  destruct (O s eq_refl) as [B P]. rewrite P.
  unfold adoptJwt. rewrite (jwtMatch_backslash _ B).
  now destruct (JS.truthy (accessToken r)).
Qed.

Lemma itemsOf_values (st : Storage) (P : string -> Prop) :
  Forall P (List.map snd st) ->
  Forall (fun item => forall s, item = JS.Val (JString s) -> P s)
    (JS.itemsOf st).
Proof.
  intros F. unfold JS.itemsOf. apply List.Forall_forall. intros item I s ->.
  apply in_map_iff in I as (kv & G & I). unfold JS.getItem in G.
  destruct (List.find _ st) as [kv'|] eqn:Q; [|discriminate].
  injection G as <-. apply find_some in Q as [I' _].
  rewrite List.Forall_forall in F. apply F. apply in_map_iff. now exists kv'.
Qed.

(** X18. The pattern of the scan asks for a
    backslash before each dot, so a token stored as plain text is not
    found: on a page whose stored values hold no backslash and are no
    JSON, the scan returns nothing, and [extractAuthFromStorage] ends in
    the extraction failure unless the canonical keys hold a token. *)
Theorem scan_pattern_needs_backslash (p : Page) :
  evaluateFails p = false ->
  Forall opaque (storedValues p) ->
  extractAuthFromStorageFallback p = Ok noResult
  /\ (stored p "accessToken" = EmptyString ->
      extractAuthFromStorage p = Err ErrExtractAuth).
Proof.
  intros E F.
  assert (extractAuthFromStorageFallback p = Ok noResult) as Fb.
  { unfold extractAuthFromStorageFallback, fallbackScript. rewrite E.
    rewrite scan_opaque; [reflexivity|].
    unfold storedValues in F. rewrite map_app in F.
    apply Forall_app in F as [L S].
    apply Forall_app. split; now apply itemsOf_values. }
  split; [exact Fb|]. intros T.
  rewrite (extract_finalizes p E). unfold completed. rewrite Fb, T.
  reflexivity.
Qed.

Lemma step_refl (a : JS.value) : step a a.
Proof. now left. Qed.

Lemma step_trans (a b c : JS.value) : step a b -> step b c -> step a c.
Proof.
  intros [->|[A B]] [->|[B' C]]; try (now left); try (right; now split).
Qed.

Lemma step_setIfUnset (v field : JS.value) : step field (setIfUnset v field).
Proof.
  unfold setIfUnset, step. destruct (JS.truthy v) eqn:V;
    destruct (JS.truthy field) eqn:F; cbn [andb negb]; auto.
Qed.

Lemma grew_refl (r : scanResult) : grew r r.
Proof. repeat split; apply step_refl. Qed.

Lemma grew_trans (a b c : scanResult) : grew a b -> grew b c -> grew a c.
Proof.
  intros (A1 & A2 & A3 & A4 & A5) (B1 & B2 & B3 & B4 & B5).
  repeat split; eapply step_trans; eassumption.
Qed.

Lemma grew_trySet (obj : JS.value) (r : scanResult) :
  grew r (snd (trySet obj r)).
Proof.
  unfold trySet.
  destruct (negb (JS.truthy obj) || negb (JS.isObject obj));
    [apply grew_refl|].
  cbn [snd]. repeat split; apply step_setIfUnset.
Qed.

Lemma grew_adoptJwt (text : string) (r : scanResult) :
  grew r (adoptJwt text r).
Proof.
  unfold adoptJwt. destruct (JS.truthy (accessToken r)) eqn:T;
    [apply grew_refl|].
  destruct (JS.jwtMatch text) as [m|] eqn:M; [|apply grew_refl].
  repeat split; try apply step_refl. right. split; [exact T|].
  cbn. unfold JS.jwtMatch in M.
  assert (forall s m', JS.jwtAt s = Some m' -> m' <> EmptyString) as At.
  { intros s m' A. unfold JS.jwtAt in A.
    destruct s as [|c1 [|c2 [|c3 r0]]]; try discriminate.
    destruct (Ascii.eqb c1 "e" && Ascii.eqb c2 "y" && Ascii.eqb c3 "J");
      [|discriminate].
    destruct (JS.tokenRun r0) as [a r1].
    destruct (JS.isEmpty a); [discriminate|].
    destruct (JS.separated r1) as [[b r2]|]; [|discriminate].
    destruct (JS.separated r2) as [[c r3]|]; [|discriminate].
    injection A as <-. discriminate. }
  assert (m <> EmptyString) as N.
  { clear T. induction text as [|c t IH].
    - cbn in M. discriminate.
    - change (match JS.jwtAt (String c t) with
              | Some m => Some m
              | None => JS.jwtMatch t
              end = Some m) in M.
      destruct (JS.jwtAt (String c t)) as [m'|] eqn:A.
      + injection M as <-. exact (At _ _ A).
      + exact (IH M). }
  destruct m; [now destruct N|reflexivity].
Qed.

(** X19. Through the scan of the storage, each of
    the five members of the result either stays as it is or goes from a
    falsy value to a truthy one: a member that is set is never
    overwritten, and nothing empty is ever stored. *)
Theorem scan_never_overwrites (items : list JS.value) (r : scanResult) :
  grew r (scan items r).
Proof.
  revert r. induction items as [|item rest IH]; intros r;
    [apply grew_refl|].
  cbn [scan]. destruct item as [|[]]; try apply IH.
  destruct (JS.isEmpty s); [apply IH|].
  pose proof (grew_adoptJwt s r) as A.
  destruct (JSON_parse s) as [parsed|];
    [|exact (grew_trans _ _ _ A (IH _))].
  pose proof (grew_trySet (JS.Val parsed) (adoptJwt s r)) as T.
  destruct (trySet (JS.Val parsed) (adoptJwt s r)) as [found r2].
  cbn [snd] in T.
  destruct (found && JS.truthy (accessToken r2) && JS.truthy (userUuid r2)).
  - exact (grew_trans _ _ _ A T).
  - exact (grew_trans _ _ _ A (grew_trans _ _ _ T (IH _))).
Qed.

Lemma unmarshalStrings_notText (members : list (string * JS.value)) :
  existsb (fun kv => notText (snd kv)) members = true ->
  unmarshalStrings members = None.
Proof.
  induction members as [|[k v] rest IH]; [discriminate|].
  cbn [existsb snd unmarshalStrings]. intros E.
  destruct (unmarshalStrings rest) as [data|]; [|reflexivity].
  apply orb_prop in E as [N|N]; [|now specialize (IH N)].
  destruct v as [|[| | [] | | |]]; try discriminate; reflexivity.
Qed.

(** X20. When the scan has adopted a value
    that is no text (a number, true, a list or an object, which are
    truthy in the page) for any member, the result of the scan cannot be
    read as strings: [extractAuthFromStorageFallback] returns an error
    and [extractAuthFromStorage] goes on with the canonical keys alone,
    dropping a token the scan had found. *)
Theorem fallback_rejects_non_string (p : Page) :
  evaluateFails p = false ->
  existsb (fun kv => notText (snd kv)) (entries (fallbackScript p)) = true ->
  extractAuthFromStorageFallback p = Err ErrUnmarshal
  /\ extractAuthFromStorage p =
       finalizeAuthResult
         {| AccessToken := stored p "accessToken";
            UserUUID := stored p "userUuid";
            PublicUserUUID := stored p "publicUserUuid";
            UserName := stored p "userName";
            Email := stored p "email" |}.
Proof.
  intros E N.
  assert (extractAuthFromStorageFallback p = Err ErrUnmarshal) as Fb.
  { unfold extractAuthFromStorageFallback.
    now rewrite E, (unmarshalStrings_notText _ N). }
  split; [exact Fb|]. rewrite (extract_finalizes p E).
  unfold completed. rewrite Fb.
  now destruct (JS.isEmpty _ || JS.isEmpty _).
Qed.

Lemma accepted_token (r : Response.t) (payload : authResponsePayload) :
  accepted r = Some payload ->
  JS.isEmpty (Payload.AccessToken payload) = false.
Proof.
  unfold accepted.
  destruct ((Response.Status r =? 200)
            && Go.Contains (Response.URL r) "/bringauth"); [|discriminate].
  destruct (Response.JSON r) as [q|]; [|discriminate].
  destruct (JS.isEmpty (Payload.AccessToken q)) eqn:T; [discriminate|].
  now intros [= <-].
Qed.

(** X21. In the earlier revision the
    handler keeps the last payload it accepted, and once the login is
    detected the login returns that payload as it is, without a look at
    the storage and without a check of the user id. *)
Theorem legacy_login_reads_last_payload (fuel : nat) (w : World)
    (payload : authResponsePayload) :
  launches w ->
  BrowserAuthLegacy.waitForLogin fuel (views w) (lag w)
    (start w + loginTimeout) 0 (start w) = Some (Ok tt) ->
  lastAccepted (inTime (waitFrom w) 0 (responses w)) = Some payload ->
  BrowserAuthLegacy.BrowserLoginWithIntercept fuel w
  = Some (Ok (ofPayload payload)).
Proof.
  intros (E1 & E2 & E3 & E4) W L.
  unfold BrowserAuthLegacy.BrowserLoginWithIntercept.
  rewrite E1, E2, E3, E4, W. cbn [orReturn].
  rewrite legacy_last_valid_wins, L.
  assert (JS.isEmpty (Payload.AccessToken payload) = false) as ->;
    [|reflexivity].
  unfold lastAccepted in L. apply last_Some in L as [l' L].
  assert (payload ∈ omap accepted (inTime (waitFrom w) 0 (responses w))) as I
    by (rewrite L; apply elem_of_app; right; constructor).
  apply list_elem_of_omap in I as (r & _ & A). exact (accepted_token _ _ A).
Qed.

Lemma rawToken_opaque :
  Forall (opaque (H := Reference.runtime)) (storedValues Cases.rawTokenTab).
Proof. repeat constructor. Qed.

End BrowserFacts.

Lemma scan_pattern_needs_backslash_witness :
  BrowserAuth.extractAuthFromStorageFallback (H := Reference.runtime)
    Cases.rawTokenTab = Ok BrowserAuth.noResult
  /\ BrowserAuth.extractAuthFromStorage (H := Reference.runtime)
       Cases.rawTokenTab = Err ErrExtractAuth.
Proof.
  destruct (scan_pattern_needs_backslash (H := Reference.runtime)
              Cases.rawTokenTab eq_refl rawToken_opaque) as [F X].
  split; [exact F|]. now apply X.
Defined.

Lemma browserLogin_run :
  BrowserAuth.BrowserLoginWithIntercept (H := Reference.runtime) 302
    (Store.browser Cases.browserEnv)
  = Some (Ok (BrowserAuth.mkResult "first" "user-uuid" "p-1" "Ann"
                EmptyString)).
Proof. vm_compute. reflexivity. Qed.

Lemma browser_login_result_witness :
  "first" <> EmptyString
  /\ ("user-uuid" = EmptyString ->
      exists claims,
        Cli.decodeJWT (H := Reference.runtime) "first" = Ok claims
        /\ Cli.Sub claims <> EmptyString
        /\ Cli.subjectUserUUID (Cli.Sub claims) = EmptyString
        /\ exists prefix, Cli.Sub claims = prefix +:+ ":").
Proof.
  exact (browser_login_result (H := Reference.runtime) 302
           (Store.browser Cases.browserEnv) _ (or_introl browserLogin_run)).
Defined.

Lemma stuckRun_steady : Assembly.steady (BrowserAuth.lag Cases.stuckRun).
Proof. intros k. change (0 <= 20). lia. Qed.

Lemma login_timeout_ignores_payload_witness :
  BrowserAuth.BrowserLoginWithIntercept (H := Reference.runtime) 302
    Cases.stuckRun
  = Some (Err ErrLoginTimedOut).
Proof.
  apply (login_timeout_ignores_payload (H := Reference.runtime) Cases.stuckRun).
  - repeat split.
  - exact stuckRun_steady.
  - intros k. reflexivity.
Defined.

Lemma numericId_scan :
  existsb (fun kv => ScanFacts.notText (snd kv))
    (BrowserAuth.entries
       (BrowserAuth.fallbackScript (H := Reference.runtime)
          Cases.numericIdTab))
  = true.
Proof. vm_compute. reflexivity. Qed.

(** A stored object with a token and a number as user id: the token is
    lost with the rest and the extraction fails. *)
Lemma fallback_rejects_non_string_witness :
  BrowserAuth.extractAuthFromStorageFallback (H := Reference.runtime)
    Cases.numericIdTab = Err ErrUnmarshal
  /\ BrowserAuth.extractAuthFromStorage (H := Reference.runtime)
       Cases.numericIdTab = Err ErrExtractAuth.
Proof.
  destruct (fallback_rejects_non_string (H := Reference.runtime)
              Cases.numericIdTab eq_refl numericId_scan) as [F X].
  split; [exact F|]. rewrite X. reflexivity.
Defined.

Lemma twoEarly_wait :
  BrowserAuthLegacy.waitForLogin 302 (BrowserAuth.views Cases.twoEarly)
    (BrowserAuth.lag Cases.twoEarly)
    (BrowserAuth.start Cases.twoEarly + BrowserAuth.loginTimeout) 0
    (BrowserAuth.start Cases.twoEarly)
  = Some (Ok tt).
Proof. vm_compute. reflexivity. Qed.

Lemma twoEarly_last :
  Assembly.lastAccepted
    (BrowserAuth.inTime (BrowserAuth.waitFrom Cases.twoEarly) 0
       (BrowserAuth.responses Cases.twoEarly))
  = Some (BrowserAuth.Payload.mkPayload "Ann" "u-1" "p-1" "second" "r-2").
Proof. vm_compute. reflexivity. Qed.

(** Of two auth responses before the login is detected, the earlier
    revision returns the second. *)
Lemma legacy_login_reads_last_payload_witness :
  BrowserAuthLegacy.BrowserLoginWithIntercept 302 Cases.twoEarly
  = Some (Ok (BrowserAuth.mkResult "second" "u-1" "p-1" "Ann" EmptyString)).
Proof.
  apply (legacy_login_reads_last_payload 302 Cases.twoEarly
           (BrowserAuth.Payload.mkPayload "Ann" "u-1" "p-1" "second" "r-2")).
  - repeat split.
  - exact twoEarly_wait.
  - exact twoEarly_last.
Defined.

(** ** Amounts and ingredients of a recipe *)

Lemma span_app_break (p : ascii -> bool) (a r : string) :
  Recipe.allOf p a = true -> Recipe.startsWith p r = false ->
  Recipe.span p (a +:+ r) = (a, r).
Proof.
  intros A R. induction a as [|c a IH].
  - change (Recipe.span p r = (EmptyString, r)).
    destruct r as [|d r]; [reflexivity|].
    cbn [Recipe.span Recipe.startsWith] in R |- *. now rewrite R.
  - cbn [Recipe.allOf] in A. apply andb_prop in A as [C A].
    change (Recipe.span p (String c (a +:+ r)) = (String c a, r)).
    cbn [Recipe.span]. now rewrite C, (IH A).
Qed.

Lemma span_spec (p : ascii -> bool) (s a r : string) :
  Recipe.span p s = (a, r) ->
  s = a +:+ r /\ Recipe.allOf p a = true /\ Recipe.startsWith p r = false.
Proof.
  revert a r. induction s as [|c s IH]; intros a r E.
  - cbn [Recipe.span] in E. injection E as <- <-. now repeat split.
  - cbn [Recipe.span] in E. destruct (p c) eqn:C.
    + destruct (Recipe.span p s) as [a' r'] eqn:S. injection E as <- <-.
      destruct (IH _ _ eq_refl) as (-> & A & R).
      cbn [Recipe.allOf]. rewrite C, A. now repeat split.
    + injection E as <- <-. cbn [Recipe.allOf Recipe.startsWith].
      now rewrite C.
Qed.

Lemma blank_not_amount (c : ascii) :
  Recipe.isBlank c = true -> Recipe.isAmount c = false.
Proof.
  destruct c as [[] [] [] [] [] [] [] []]; vm_compute; intros E;
    try reflexivity; discriminate E.
Qed.

Lemma blank_then (gap rest : string) :
  Recipe.allOf Recipe.isBlank gap = true ->
  Recipe.startsWith Recipe.isAmount rest = false ->
  Recipe.startsWith Recipe.isAmount (gap +:+ rest) = false.
Proof.
  intros G R. destruct gap as [|c gap]; [exact R|].
  cbn [Recipe.allOf] in G. apply andb_prop in G as [C _].
  exact (blank_not_amount c C).
Qed.

Lemma HasPrefix_one (s : string) (c : ascii) :
  Strings.HasPrefix s (String c EmptyString) = true ->
  exists t, s = String c t.
Proof.
  destruct s as [|d t]; [discriminate|]. cbn [Strings.HasPrefix].
  intros E. apply andb_prop in E as [E _]. apply Ascii.eqb_eq in E as ->.
  now exists t.
Qed.

Lemma TrimSpace_head (c : ascii) (t : string) :
  Strings.spaceAt (String c t) = O ->
  Strings.TrimSpace (String c t) = String c (Strings.trimRight t).
Proof.
  intros S. unfold Strings.TrimSpace.
  assert (Strings.trimLeft (String.length (String c t)) (String c t)
          = String c t) as L.
  { cbn [String.length Strings.trimLeft]. now rewrite S. }
  rewrite L. cbn [Strings.trimRight]. unfold Strings.allSpace. now rewrite L.
Qed.

Lemma dash_kept (t : string) :
  Strings.HasPrefix (Strings.TrimSpace (String "-" t)) "-" = true.
Proof.
  rewrite TrimSpace_head; [reflexivity|].
  destruct t as [|d [|e u]]; reflexivity.
Qed.

Lemma slash_kept (t : string) :
  Strings.HasPrefix (Strings.TrimSpace (String "/" t)) "/" = true.
Proof.
  rewrite TrimSpace_head; [reflexivity|].
  destruct t as [|d [|e u]]; reflexivity.
Qed.

Lemma ReplaceAll_none (s : string) (old new : ascii) :
  Ascii.eqb new old = false -> countChar old (Strings.ReplaceAll s old new) = O.
Proof.
  intros N. induction s as [|c s IH]; [reflexivity|].
  cbn [Strings.ReplaceAll countChar]. destruct (Ascii.eqb c old) eqn:C.
  - now rewrite N.
  - now rewrite C.
Qed.

Section RecipeFacts.
Context `{Runtime}.
Import Recipe.

(** X22. A range or a fraction is never scaled:
    when the digits, points and commas at the head of a spec are
    followed, after any blanks, by a minus sign or a slash, [scaleSpec]
    returns the spec as it is, whatever the scale. *)
Theorem scaleSpec_keeps_ranges (amount gap tail : string)
    (scale : Go.float64) :
  allOf isAmount amount = true -> allOf isBlank gap = true ->
  Strings.HasPrefix tail "-" || Strings.HasPrefix tail "/" = true ->
  scaleSpec (amount +:+ gap +:+ tail) scale = amount +:+ gap +:+ tail.
Proof.
  intros A G T. unfold scaleSpec.
  destruct (String.eqb _ EmptyString || SFeqb scale one); [reflexivity|].
  assert (startsWith isAmount tail = false
          /\ startsWith isBlank tail = false
          /\ Strings.HasPrefix (Strings.TrimSpace tail) "-"
             || Strings.HasPrefix (Strings.TrimSpace tail) "/" = true)
    as (TA & TB & TT).
  { apply orb_prop in T as [T|T]; apply HasPrefix_one in T as [t ->].
    - repeat split. now rewrite dash_kept.
    - repeat split. rewrite slash_kept. apply orb_true_r. }
  unfold findAmount.
  rewrite (span_app_break isAmount amount (gap +:+ tail) A
             (blank_then gap tail G TA)).
  destruct (String.eqb amount EmptyString); [reflexivity|].
  rewrite (span_app_break isBlank gap tail G TB). cbn [snd].
  now rewrite TT.
Qed.

(** X23. A spec that starts with an amount (digits,
    points and commas that [strconv.ParseFloat] accepts once each comma
    is a point), then blanks, then a rest that is no range and no
    fraction, is scaled, at a scale other than 1, to the product rounded
    to one decimal, written without a final ,0 and with a comma for the
    point, one space, and the rest as it was: the blanks become one
    space, also when there were none. *)
Theorem scaleSpec_scaled (amount gap rest : string)
    (scale num : Go.float64) :
  amount <> EmptyString ->
  allOf isAmount amount = true -> allOf isBlank gap = true ->
  startsWith isAmount (gap +:+ rest) = false ->
  startsWith isBlank rest = false ->
  Strings.HasPrefix (Strings.TrimSpace rest) "-"
  || Strings.HasPrefix (Strings.TrimSpace rest) "/" = false ->
  SFeqb scale one = false ->
  strconv_ParseFloat (Strings.ReplaceAll amount "," ".") = Some num ->
  scaleSpec (amount +:+ gap +:+ rest) scale
  = amountText (SFmul 53 1024 num scale) +:+ " " +:+ rest.
Proof.
  intros N A G GA RB T S P. unfold scaleSpec.
  assert (String.eqb amount EmptyString = false) as NE
    by (destruct amount; [now destruct N|reflexivity]).
  assert (String.eqb (amount +:+ gap +:+ rest) EmptyString = false) as ->
    by (destruct amount; [now destruct N|reflexivity]).
  rewrite S. cbn [orb]. unfold findAmount.
  rewrite (span_app_break isAmount amount (gap +:+ rest) A GA), NE.
  rewrite (span_app_break isBlank gap rest G RB). cbn [snd].
  now rewrite T, P.
Qed.

(** X24. [scaleSpec] either returns the
    spec as it is, or replaces the amount at its head and the blanks
    after it by the scaled amount and one space: what follows is kept
    byte for byte, and the amount written holds no point. *)
Theorem scaleSpec_changes_amount_only (spec : string) (scale : Go.float64) :
  scaleSpec spec scale = spec
  \/ exists amount gap rest num,
       spec = amount +:+ gap +:+ rest
       /\ amount <> EmptyString
       /\ allOf isAmount amount = true /\ allOf isBlank gap = true
       /\ startsWith isBlank rest = false
       /\ strconv_ParseFloat (Strings.ReplaceAll amount "," ".") = Some num
       /\ scaleSpec spec scale
          = amountText (SFmul 53 1024 num scale) +:+ " " +:+ rest
       /\ countChar "." (amountText (SFmul 53 1024 num scale)) = O.
Proof.
  unfold scaleSpec.
  destruct (String.eqb spec EmptyString || SFeqb scale one); [now left|].
  unfold findAmount. destruct (span isAmount spec) as [amount r] eqn:SA.
  destruct (String.eqb amount EmptyString) eqn:NE; [now left|].
  destruct (span isBlank r) as [gap rest] eqn:SB. cbn [snd].
  destruct (Strings.HasPrefix _ "-" || Strings.HasPrefix _ "/"); [now left|].
  destruct (strconv_ParseFloat _) as [num|] eqn:P; [|now left].
  right. exists amount, gap, rest, num.
  apply span_spec in SA as (-> & A & _).
  apply span_spec in SB as (-> & G & RB).
  repeat split; try assumption.
  - intros ->. discriminate NE.
  - apply ReplaceAll_none. reflexivity.
Qed.

Lemma ingredientsOf_names (items : list JSON) (scale : Go.float64) :
  List.map Name (ingredientsOf items scale)
  = List.filter Cli.nonEmpty (List.map nameOf items).
Proof.
  induction items as [|item rest IH]; [reflexivity|].
  cbn [ingredientsOf List.map List.filter].
  destruct (Cli.nonEmpty (nameOf item)); cbn [negb List.map Name];
    now rewrite IH.
Qed.

(** X25. [recipeIngredients] returns nil exactly
    when there is no item to read (the list under items, or the one
    under ingredients when items is missing, no list or empty).
    Otherwise it returns, in the order of the items, one ingredient for
    each item that has a name (its itemId, else its name, else its
    text), and never an ingredient without a name; the list under
    ingredients is not read once items holds an element. *)
Theorem recipeIngredients_names (recipe : gmap string JSON)
    (scale : Go.float64) :
  let items := Conv.toSlice (Conv.index recipe "items") in
  let read := if Nat.eqb (List.length items) 0
              then Conv.toSlice (Conv.index recipe "ingredients")
              else items in
  (read = [] /\ recipeIngredients recipe scale = None)
  \/ (read <> []
      /\ exists out,
           recipeIngredients recipe scale = Some out
           /\ List.map Name out
              = List.filter Cli.nonEmpty (List.map nameOf read)
           /\ List.Forall (fun i => Name i <> EmptyString) out).
Proof.
  intros items read.
  assert (itemsOf recipe = read) as I.
  { unfold itemsOf, read, items.
    now destruct (Conv.toSlice (Conv.index recipe "items")). }
  unfold recipeIngredients. rewrite I.
  destruct read as [|item rest] eqn:R; [now left|]. right.
  split; [discriminate|]. rewrite <- R. eexists. split; [reflexivity|].
  pose proof (ingredientsOf_names read scale) as N.
  split; [exact N|].
  apply List.Forall_forall. intros i In.
  assert (List.In (Name i) (List.map Name (ingredientsOf read scale))) as M
    by (apply List.in_map; exact In).
  rewrite N in M. apply List.filter_In in M as [_ M].
  intros E. rewrite E in M. discriminate M.
Qed.

End RecipeFacts.

Lemma HasSuffix_slash (base : string) :
  Strings.HasSuffix (base +:+ "/") "/" = true.
Proof.
  induction base as [|c base IH]; [reflexivity|].
  change (Strings.HasSuffix (String c (base +:+ "/")) "/" = true).
  cbn [Strings.HasSuffix]. rewrite IH. apply orb_true_r.
Qed.

(** X26. The address of the service a client
    keeps is never empty and always ends in a slash, so a path can be
    appended to it, and normalising it again changes nothing. *)
Theorem normalizeBaseURL_slash (base : string) :
  Bring.normalizeBaseURL base <> EmptyString
  /\ Strings.HasSuffix (Bring.normalizeBaseURL base) "/" = true
  /\ Bring.normalizeBaseURL (Bring.normalizeBaseURL base)
     = Bring.normalizeBaseURL base.
Proof.
  assert (forall b, b <> EmptyString -> Strings.HasSuffix b "/" = true ->
                    Bring.normalizeBaseURL b = b) as Fix.
  { intros b N S. unfold Bring.normalizeBaseURL. rewrite S.
    destruct b; [now destruct N|reflexivity]. }
  assert (Bring.normalizeBaseURL base <> EmptyString
          /\ Strings.HasSuffix (Bring.normalizeBaseURL base) "/" = true)
    as [N S].
  { unfold Bring.normalizeBaseURL.
    destruct (String.eqb base EmptyString) eqn:E.
    - split; [discriminate|reflexivity].
    - destruct (Strings.HasSuffix base "/") eqn:S.
      + split; [|exact S]. intros ->. discriminate E.
      + split; [|apply HasSuffix_slash].
        destruct base; [discriminate E|discriminate]. }
  repeat split; [exact N|exact S|exact (Fix _ N S)].
Qed.

Lemma range_witness_run :
  Strings.HasPrefix "-2 tbsp" "-" || Strings.HasPrefix "-2 tbsp" "/" = true.
Proof. reflexivity. Qed.

(** The range of the tests, at the scale 2. *)
Lemma scaleSpec_keeps_ranges_witness :
  Recipe.scaleSpec (H := Reference.runtime) "1 -2 tbsp" Cases.double
  = "1 -2 tbsp".
Proof.
  exact (scaleSpec_keeps_ranges (H := Reference.runtime) "1" " " "-2 tbsp"
           Cases.double eq_refl eq_refl range_witness_run).
Defined.

Lemma amount_parsed :
  strconv_ParseFloat (Runtime := Reference.runtime)
    (Strings.ReplaceAll "2,5" "," ".")
  = Some (S754_finite false 5629499534213120 (-51)).
Proof. vm_compute. reflexivity. Qed.

Lemma amount_written :
  Recipe.amountText
    (SFmul 53 1024 (S754_finite false 5629499534213120 (-51))
       Cases.oneAndHalf)
  = "3,8".
Proof. vm_compute. reflexivity. Qed.

Lemma unit_plain :
  Strings.HasPrefix (Strings.TrimSpace "kg") "-"
  || Strings.HasPrefix (Strings.TrimSpace "kg") "/" = false.
Proof. vm_compute. reflexivity. Qed.

(** Two and a half kilograms at the scale 1.5: 3.75 is written 3,8. *)
Lemma scaleSpec_scaled_witness :
  Recipe.scaleSpec (H := Reference.runtime) "2,5  kg" Cases.oneAndHalf
  = "3,8 kg".
Proof.
  refine (eq_trans
            (scaleSpec_scaled (H := Reference.runtime) "2,5" "  " "kg"
               Cases.oneAndHalf _ _ eq_refl eq_refl eq_refl eq_refl
               unit_plain eq_refl amount_parsed) _).
  - discriminate.
  - rewrite amount_written. reflexivity.
Defined.

Lemma testConfig_reads_back :
  Store.json_UnmarshalConfig (Codec := ReferenceCodec.codec)
    (Store.json_MarshalIndent (Codec := ReferenceCodec.codec)
       Cases.testConfig)
  = Some Cases.testConfig.
Proof. vm_compute. reflexivity. Qed.

(** The configuration of the persistence test, saved over a file of
    preferences. *)
Lemma saveConfig_then_loadConfig_witness :
  Store.loadConfig (H := ReferenceCodec.codec) Store.noFaults
    (Some (Store.json_MarshalIndent (Codec := ReferenceCodec.codec)
             Cases.testConfig))
  = Cases.testConfig.
Proof.
  exact (proj1 (saveConfig_then_loadConfig (H := ReferenceCodec.codec)
                  Store.noFaults Cases.testConfig Cases.preferences _
                  eq_refl testConfig_reads_back eq_refl)).
Defined.
